(** * Chillers dashboard: normalisation, monthly aggregation, estimates and
      accuracy ledger

    Shallow embedding of the numeric core of
    [_executores/tratamento_dados.py], [_executores/estimativas_dados.py] and
    [_executores/validacao_acuracia.py].

    Conventions of the embedding.
    - A pandas/numpy [float64] is a value of [num]: an exact rational, one of
      the two infinities, or NaN.  The four operations follow the IEEE rules
      for the special values; rounding error, overflow and the sign of zero
      are not represented.
    - A [datetime64[ns]] is an integer count of nanoseconds since the epoch;
      [NaT] is [None].
    - A data frame is a list of rows.  Boolean masks are [bool] functions and
      row selection is [List.filter].
    - Library entry points whose result depends on text parsing
      ([pd.to_datetime], [pd.to_numeric]) and [numpy.sqrt] are fields of the
      class [Biblioteca]; every general theorem holds for any instance. *)

From Stdlib Require Import ZArith QArith Qround Qabs Qminmax Lia Lqa List.
From Stdlib Require Import String Ascii Sorted Permutation.
From stdpp Require Import base tactics list sorting gmap strings.

Local Open Scope Z_scope.

(** ** Floating point values *)

Module Num.

Inductive num : Type :=
  | NaN
  | Inf (neg : bool)
  | Fin (q : Q).

Definition is_nan (x : num) : bool :=
  match x with NaN => true | _ => false end.

(** [pd.notnull] on a float. *)
Definition notnull (x : num) : bool := negb (is_nan x).

Definition is_inf (x : num) : bool :=
  match x with Inf _ => true | _ => false end.

Definition is_fin (x : num) : bool :=
  match x with Fin _ => true | _ => false end.

Definition finito (x : num) : Prop := is_fin x = true.

Definition Qneg (q : Q) : bool :=
  match Qcompare q 0 with Lt => true | _ => false end.

Definition Qzero (q : Q) : bool := Qeq_bool q 0.

Definition fadd (x y : num) : num :=
  match x, y with
  | NaN, _ | _, NaN => NaN
  | Inf a, Inf b => if Bool.eqb a b then Inf a else NaN
  | Inf a, Fin _ => Inf a
  | Fin _, Inf b => Inf b
  | Fin p, Fin q => Fin (p + q)
  end.

Definition fopp (x : num) : num :=
  match x with
  | NaN => NaN
  | Inf a => Inf (negb a)
  | Fin p => Fin (- p)
  end.

Definition fsub (x y : num) : num := fadd x (fopp y).

Definition fmul (x y : num) : num :=
  match x, y with
  | NaN, _ | _, NaN => NaN
  | Inf a, Inf b => Inf (xorb a b)
  | Inf a, Fin q => if Qzero q then NaN else Inf (xorb a (Qneg q))
  | Fin p, Inf b => if Qzero p then NaN else Inf (xorb (Qneg p) b)
  | Fin p, Fin q => Fin (p * q)
  end.

(** numpy division: a finite value divided by zero is an infinity, and
    [0 / 0] is NaN; no exception is raised. *)
Definition fdiv (x y : num) : num :=
  match x, y with
  | NaN, _ | _, NaN => NaN
  | Inf _, Inf _ => NaN
  | Inf a, Fin q => Inf (xorb a (Qneg q))
  | Fin _, Inf _ => Fin 0
  | Fin p, Fin q =>
      if Qzero q then (if Qzero p then NaN else Inf (Qneg p))
      else Fin (p / q)
  end.

(** Comparisons; every comparison with NaN is false. *)
Definition flt (x y : num) : bool :=
  match x, y with
  | NaN, _ | _, NaN => false
  | Inf a, Inf b => a && negb b
  | Inf a, Fin _ => a
  | Fin _, Inf b => negb b
  | Fin p, Fin q => match Qcompare p q with Lt => true | _ => false end
  end.

Definition fle (x y : num) : bool :=
  match x, y with
  | NaN, _ | _, NaN => false
  | Inf a, Inf b => a || negb b
  | Inf a, Fin _ => a
  | Fin _, Inf b => negb b
  | Fin p, Fin q => Qle_bool p q
  end.

Definition fgt (x y : num) : bool := flt y x.
Definition fge (x y : num) : bool := fle y x.

Definition feqb (x y : num) : bool :=
  match x, y with
  | Inf a, Inf b => Bool.eqb a b
  | Fin p, Fin q => Qeq_bool p q
  | _, _ => false
  end.

(** Equality of values: rationals are compared by [Qeq]. *)
Definition num_eq (x y : num) : Prop :=
  match x, y with
  | NaN, NaN => True
  | Inf a, Inf b => a = b
  | Fin p, Fin q => (p == q)%Q
  | _, _ => False
  end.

Definition of_Z (z : Z) : num := Fin (inject_Z z).

(** [Series.fillna(v)]. *)
Definition fillna (v : num) (x : num) : num :=
  if is_nan x then v else x.

(** [Series.replace(0, np.nan)]. *)
Definition replace_zero_nan (x : num) : num :=
  match x with
  | Fin q => if Qzero q then NaN else x
  | _ => x
  end.

(** Round half to even, to an integer. *)
Definition round_half_even (q : Q) : Z :=
  let f := Qfloor q in
  match Qcompare (q - inject_Z f) (1 # 2) with
  | Lt => f
  | Gt => f + 1
  | Eq => if Z.even f then f else f + 1
  end.

(** [round(x, n)] on a rational. *)
Definition Qround_casas (n : nat) (q : Q) : Q :=
  let e := inject_Z (10 ^ Z.of_nat n) in
  Qred (inject_Z (round_half_even (q * e)) / e).

Definition Qround2 (q : Q) : Q := Qround_casas 2 q.

(** [round(x, 2)] on a float; the special values are returned unchanged. *)
Definition round2 (x : num) : num :=
  match x with
  | Fin q => Fin (Qround2 q)
  | _ => x
  end.

(** Values that are not NaN, in order ([skipna=True]). *)
Definition dropna (l : list num) : list num := List.filter notnull l.

Definition fsum (l : list num) : num := fold_right fadd (Fin 0) l.

(** [Series.sum()]: NaN entries are skipped, the empty sum is 0. *)
Definition soma (l : list num) : num := fsum (dropna l).

(** [Series.mean()]: NaN entries are skipped; NaN when nothing is left. *)
Definition media (l : list num) : num :=
  match dropna l with
  | [] => NaN
  | v => fdiv (fsum v) (of_Z (Z.of_nat (length v)))
  end.

Definition Qsum (l : list Q) : Q := fold_right Qplus 0%Q l.

Definition Qmedia (l : list Q) : Q := (Qsum l / inject_Z (Z.of_nat (length l)))%Q.


End Num.

Export Num.

(** ** Text helpers (Python [str] methods)

    A text is the sequence of the bytes of its UTF-8 encoding.  Whitespace is
    the ASCII whitespace; the case mappings cover the letters of ASCII and of
    the Latin-1 Supplement (U+00C0 to U+00FF, two bytes [C3 xx]), which hold
    the Portuguese alphabet, and leave every other character as it is. *)

Module Texto.

Local Open Scope string_scope.

(** [str.isspace] for the ASCII range. *)
Definition is_space (c : ascii) : bool :=
  let n := nat_of_ascii c in
  ((9 <=? n) && (n <=? 13) || (28 <=? n) && (n <=? 32))%nat.

Fixpoint rev_app (s acc : string) : string :=
  match s with
  | EmptyString => acc
  | String c s' => rev_app s' (String c acc)
  end.

Definition rev (s : string) : string := rev_app s EmptyString.

Definition is_empty (s : string) : bool :=
  match s with EmptyString => true | _ => false end.

(** [acc] holds the current token, reversed. *)
Fixpoint split_go (s acc : string) : list string :=
  match s with
  | EmptyString => if is_empty acc then [] else [rev acc]
  | String c s' =>
      if is_space c
      then (if is_empty acc then split_go s' EmptyString
            else rev acc :: split_go s' EmptyString)
      else split_go s' (String c acc)
  end.

(** [s.split()]: split on runs of whitespace, no empty tokens. *)
Definition split (s : string) : list string := split_go s EmptyString.

Fixpoint lstrip (s : string) : string :=
  match s with
  | String c s' => if is_space c then lstrip s' else s
  | EmptyString => EmptyString
  end.

(** [s.strip()]. *)
Definition strip (s : string) : string := rev (lstrip (rev (lstrip s))).

(** [sep.join(l)]. *)
Fixpoint join (sep : string) (l : list string) : string :=
  match l with
  | [] => EmptyString
  | [x] => x
  | x :: l' => x ++ sep ++ join sep l'
  end.

Definition lower_ascii (c : ascii) : ascii :=
  let n := nat_of_ascii c in
  if ((65 <=? n) && (n <=? 90))%nat then ascii_of_nat (n + 32) else c.

(** Second byte of a capital letter U+00C0 to U+00DE, the multiplication
    sign U+00D7 left out. *)
Definition maiuscula_latin1 (d : ascii) : bool :=
  let n := nat_of_ascii d in
  ((128 <=? n) && (n <=? 158) && negb (n =? 151))%nat.

(** Second byte of a small letter U+00E0 to U+00FE, the division sign
    U+00F7 left out. *)
Definition minuscula_latin1 (d : ascii) : bool :=
  let n := nat_of_ascii d in
  ((160 <=? n) && (n <=? 190) && negb (n =? 183))%nat.

(** [s.lower()]. *)
Fixpoint lower (s : string) : string :=
  match s with
  | EmptyString => EmptyString
  | String c s' =>
      match s' with
      | String d s'' =>
          if Ascii.eqb c "195" && maiuscula_latin1 d
          then String c (String (ascii_of_nat (nat_of_ascii d + 32)) (lower s''))
          else String (lower_ascii c) (lower s')
      | EmptyString => String (lower_ascii c) EmptyString
      end
  end.

Fixpoint starts_with (p s : string) : bool :=
  match p, s with
  | EmptyString, _ => true
  | String a p', String b s' => if Ascii.eqb a b then starts_with p' s' else false
  | String _ _, EmptyString => false
  end.

(** [sub in s]. *)
Fixpoint contains (sub s : string) : bool :=
  starts_with sub s ||
  match s with
  | EmptyString => false
  | String _ s' => contains sub s'
  end.

(** [s.replace(",", ".")]. *)
Fixpoint virgula_para_ponto (s : string) : string :=
  match s with
  | EmptyString => EmptyString
  | String c s' =>
      String (if Ascii.eqb c "," then "."%char else c) (virgula_para_ponto s')
  end.

(** [s.replace(" ", "")]. *)
Fixpoint sem_espacos (s : string) : string :=
  match s with
  | EmptyString => EmptyString
  | String c s' =>
      if Ascii.eqb c " " then sem_espacos s' else String c (sem_espacos s')
  end.

(** Split on one separator character, keeping empty fields. *)
Fixpoint split_char_go (sep : ascii) (s acc : string) : list string :=
  match s with
  | EmptyString => [rev acc]
  | String c s' =>
      if Ascii.eqb c sep then rev acc :: split_char_go sep s' EmptyString
      else split_char_go sep s' (String c acc)
  end.

Definition split_char (sep : ascii) (s : string) : list string :=
  split_char_go sep s EmptyString.

Definition digito (c : ascii) : option Z :=
  let n := nat_of_ascii c in
  if ((48 <=? n) && (n <=? 57))%nat then Some (Z.of_nat n - 48) else None.

Fixpoint digitos_go (s : string) (acc : Z) : option Z :=
  match s with
  | EmptyString => Some acc
  | String c s' =>
      match digito c with
      | Some d => digitos_go s' (10 * acc + d)
      | None => None
      end
  end.

(** A non-empty run of decimal digits. *)
Definition digitos (s : string) : option Z :=
  if is_empty s then None else digitos_go s 0.

End Texto.

(** ** Calendar arithmetic behind [Series.dt.year] and [Series.dt.month] *)

Module Calendario.

Definition ns_por_dia : Z := 86400 * 1000000000.

(** Civil date of a day count since 1970-01-01 (proleptic Gregorian). *)
Definition civil_from_days (z : Z) : Z * Z * Z :=
  let z := z + 719468 in
  let era := z / 146097 in
  let doe := z - era * 146097 in
  let yoe := (doe - doe / 1460 + doe / 36524 - doe / 146096) / 365 in
  let y := yoe + era * 400 in
  let doy := doe - (365 * yoe + yoe / 4 - yoe / 100) in
  let mp := (5 * doy + 2) / 153 in
  let d := doy - (153 * mp + 2) / 5 + 1 in
  let m := if mp <? 10 then mp + 3 else mp - 9 in
  (if m <=? 2 then y + 1 else y, m, d).

Definition days_from_civil (y m d : Z) : Z :=
  let y := if m <=? 2 then y - 1 else y in
  let era := y / 400 in
  let yoe := y - era * 400 in
  let doy := (153 * (if 2 <? m then m - 3 else m + 9) + 2) / 5 + d - 1 in
  let doe := yoe * 365 + yoe / 4 - yoe / 100 + doy in
  era * 146097 + doe - 719468.

(** [ts.year] and [ts.month] of a timestamp in nanoseconds. *)
Definition ano_de (t : Z) : Z := fst (fst (civil_from_days (t / ns_por_dia))).
Definition mes_de (t : Z) : Z := snd (fst (civil_from_days (t / ns_por_dia))).

Definition bissexto (y : Z) : bool :=
  ((y mod 4 =? 0) && negb (y mod 100 =? 0)) || (y mod 400 =? 0).

(** [calendar.monthrange(y, m)[1]]. *)
Definition dias_no_mes (y m : Z) : Z :=
  if m =? 2 then (if bissexto y then 29 else 28)
  else if (m =? 4) || (m =? 6) || (m =? 9) || (m =? 11) then 30
  else 31.

(** Timestamp of a civil date and time of day. *)
Definition carimbo (y m d hh mm ss : Z) : Z :=
  (days_from_civil y m d * 86400 + hh * 3600 + mm * 60 + ss) * 1000000000.

End Calendario.

(** ** Library interface *)

(** [to_datetime] is [pd.to_datetime(., errors="coerce", dayfirst=True)] on
    one text cell ([None] is NaT), [to_datetime_formato] is
    [pd.to_datetime(., format="%Y-%m-%d %H:%M:%S", errors="coerce")] on one
    text cell, [to_numeric] is [pd.to_numeric(., errors="coerce")] on one
    text cell, and [sqrt] is [numpy.sqrt] on a non-negative rational.  A
    column is converted cell by cell. *)
Class Biblioteca := {
  to_datetime : string -> option Z;
  to_datetime_formato : string -> option Z;
  to_numeric : string -> num;
  sqrt : Q -> Q
}.

(** A reference instance, used for the worked scenarios: day-first dates
    [DD/MM/YYYY HH:MM[:SS]], dates [YYYY-MM-DD HH:MM:SS] under the explicit
    format, plain decimals [[-]D+[.D+]], and a square root truncated to
    twelve decimal places. *)
Module Referencia.

Import Texto Calendario.

Definition entre (lo hi x : Z) : bool := (lo <=? x) && (x <=? hi).

Definition data_hora (s : string) : option Z :=
  match split s with
  | [data; hora] =>
      match List.map digitos (split_char "/" data),
            List.map digitos (split_char ":" hora) with
      | [Some d; Some m; Some y], [Some hh; Some mm] =>
          if entre 1 12 m && entre 1 (dias_no_mes y m) d
             && entre 0 23 hh && entre 0 59 mm
          then Some (carimbo y m d hh mm 0) else None
      | [Some d; Some m; Some y], [Some hh; Some mm; Some ss] =>
          if entre 1 12 m && entre 1 (dias_no_mes y m) d
             && entre 0 23 hh && entre 0 59 mm && entre 0 59 ss
          then Some (carimbo y m d hh mm ss) else None
      | _, _ => None
      end
  | _ => None
  end.

Definition data_hora_formato (s : string) : option Z :=
  match split s with
  | [data; hora] =>
      match List.map digitos (split_char "-" data),
            List.map digitos (split_char ":" hora) with
      | [Some y; Some m; Some d], [Some hh; Some mm; Some ss] =>
          if entre 1 12 m && entre 1 (dias_no_mes y m) d
             && entre 0 23 hh && entre 0 59 mm && entre 0 59 ss
          then Some (carimbo y m d hh mm ss) else None
      | _, _ => None
      end
  | _ => None
  end.

Definition sem_sinal (s : string) : option Q :=
  match split_char "." s with
  | [i] => option_map inject_Z (digitos i)
  | [i; f] =>
      match digitos i, digitos f with
      | Some a, Some b =>
          Some (Qred (inject_Z a
                      + inject_Z b / inject_Z (10 ^ Z.of_nat (String.length f))))
      | _, _ => None
      end
  | _ => None
  end.

Definition decimal (s : string) : num :=
  match s with
  | String "-" s' =>
      match sem_sinal s' with Some q => Fin (Qred (- q)) | None => NaN end
  | _ => match sem_sinal s with Some q => Fin q | None => NaN end
  end.

Definition raiz (q : Q) : Q :=
  Qred (inject_Z (Z.sqrt (Qfloor (q * inject_Z (10 ^ 24)))) / inject_Z (10 ^ 12)).

Definition pandas : Biblioteca :=
  {| to_datetime := data_hora; to_datetime_formato := data_hora_formato;
     to_numeric := decimal; sqrt := raiz |}.

End Referencia.

(** ** [_executores/utils.py] *)

Module Utils.

Local Open Scope string_scope.

Definition MESES_ORDEM : list string :=
  [ "Janeiro"; "Fevereiro"; "Março"; "Abril"; "Maio"; "Junho";
    "Julho"; "Agosto"; "Setembro"; "Outubro"; "Novembro"; "Dezembro" ].

Fixpoint posicao (x : string) (l : list string) : option nat :=
  match l with
  | [] => None
  | y :: l' => if String.eqb x y then Some O else option_map S (posicao x l')
  end.

(** Code of a label in [pd.Categorical(., categories=MESES_ORDEM,
    ordered=True)]; a label outside the categories becomes NaN. *)
Definition codigo_mes (m : string) : option nat := posicao m MESES_ORDEM.

Definition isin (x : string) (l : list string) : bool :=
  match posicao x l with Some _ => true | None => false end.

(** Order of [sort_values(["Ano", "Mês"])] on a categorical month; NaN
    codes go last. *)
Definition ano_mes_le (a b : Z * option nat) : Prop :=
  a.1 < b.1 \/
  (a.1 = b.1 /\
   match a.2, b.2 with
   | _, None => True
   | None, Some _ => False
   | Some i, Some j => (i <= j)%nat
   end).

End Utils.

(** ** [_executores/tratamento_dados.py] *)

Module Tratamento.

Import Texto Calendario Utils.
Local Open Scope string_scope.

Definition MES_NUM_PARA_PT : gmap Z string :=
  list_to_map
    [ (1, "Janeiro"); (2, "Fevereiro"); (3, "Março"); (4, "Abril");
      (5, "Maio"); (6, "Junho"); (7, "Julho"); (8, "Agosto");
      (9, "Setembro"); (10, "Outubro"); (11, "Novembro"); (12, "Dezembro") ].

Definition numero_mes_para_nome_pt_br (n : Z) : option string :=
  MES_NUM_PARA_PT !! n.

(** A row of the normalised frame [[dt, Pot_Elet_KW, Pot_Frig_KW, COP]]. *)
Record Amostra := {
  dt : option Z;
  Pot_Elet_KW : num;
  Pot_Frig_KW : num;
  COP : num
}.

Definition tem_dt (a : Amostra) : bool :=
  match dt a with Some _ => true | None => false end.

(** [df.dropna(subset=["dt"])]. *)
Definition dropna_dt (l : list Amostra) : list Amostra := List.filter tem_dt l.

(** Order of [sort_values("dt")]: ascending, NaT last. *)
Definition dt_le (a b : Amostra) : Prop :=
  match dt a, dt b with
  | _, None => True
  | None, Some _ => False
  | Some x, Some y => x <= y
  end.

#[global] Instance dt_le_dec : RelDecision dt_le.
Proof.
  intros a b. unfold dt_le.
  destruct (dt a), (dt b); try (left; exact I); try (right; tauto).
  apply Z_le_dec.
Defined.

(** [df.sort_values("dt")]; the order among equal timestamps is the one of
    a merge sort. *)
Definition sort_values_dt (l : list Amostra) : list Amostra :=
  merge_sort dt_le l.

(** The timestamps of a frame, NaT entries left out. *)
Definition carimbos (l : list Amostra) : list Z := omap dt l.

Section Normalizador.

Context `{Biblioteca}.

Definition celula_numerica (c : option string) : num :=
  match c with Some s => to_numeric s | None => NaN end.

(** Width of [pd.DataFrame(rows)]: the longest row. *)
Definition largura (rows : list (list string)) : nat :=
  fold_right Nat.max O (List.map (@length string) rows).

Definition linha_de_tokens (n : nat) (parts : list string) : Amostra :=
  {| dt := to_datetime (nth 0 parts "" ++ " " ++ nth 1 parts "");
     Pot_Frig_KW := celula_numerica (nth_error parts (n - 3));
     Pot_Elet_KW := celula_numerica (nth_error parts (n - 2));
     COP := celula_numerica (nth_error parts (n - 1)) |}.

(** [converter_tokens_para_amostras_chiller]: the argument is the single
    text column of the frame. *)
Definition converter_tokens_para_amostras_chiller (s : list string)
  : list Amostra :=
  let rows := List.filter (fun parts => (6 <=? length parts)%nat)
                          (List.map split s) in
  let n := largura rows in
  sort_values_dt (dropna_dt (List.map (linha_de_tokens n) rows)).

(** A raw frame: rows of cells; [None] is an empty (NaN) cell, [Some s] the
    text of a cell. *)
Definition Bruto := list (list (option string)).

Definition cabecalho_achatado (linha : string) : bool :=
  let jn := lower linha in
  contains "data" jn && contains "hora" jn && contains "pot" jn.

(** Rows joined into one line each, as in the fallback of
    [converter_tabela_para_amostras_chiller] (step 3). *)
Definition juntar_linhas (df : Bruto) : list string :=
  List.filter (fun l => negb (cabecalho_achatado l))
    (List.map (fun r => strip (join " " (omap id r))) df).

Definition coluna_de (j : nat) (r : list (option string)) : option string :=
  match nth_error r j with Some c => c | None => None end.

Definition coluna_opcional (c : option nat) (r : list (option string)) : num :=
  match c with
  | Some j => celula_numerica (coluna_de j r)
  | None => NaN
  end.

(** A row of [pd.DataFrame({"dt": dt, "Pot_Elet_KW": pot_elet,
    "Pot_Frig_KW": pot_frig, "COP": cop})]. *)
Definition linha_tabelada (ce : nat) (c_pot_frig c_cop : option nat)
    (tr : option Z * list (option string)) : Amostra :=
  {| dt := tr.1;
     Pot_Elet_KW := celula_numerica (coluna_de ce tr.2);
     Pot_Frig_KW := coluna_opcional c_pot_frig tr.2;
     COP := coluna_opcional c_cop tr.2 |}.

(** [converter_tabela_para_amostras_chiller], steps 3 and 4.  The header
    resolution of steps 1 and 2 is an input: [dts] is the parsed timestamp
    series, [c_pot_elet], [c_pot_frig], [c_cop] are the positions of the
    resolved columns ([None] for a column that was not found), and
    [achatado_suspeito] is the flag computed from the headers. *)
Definition converter_tabela_para_amostras_chiller
    (df : Bruto) (dts : list (option Z))
    (c_pot_elet c_pot_frig c_cop : option nat) (achatado_suspeito : bool)
  : list Amostra :=
  match c_pot_elet, c_pot_frig, c_cop, achatado_suspeito with
  | None, None, None, _ | _, _, _, true =>
      converter_tokens_para_amostras_chiller (juntar_linhas df)
  | None, _, _, false => []
  | Some ce, _, _, false =>
      sort_values_dt (dropna_dt
        (List.map (linha_tabelada ce c_pot_frig c_cop) (combine dts df)))
  end.

Definition COLUNAS_CHILLER_COMPLETO : list string :=
  [ "Data"; "Hora"; "Arref_m3_h"; "Arref_bar"; "Arref_C"; "Arref_Rotacao_B1";
    "Arref_Status_B1"; "Arref_Status_B2"; "Arref_Status_B3";
    "Alim_m3_h"; "Alim_bar"; "Alim_C"; "Retorno_bar"; "Retorno_C";
    "Status_CH1"; "Status_CH2"; "Status_CH3"; "Status_BAG1"; "Status_BAG2";
    "Status_BAG3"; "Status_BAG4";
    "Pot_Frig_KW"; "Pot_Elet_KW"; "COP" ].

(** [tokenizar_linhas]: the non-empty cells of a row joined by one space
    and stripped; flattened header lines are removed. *)
Definition tokenizar_linhas (df : Bruto) : list string :=
  List.filter (fun l => negb (cabecalho_achatado l))
    (List.map
       (fun r => strip (join " "
                  (List.filter (fun x => negb (is_empty x)) (omap id r))))
       df).

(** A row of the wide frame: the positional tokens under the names of
    [COLUNAS_CHILLER_COMPLETO], and the derived columns. *)
Record Larga := {
  campos : list (string * string);
  dt_larga : option Z;
  Pot_Frig_larga : num;
  Pot_Elet_larga : num;
  COP_larga : num
}.

Fixpoint campo (nome : string) (l : list (string * string)) : string :=
  match l with
  | [] => ""
  | (k, v) :: l' => if String.eqb nome k then v else campo nome l'
  end.

Definition linha_larga (xs : list string) : Larga :=
  let cs := combine COLUNAS_CHILLER_COMPLETO
                    (firstn (length COLUNAS_CHILLER_COMPLETO) xs) in
  {| campos := cs;
     dt_larga := to_datetime (campo "Data" cs ++ " " ++ campo "Hora" cs);
     Pot_Frig_larga := to_numeric (virgula_para_ponto (campo "Pot_Frig_KW" cs));
     Pot_Elet_larga := to_numeric (virgula_para_ponto (campo "Pot_Elet_KW" cs));
     COP_larga := to_numeric (virgula_para_ponto (campo "COP" cs)) |}.

(** [separar_colunas_tokenizadas]. *)
Definition separar_colunas_tokenizadas (df : Bruto) : list Larga :=
  let toks := List.map split (tokenizar_linhas df) in
  let ok := List.filter
              (fun xs => (length COLUNAS_CHILLER_COMPLETO <=? length xs)%nat)
              toks in
  List.map linha_larga ok.

(** [wide[["dt","Pot_Elet_KW","Pot_Frig_KW","COP"]]]. *)
Definition amostra_de_larga (w : Larga) : Amostra :=
  {| dt := dt_larga w;
     Pot_Elet_KW := Pot_Elet_larga w;
     Pot_Frig_KW := Pot_Frig_larga w;
     COP := COP_larga w |}.

(** [criar_arquivo_transicao_chiller], the branch taken for a flattened or
    single-column sheet: the wide frame when it has rows, otherwise the token
    parser on the joined lines. *)
Definition amostras_de_planilha_achatada (raw : Bruto) : list Amostra :=
  match separar_colunas_tokenizadas raw with
  | [] => converter_tokens_para_amostras_chiller (tokenizar_linhas raw)
  | wide => List.map amostra_de_larga wide
  end.

End Normalizador.

(** *** Sampling step *)

(** One entry of [series_dt.diff().dt.total_seconds().div(60.0)]. *)
Definition delta_minutos (a b : option Z) : num :=
  match a, b with
  | Some x, Some y => fdiv (fdiv (of_Z (y - x)) (of_Z 1000000000)) (Fin 60)
  | _, _ => NaN
  end.

(** The deltas of consecutive entries, first (undefined) entry removed. *)
Fixpoint diff_minutos (l : list (option Z)) : list num :=
  match l with
  | a :: (b :: _) as tl => delta_minutos a b :: diff_minutos tl
  | _ => []
  end.

(** Ascending order with NaN last, as numpy sorts. *)
Definition num_ord (x y : num) : Prop :=
  match x, y with
  | _, NaN => True
  | NaN, _ => False
  | _, _ => fle x y = true
  end.

#[global] Instance num_ord_dec : RelDecision num_ord.
Proof.
  intros x y. unfold num_ord.
  destruct x, y; try (left; exact I); try (right; tauto);
    apply bool_decide_eq_true_1 || apply _.
Defined.

Definition ordenar (l : list num) : list num := merge_sort num_ord l.

(** [Series.median()]. *)
Definition mediana (l : list num) : num :=
  let v := ordenar (dropna l) in
  let n := length v in
  match n with
  | O => NaN
  | _ =>
      if Nat.odd n then nth (n / 2) v NaN
      else fdiv (fadd (nth (n / 2 - 1) v NaN) (nth (n / 2) v NaN)) (Fin 2)
  end.

Definition fabs (x : num) : num :=
  match x with
  | NaN => NaN
  | Inf _ => Inf false
  | Fin q => Fin (Qabs q)
  end.

(** [np.argmin]: the first position holding the least value. *)
Fixpoint argmin_go (dist : Q -> num) (melhor : Q) (l : list Q) : Q :=
  match l with
  | [] => melhor
  | c :: l' =>
      if flt (dist c) (dist melhor) then argmin_go dist c l'
      else argmin_go dist melhor l'
  end.

Definition argmin (dist : Q -> num) (l : list Q) : Q :=
  match l with
  | [] => 0%Q
  | c :: l' => argmin_go dist c l'
  end.

Definition candidatos : list Q := [1; 5; 10; 15; 30; 60]%Q.

Definition deltas_validos (series_dt : list (option Z)) : list num :=
  List.filter (fun d => fgt d (Fin 0) && fle d (Fin 60))
              (diff_minutos series_dt).

Definition estimar_intervalo_de_amostragem_minutos
    (series_dt : list (option Z)) : num :=
  match deltas_validos series_dt with
  | [] => Fin 1
  | deltas =>
      let med := mediana deltas in
      Fin (argmin (fun c => fabs (fsub (Fin c) med)) candidatos)
  end.

(** *** Monthly aggregation *)

(** A row of the frame returned by [carregar_amostras_chiller]. *)
Record AmostraPasso := {
  amostra : Amostra;
  step_h : num
}.

(** The last step of [carregar_amostras_chiller], common to its three
    paths: [df] is the frame the function has obtained (read back from the
    transition file by [ler_normalizado] below, or returned by a parser on
    the last-resort path), and every row receives the inferred step, in
    hours. *)
Definition carregar_amostras_chiller (df : list Amostra) : list AmostraPasso :=
  let passo_min := estimar_intervalo_de_amostragem_minutos (List.map dt df) in
  List.map (fun a => {| amostra := a; step_h := fdiv passo_min (Fin 60) |}) df.

(** A row of [Chiller_amostras_normalizadas.csv] as [pd.read_csv] returns
    it: the text of each cell, [None] for an empty cell. *)
Record LinhaCsv := {
  csv_dt : option string;
  csv_Pot_Elet_KW : option string;
  csv_Pot_Frig_KW : option string;
  csv_COP : option string
}.

Section Intermediario.

Context `{Biblioteca}.

(** [dt.notna().mean() < 0.8]; the mean of an empty series is NaN and the
    comparison is false. *)
Definition poucos_validos (dts : list (option Z)) : bool :=
  flt (media (List.map (fun d => match d with
                                 | Some _ => Fin 1
                                 | None => Fin 0
                                 end) dts))
      (Fin (8 # 10)).

(** [interpretar_datetime_intermediario]: the explicit format first, and the
    day-first reading of the whole column when fewer than 80% of the cells
    parse. *)
Definition interpretar_datetime_intermediario (series : list (option string))
  : list (option Z) :=
  let dts := List.map (fun c => c ≫= to_datetime_formato) series in
  if poucos_validos dts
  then List.map (fun c => c ≫= to_datetime) series
  else dts.

(** The frame [carregar_amostras_chiller] reads back from the transition
    file: [dt] through [interpretar_datetime_intermediario], the three
    numeric columns through [pd.to_numeric]. *)
Definition ler_normalizado (csv : list LinhaCsv) : list Amostra :=
  let dts := interpretar_datetime_intermediario (List.map csv_dt csv) in
  List.map
    (fun dr : option Z * LinhaCsv =>
       {| dt := dr.1;
          Pot_Elet_KW := celula_numerica (csv_Pot_Elet_KW dr.2);
          Pot_Frig_KW := celula_numerica (csv_Pot_Frig_KW dr.2);
          COP := celula_numerica (csv_COP dr.2) |})
    (combine dts csv).

(** [carregar_amostras_chiller] on the paths that consume the transition
    file, from the rows of the file to the frame returned. *)
Definition carregar_amostras_do_normalizado (csv : list LinhaCsv)
  : list AmostraPasso :=
  carregar_amostras_chiller (ler_normalizado csv).

End Intermediario.

(** A row of the monthly frame. *)
Record Mensal := {
  Ano : Z;
  Mes : string;
  Consumo_KWh : num;
  Horas_Trabalhadas : num
}.

(** [pot]: the electric power with missing readings filled with 0. *)
Definition potencia (a : AmostraPasso) : num :=
  fillna (Fin 0) (Pot_Elet_KW (amostra a)).

Definition ligado (potencia_min_kw : num) (a : AmostraPasso) : bool :=
  fgt (potencia a) potencia_min_kw.

Definition kwh_linha (potencia_min_kw : num) (a : AmostraPasso) : num :=
  if ligado potencia_min_kw a then fmul (potencia a) (step_h a) else Fin 0.

Definition h_linha (potencia_min_kw : num) (a : AmostraPasso) : num :=
  if ligado potencia_min_kw a then step_h a else Fin 0.

(** The grouping key [(Ano, Mês)]; [None] when a component is missing, and
    such rows belong to no group. *)
Definition chave (a : AmostraPasso) : option (Z * string) :=
  match dt (amostra a) with
  | Some t =>
      match numero_mes_para_nome_pt_br (mes_de t) with
      | Some m => Some (ano_de t, m)
      | None => None
      end
  | None => None
  end.

Definition no_grupo (k : Z * string) (a : AmostraPasso) : bool :=
  bool_decide (chave a = Some k).

Definition grupo (k : Z * string) (l : list AmostraPasso) : list AmostraPasso :=
  List.filter (no_grupo k) l.

Definition mensal_le (a b : Mensal) : Prop :=
  ano_mes_le (Ano a, codigo_mes (Mes a)) (Ano b, codigo_mes (Mes b)).

#[global] Instance mensal_le_dec : RelDecision mensal_le.
Proof.
  intros a b. unfold mensal_le, ano_mes_le. simpl.
  destruct (codigo_mes (Mes a)), (codigo_mes (Mes b)); apply _.
Defined.

(** The row of [groupby(["Ano", "Mês"])[["kwh_linha", "h_linha"]].sum()]
    for the key [k]. *)
Definition mensal_de (potencia_min_kw : num) (parsed : list AmostraPasso)
    (k : Z * string) : Mensal :=
  {| Ano := k.1; Mes := k.2;
     Consumo_KWh := soma (List.map (kwh_linha potencia_min_kw) (grupo k parsed));
     Horas_Trabalhadas := soma (List.map (h_linha potencia_min_kw) (grupo k parsed)) |}.

(** [agregar_consumo_e_horas_chiller], on the frame of
    [carregar_amostras_chiller]. *)
Definition agregar_consumo_e_horas_chiller
    (parsed : list AmostraPasso) (potencia_min_kw : num) : list Mensal :=
  let monthly :=
    List.map (mensal_de potencia_min_kw parsed)
             (remove_dups (omap chave parsed)) in
  merge_sort mensal_le
    (List.filter (fun r => isin (Mes r) MESES_ORDEM) monthly).

(** Rows that carry an electric power reading. *)
Definition tem_potencia (a : AmostraPasso) : bool :=
  notnull (Pot_Elet_KW (amostra a)).

(** *** Weighted means of the history table *)

(** A row of the frame [am] of [construir_tabela_historico_de_chiller]: a
    sample and its weight [w]. *)
Record AmostraPeso := {
  linha : AmostraPasso;
  w : num
}.

(** [am["w"] = am["step_h"].where(ligado, 0.0)]. *)
Definition com_peso (potencia_min_kw : num) (amostras : list AmostraPasso)
  : list AmostraPeso :=
  List.map (fun a => {| linha := a;
                        w := if ligado potencia_min_kw a then step_h a
                             else Fin 0 |})
           amostras.

(** [np.nansum]: NaN entries count as 0. *)
Definition nansum (l : list num) : num := fsum (dropna l).

(** [_weighted_avg(g, col)]. *)
Definition _weighted_avg (g : list AmostraPeso) (col : Amostra -> num) : num :=
  let ws := List.map (fun r => fillna (Fin 0) (w r)) g in
  let xs := List.map (fun r => col (amostra (linha r))) g in
  if fle (nansum ws) (Fin 0) then NaN
  else fdiv (nansum (List.map (fun '(x, p) => fmul x p) (combine xs ws)))
            (nansum ws).

(** The group of [am.groupby(["Ano", "Mês"])] for the key [k]. *)
Definition grupo_am (k : Z * string) (am : list AmostraPeso) : list AmostraPeso :=
  List.filter (fun r => no_grupo k (linha r)) am.

(** The value of the row of key [k] in the frames [pot_media] and
    [cop_medio]. *)
Definition media_ponderada_de (potencia_min_kw : num)
    (amostras : list AmostraPasso) (col : Amostra -> num) (k : Z * string) : num :=
  _weighted_avg (grupo_am k (com_peso potencia_min_kw amostras)) col.

(** *** Price of the kWh per year *)

(** A cell of the [Valor] column: a number, or a text such as ["0,5"]. *)
Inductive Valor :=
  | Numero (x : Q)
  | Texto (s : string).

(** A row of [KWH.xlsx] and of [Valor_KWh_Ano.xlsx]; [None] is an empty
    cell.  The years are integers. *)
Record LinhaKwh := {
  k_Ano : option Z;
  k_Valor : option Valor
}.

(** [df.dropna()] on the two columns. *)
Definition dropna_kwh (l : list LinhaKwh) : list LinhaKwh :=
  List.filter (fun r => bool_decide (is_Some (k_Ano r))
                        && bool_decide (is_Some (k_Valor r))) l.

(** [df.drop_duplicates(subset=["Ano"], keep="last")]: a row is kept when no
    later row has its year; the rows kept stay in their order. *)
Fixpoint drop_duplicates_last (l : list LinhaKwh) : list LinhaKwh :=
  match l with
  | [] => []
  | r :: l' =>
      if existsb (fun r' => bool_decide (k_Ano r' = k_Ano r)) l'
      then drop_duplicates_last l'
      else r :: drop_duplicates_last l'
  end.

(** Order of [sort_values("Ano")]: ascending, empty years last. *)
Definition kwh_le (a b : LinhaKwh) : Prop :=
  match k_Ano a, k_Ano b with
  | _, None => True
  | None, Some _ => False
  | Some x, Some y => x <= y
  end.

#[global] Instance kwh_le_dec : RelDecision kwh_le.
Proof.
  intros a b. unfold kwh_le.
  destruct (k_Ano a), (k_Ano b); try (left; exact I); try (right; tauto).
  apply Z_le_dec.
Defined.

Definition df_fixo : list LinhaKwh :=
  [ {| k_Ano := Some 2022; k_Valor := Some (Texto "0,5") |} ].

(** [tratar_arquivo_kwh_para_dados_cummins]: [df_entrada] is the frame read
    from [KWH.xlsx], [destino] the frame of [Valor_KWh_Ano.xlsx] when that
    file exists.  The result is the frame written to [Valor_KWh_Ano.xlsx];
    [None] when the function returns without writing. *)
Definition tratar_arquivo_kwh_para_dados_cummins
    (df_entrada : list LinhaKwh) (destino : option (list LinhaKwh))
  : option (list LinhaKwh) :=
  match df_entrada with
  | [] => None
  | _ =>
      let df_entrada := dropna_kwh df_entrada in
      let df_entrada :=
        List.filter (fun r => negb (bool_decide (k_Ano r = Some 2022)))
                    df_entrada in
      let df_entrada := (df_entrada ++ df_fixo)%list in
      let df_total :=
        match destino with
        | Some df_existente => (df_existente ++ df_entrada)%list
        | None => df_entrada
        end in
      Some (merge_sort kwh_le (drop_duplicates_last df_total))
  end.

End Tratamento.

(** ** The accuracy ledger [Historico_Precisao_Estimativas.csv] *)

(** A row of the ledger, written by [atualizar_historico_acuracia] and read
    back by [carregar_vies_historico]. *)
Record LinhaPrecisao := {
  p_Ano : Z;
  p_Mes : string;
  p_Tipo : string;
  Consumo_Real : num;
  Consumo_Estimado : num;
  Erro_Consumo : num;
  Horas_Reais : num;
  Horas_Estimadas_p : num;
  Erro_Horas : num;
  Temp_Real : num;
  Temp_Estimada_p : num;
  Erro_Temp : num;
  Potencia_Media : num;
  Fator_Utilizacao : num;
  COP_Medio : num;
  CO2_Emitido : num
}.

(** ** [_executores/estimativas_dados.py] *)

Module Estimativas.

Import Utils Calendario.
Local Open Scope string_scope.

(** A row of the treated history table: the two key columns and the
    numeric cell under each column name. *)
Record Linha := {
  Ano : Z;
  Mes : string;
  celula : string -> num
}.

Record Tabela := {
  colunas : list string;
  linhas : list Linha
}.

Definition vazio {A} (l : list A) : bool :=
  match l with [] => true | _ => false end.

(** [Series.quantile(q)], linear interpolation between the two nearest
    order statistics of the values that are not NaN. *)
Definition quantil (l : list num) (q : Q) : num :=
  let v := Tratamento.ordenar (dropna l) in
  match length v with
  | O => NaN
  | S n' =>
      let pos := (q * inject_Z (Z.of_nat n'))%Q in
      let lo := Z.to_nat (Qfloor pos) in
      let frac := (pos - inject_Z (Qfloor pos))%Q in
      let a := nth lo v NaN in
      let b := nth (Nat.min (S lo) n') v NaN in
      fadd a (fmul (fsub b a) (Fin frac))
  end.

(** The IQR fence of a series: [(limite_inf, limite_sup)]. *)
Definition cerca (vals : list num) : num * num :=
  let Q1 := quantil vals (1 # 4) in
  let Q3 := quantil vals (3 # 4) in
  let IQR := fsub Q3 Q1 in
  (fsub Q1 (fmul (Fin (3 # 2)) IQR), fadd Q3 (fmul (Fin (3 # 2)) IQR)).

Definition dentro (c : num * num) (x : num) : bool :=
  fge x c.1 && fle x c.2.

Definition menor_ano (l : list Linha) : Z :=
  match l with
  | [] => 0
  | r :: l' => fold_right Z.min (Ano r) (List.map Ano l')
  end.

(** [np.average(a, weights=w)]. *)
Definition np_average (a w : list num) : num :=
  fdiv (fsum (List.map (fun '(x, p) => fmul x p) (combine a w))) (fsum w).

(** The rows of a month in the years before [ano_atual]. *)
Definition do_mes_antes (df : Tabela) (mes : string) (ano_atual : Z) : list Linha :=
  List.filter (fun r => String.eqb (Mes r) mes && (Ano r <? ano_atual)%Z) (linhas df).

(** The recency-weighted mean of the rows kept by the fence. *)
Definition media_ponderada (coluna : string) (df_filtrado : list Linha) : num :=
  let ano_min := menor_ano df_filtrado in
  np_average (List.map (fun r => celula r coluna) df_filtrado)
             (List.map (fun r => of_Z (Z.max 1 (Ano r - ano_min + 1))) df_filtrado).

Definition media_historica_corrigida
    (df : Tabela) (coluna : string) (mes : string) (ano_atual : Z) : option num :=
  let df_mes := do_mes_antes df mes ano_atual in
  if vazio df_mes || negb (isin coluna (colunas df)) then None
  else
    let c := cerca (List.map (fun r => celula r coluna) df_mes) in
    let df_filtrado := List.filter (fun r => dentro c (celula r coluna)) df_mes in
    if vazio df_filtrado then None
    else Some (media_ponderada coluna df_filtrado).

Definition calcular_diferenca (estimado historico : option num)
  : option num * option num :=
  match estimado, historico with
  | Some e, Some h =>
      if notnull e && notnull h && negb (feqb h (Fin 0))
      then
        let delta := fsub e h in
        (Some (round2 delta), Some (round2 (fmul (fdiv delta h) (Fin 100))))
      else (None, None)
  | _, _ => (None, None)
  end.

(** The dictionary returned by [estimar_consumo_mensal]. *)
Record Faixa := {
  min : option num;
  esperado : option num;
  max : option num
}.

Definition faixa_nula : Faixa := {| min := None; esperado := None; max := None |}.

(** [round(x, 2) if pd.notnull(x) else None]. *)
Definition arredondar_ou_nulo (x : num) : option num :=
  if notnull x then Some (round2 x) else None.

(** Python's [max(0, x)]: [x] when [x > 0] holds, else [0]. *)
Definition max0 (x : num) : num := if fgt x (Fin 0) then x else Fin 0.

(** Truth value of an optional integer argument. *)
Definition verdadeiro (d : option Z) : bool :=
  match d with Some z => negb (z =? 0)%Z | None => false end.

(** The rows [estimar_consumo_mensal] works on: those of the month and,
    when a year is given, of the years before it. *)
Definition historico_restrito (df : Tabela) (mes : string) (ano : option Z)
  : list Linha :=
  let df_mes := List.filter (fun r => String.eqb (Mes r) mes) (linhas df) in
  match ano with
  | Some a => List.filter (fun r => (Ano r <? a)%Z) df_mes
  | None => df_mes
  end.

Section ComBiblioteca.

Context `{Biblioteca}.

Definition fsqrt (x : num) : num :=
  match x with
  | NaN => NaN
  | Inf neg => if neg then NaN else Inf false
  | Fin q => if Qneg q then NaN else Fin (sqrt q)
  end.

(** [Series.std(ddof=0)]: NaN entries are skipped and the squared
    deviations are divided by the number of values. *)
Definition desvio_padrao (l : list num) : num :=
  match dropna l with
  | [] => NaN
  | v =>
      let n := of_Z (Z.of_nat (length v)) in
      let m := fdiv (fsum v) n in
      fsqrt (fdiv (fsum (List.map (fun x => fmul (fsub x m) (fsub x m)) v)) n)
  end.

Definition estimar_consumo_mensal
    (df : Tabela) (mes : string) (ano : option Z)
    (consumo_parcial : option num) (dias_medidos dias_do_mes : option Z) : Faixa :=
  if negb (forallb (fun col => isin col (colunas df))
                   ["Ano"; "Mês"; "Consumo (KWh)"])
  then faixa_nula
  else
    let df_mes := historico_restrito df mes ano in
    if vazio df_mes then faixa_nula
    else
      let consumo := List.map (fun r => celula r "Consumo (KWh)") df_mes in
      let consumo_medio := media consumo in
      let consumo_std := desvio_padrao consumo in
      let esperado :=
        match consumo_parcial with
        | Some parcial =>
            if verdadeiro dias_medidos && verdadeiro dias_do_mes
            then fmul (fdiv parcial (of_Z (default 0 dias_medidos)))
                      (of_Z (default 0 dias_do_mes))
            else consumo_medio
        | None => consumo_medio
        end in
      let minimo := max0 (fsub esperado consumo_std) in
      let maximo := fadd esperado consumo_std in
      {| min := arredondar_ou_nulo minimo;
         esperado := arredondar_ou_nulo esperado;
         max := arredondar_ou_nulo maximo |}.

End ComBiblioteca.

(** *** Historical bias *)

(** The per-month dictionary built by the loop of
    [carregar_vies_historico]. *)
Definition vies_por_mes (df_hist : list LinhaPrecisao) : gmap string num :=
  foldl
    (fun (vm : gmap string num) (mes : string) =>
       let df_mes := List.filter (fun r => String.eqb (p_Mes r) mes) df_hist in
       if (3 <=? length df_mes)%nat
       then <[mes := media (List.map Erro_Consumo df_mes)]> vm
       else vm)
    ∅ (remove_dups (List.map p_Mes df_hist)).

(** [carregar_vies_historico]; the argument is the ledger file, [None] when
    it does not exist. *)
Definition carregar_vies_historico (arquivo : option (list LinhaPrecisao))
  : option num * gmap string num :=
  match arquivo with
  | None => (None, ∅)
  | Some df =>
      let df_hist := List.filter (fun r => String.eqb (p_Tipo r) "Real") df in
      if (6 <=? length df_hist)%nat
      then (Some (media (List.map Erro_Consumo df_hist)), vies_por_mes df_hist)
      else (None, ∅)
  end.

(** [vies_mensal.get(mes_nome, vies_global)]. *)
Definition vies_ajuste (vies : option num * gmap string num) (mes_nome : string)
  : option num :=
  match vies.2 !! mes_nome with
  | Some v => Some v
  | None => vies.1
  end.

(** *** Estimates for the current and the following year *)

(** The date returned by [datetime.today()]. *)
Record Data := {
  ano : Z;
  mes : Z;
  dia : Z
}.

(** A row of the estimate table. *)
Record LinhaEstimativa := {
  e_Ano : Z;
  e_Mes : string;
  e_Tipo : string;
  Consumo_Min : option num;
  Consumo_Esperado : option num;
  Consumo_Corrigido : option num;
  Consumo_Max : option num;
  Temp_Estimada : option num;
  Temp_Hist_Corr : option num;
  Delta_Temp : option num;
  Tendencia_Temp : option num;
  Horas_Estimadas : option num;
  Horas_Hist_Corr : option num;
  Delta_Horas : option num;
  Tendencia_Horas : option num
}.

(** The adjustment of both estimators: with a bias and an expected value at
    hand, [round(consumo_corrigido * (1 + vies_ajuste / 100), 2)]. *)
Definition aplicar_vies (vies_aj : option num) (consumo_corrigido : option num)
  : option num :=
  match vies_aj, consumo_corrigido with
  | Some v, Some c => Some (round2 (fmul c (fadd (Fin 1) (fdiv v (Fin 100)))))
  | _, _ => consumo_corrigido
  end.

Section Anuais.

Context `{Biblioteca}.

Definition primeira (coluna : string) (l : list Linha) : option num :=
  match l with
  | r :: _ => Some (celula r coluna)
  | [] => None
  end.

(** The row appended by one iteration of the loop of
    [estimar_consumo_ano_vigente]; [idx] is the month number, from 1.  The
    reads of the iteration that can raise are those of
    [colunas_lidas_no_ano_vigente] below. *)
Definition linha_ano_vigente
    (hoje : Data) (vies : option num * gmap string num) (df : Tabela)
    (idx : Z) (mes_nome : string) : LinhaEstimativa :=
  let ano_atual := ano hoje in
  let mes_atual := mes hoje in
  let df_mes_atual :=
    List.filter (fun r => (Ano r =? ano_atual)%Z && String.eqb (Mes r) mes_nome)
                (linhas df) in
  let temp_hist_corr := media_historica_corrigida df "Temp. Média (ºC)" mes_nome ano_atual in
  let horas_hist_corr := media_historica_corrigida df "Horas Trabalhadas (h)" mes_nome ano_atual in
  let '(consumo_dict, temp_estim, horas_estim, tipo) :=
    if (idx <? mes_atual)%Z then
      (match primeira "Consumo (KWh)" df_mes_atual with
       | Some real =>
           if notnull real
           then {| min := Some real; esperado := Some real; max := Some real |}
           else estimar_consumo_mensal df mes_nome (Some ano_atual) None None None
       | None => estimar_consumo_mensal df mes_nome (Some ano_atual) None None None
       end,
       primeira "Temp. Média (ºC)" df_mes_atual,
       primeira "Horas Trabalhadas (h)" df_mes_atual,
       "Real")
    else if (idx =? mes_atual)%Z then
      (estimar_consumo_mensal df mes_nome (Some ano_atual)
         (primeira "Consumo (KWh)" df_mes_atual)
         (Some (dia hoje)) (Some (dias_no_mes ano_atual mes_atual)),
       temp_hist_corr, horas_hist_corr, "Corrigido")
    else
      (estimar_consumo_mensal df mes_nome (Some ano_atual) None None None,
       temp_hist_corr, horas_hist_corr, "Projetado") in
  let consumo_corrigido :=
    if String.eqb tipo "Projetado"
    then aplicar_vies (vies_ajuste vies mes_nome) (esperado consumo_dict)
    else esperado consumo_dict in
  let '(delta_temp, tendencia_temp_pct) := calcular_diferenca temp_estim temp_hist_corr in
  let '(delta_horas, tendencia_horas_pct) := calcular_diferenca horas_estim horas_hist_corr in
  {| e_Ano := ano_atual; e_Mes := mes_nome; e_Tipo := tipo;
     Consumo_Min := min consumo_dict;
     Consumo_Esperado := esperado consumo_dict;
     Consumo_Corrigido := consumo_corrigido;
     Consumo_Max := max consumo_dict;
     Temp_Estimada := temp_estim;
     Temp_Hist_Corr := temp_hist_corr;
     Delta_Temp := delta_temp;
     Tendencia_Temp := tendencia_temp_pct;
     Horas_Estimadas := horas_estim;
     Horas_Hist_Corr := horas_hist_corr;
     Delta_Horas := delta_horas;
     Tendencia_Horas := tendencia_horas_pct |}.

(** [enumerate(l, start=i)]. *)
Fixpoint enumerar (i : Z) (l : list string) : list (Z * string) :=
  match l with
  | [] => []
  | x :: l' => (i, x) :: enumerar (i + 1) l'
  end.

(** The table of [estimar_consumo_ano_vigente] when no iteration raises;
    [hoje] is the current date and [precisao] the ledger file read by
    [carregar_vies_historico].  The function with its error is
    [estimar_consumo_ano_vigente_ou_erro]. *)
Definition estimar_consumo_ano_vigente
    (hoje : Data) (precisao : option (list LinhaPrecisao)) (df : Tabela)
  : list LinhaEstimativa :=
  let vies := carregar_vies_historico precisao in
  List.map (fun '(idx, mes_nome) => linha_ano_vigente hoje vies df idx mes_nome)
           (enumerar 1 MESES_ORDEM).

(** The row appended by one iteration of the loop of
    [estimar_consumo_ano_seguinte]. *)
Definition linha_ano_seguinte
    (hoje : Data) (vies : option num * gmap string num) (df : Tabela)
    (mes_nome : string) : LinhaEstimativa :=
  let ano_futuro := (ano hoje + 1)%Z in
  let temp_hist_corr := media_historica_corrigida df "Temp. Média (ºC)" mes_nome (ano hoje) in
  let horas_hist_corr := media_historica_corrigida df "Horas Trabalhadas (h)" mes_nome (ano hoje) in
  let consumo_dict := estimar_consumo_mensal df mes_nome (Some ano_futuro) None None None in
  let consumo_corrigido :=
    aplicar_vies (vies_ajuste vies mes_nome) (esperado consumo_dict) in
  let '(delta_temp, tendencia_temp_pct) := calcular_diferenca temp_hist_corr temp_hist_corr in
  let '(delta_horas, tendencia_horas_pct) := calcular_diferenca horas_hist_corr horas_hist_corr in
  {| e_Ano := ano_futuro; e_Mes := mes_nome; e_Tipo := "Projetado";
     Consumo_Min := min consumo_dict;
     Consumo_Esperado := esperado consumo_dict;
     Consumo_Corrigido := consumo_corrigido;
     Consumo_Max := max consumo_dict;
     Temp_Estimada := temp_hist_corr;
     Temp_Hist_Corr := temp_hist_corr;
     Delta_Temp := delta_temp;
     Tendencia_Temp := tendencia_temp_pct;
     Horas_Estimadas := horas_hist_corr;
     Horas_Hist_Corr := horas_hist_corr;
     Delta_Horas := delta_horas;
     Tendencia_Horas := tendencia_horas_pct |}.

(** The table of [estimar_consumo_ano_seguinte] when no iteration raises;
    the function with its error is [estimar_consumo_ano_seguinte_ou_erro]. *)
Definition estimar_consumo_ano_seguinte
    (hoje : Data) (precisao : option (list LinhaPrecisao)) (df : Tabela)
  : list LinhaEstimativa :=
  let vies := carregar_vies_historico precisao in
  List.map (linha_ano_seguinte hoje vies df) MESES_ORDEM.

(** *** Column accesses that can fail *)





(** *** Consolidation *)

(** [round(x, 2) if pd.notnull(x) else x] on a cell that may be empty. *)
Definition arredondar (x : option num) : option num := option_map round2 x.

Definition arredondar_linha (r : LinhaEstimativa) : LinhaEstimativa :=
  {| e_Ano := e_Ano r; e_Mes := e_Mes r; e_Tipo := e_Tipo r;
     Consumo_Min := arredondar (Consumo_Min r);
     Consumo_Esperado := arredondar (Consumo_Esperado r);
     Consumo_Corrigido := arredondar (Consumo_Corrigido r);
     Consumo_Max := arredondar (Consumo_Max r);
     Temp_Estimada := arredondar (Temp_Estimada r);
     Temp_Hist_Corr := arredondar (Temp_Hist_Corr r);
     Delta_Temp := arredondar (Delta_Temp r);
     Tendencia_Temp := arredondar (Tendencia_Temp r);
     Horas_Estimadas := arredondar (Horas_Estimadas r);
     Horas_Hist_Corr := arredondar (Horas_Hist_Corr r);
     Delta_Horas := arredondar (Delta_Horas r);
     Tendencia_Horas := arredondar (Tendencia_Horas r) |}.

(** [gerar_estimativas], from the history table read to the frame written
    to [Estimativa_Consumo_Consolidado.csv]: the table of the current year
    followed by the table of the following year, the numeric columns
    rounded to two decimals.  Both tables are computed at the date
    [hoje]. *)
Definition gerar_estimativas
    (hoje : Data) (precisao : option (list LinhaPrecisao)) (df : Tabela)
  : list LinhaEstimativa :=
  let df_ano := estimar_consumo_ano_vigente hoje precisao df in
  let df_proximo_ano := estimar_consumo_ano_seguinte hoje precisao df in
  List.map arredondar_linha (df_ano ++ df_proximo_ano)%list.

End Anuais.

End Estimativas.

(** ** [_executores/tratamento_dados.py]: the history table *)

Module Historico.

Import Texto Utils.
Local Open Scope string_scope.

(** A row of the frame returned by
    [calcular_temperatura_media_mensal_inmet]. *)
Record TempMensal := {
  t_Ano : Z;
  t_Mes : string;
  t_Temp : num
}.

(** A row of the frames [pot_media] and [cop_medio]. *)
Record MediaMensal := {
  m_Ano : Z;
  m_Mes : string;
  m_valor : num
}.

(** A row of [Inventario_Fator_Medio_Anual_CO2_KWh.csv]. *)
Record FatorAno := {
  f_Ano : option Z;
  f_kgCO2_kWh : num
}.

(** [df.drop_duplicates()] on the key frame: the first occurrence of a key
    is kept. *)
Fixpoint drop_duplicates_go (vistos l : list (Z * string)) : list (Z * string) :=
  match l with
  | [] => []
  | k :: l' =>
      if bool_decide (k ∈ vistos) then drop_duplicates_go vistos l'
      else k :: drop_duplicates_go (k :: vistos) l'
  end.

Definition drop_duplicates (l : list (Z * string)) : list (Z * string) :=
  drop_duplicates_go [] l.

Definition chave_le (a b : Z * string) : Prop :=
  ano_mes_le (a.1, codigo_mes a.2) (b.1, codigo_mes b.2).

#[global] Instance chave_le_dec : RelDecision chave_le.
Proof.
  intros a b. unfold chave_le, ano_mes_le. simpl.
  destruct (codigo_mes a.2), (codigo_mes b.2); apply _.
Defined.

Definition linha_le (a b : Estimativas.Linha) : Prop :=
  chave_le (Estimativas.Ano a, Estimativas.Mes a)
           (Estimativas.Ano b, Estimativas.Mes b).

#[global] Instance linha_le_dec : RelDecision linha_le.
Proof. intros a b. unfold linha_le. apply _. Defined.

(** A row of the key frame: no other column yet. *)
Definition linha_de_chave (k : Z * string) : Estimativas.Linha :=
  {| Estimativas.Ano := k.1; Estimativas.Mes := k.2;
     Estimativas.celula := fun _ => NaN |}.

(** The row with the cell of column [nome] set to [v]. *)
Definition com_coluna (nome : string) (v : num) (r : Estimativas.Linha)
  : Estimativas.Linha :=
  {| Estimativas.Ano := Estimativas.Ano r; Estimativas.Mes := Estimativas.Mes r;
     Estimativas.celula :=
       fun c => if String.eqb c nome then v else Estimativas.celula r c |}.

(** [df.merge(direita, how="left")]: a row of [df] is repeated once for
    each row of [direita] it matches, and kept, with the new cells empty,
    when it matches none. *)
Definition merge_left {B} (casa : Estimativas.Linha -> B -> bool)
    (por : B -> Estimativas.Linha -> Estimativas.Linha)
    (direita : list B) (df : list Estimativas.Linha) : list Estimativas.Linha :=
  flat_map
    (fun r =>
       match List.filter (casa r) direita with
       | [] => [r]
       | ms => List.map (fun b => por b r) ms
       end)
    df.

Definition mesma_chave (y : Z) (m : string) (r : Estimativas.Linha) : bool :=
  (Estimativas.Ano r =? y)%Z && String.eqb (Estimativas.Mes r) m.

Definition mesmo_ano (y : option Z) (r : Estimativas.Linha) : bool :=
  bool_decide (y = Some (Estimativas.Ano r)).

(** Order of the groups of [groupby(["Ano", "Mês"])]: by year, then by
    month name as text. *)
Definition chave_texto_le (a b : Z * string) : Prop :=
  a.1 < b.1 \/ (a.1 = b.1 /\ String.leb a.2 b.2 = true).

#[global] Instance chave_texto_le_dec : RelDecision chave_texto_le.
Proof. intros a b. unfold chave_texto_le. apply _. Defined.

(** Key of a day in [diarios]: the year and the month name of the date. *)
Definition chave_do_dia (d : Z) : option (Z * string) :=
  let t := d * Calendario.ns_por_dia in
  match Tratamento.MES_NUM_PARA_PT !! Calendario.mes_de t with
  | Some m => Some (Calendario.ano_de t, m)
  | None => None
  end.

(** [df.groupby("data", as_index=False)["temp"].mean()]: one row per date,
    in date order. *)
Definition diarios (df : list (Z * num)) : list (Z * num) :=
  List.map
    (fun d => (d, media (List.map snd
                           (List.filter (fun p : Z * num => (p.1 =? d)%Z) df))))
    (merge_sort Z.le (remove_dups (List.map fst df))).

Section Inmet.

Context `{Biblioteca}.

(** A row of [pd.DataFrame({"data": dt.dt.date, "temp": temp}).dropna()]:
    the day number of the date and the temperature, when both are
    there. *)
Definition leitura (r : option string * option string) : option (Z * num) :=
  let dt := match r.1 with Some s => to_datetime s | None => None end in
  let temp :=
    match r.2 with
    | Some s => to_numeric (sem_espacos (virgula_para_ponto s))
    | None => NaN
    end in
  match dt with
  | Some t =>
      if notnull temp then Some (t / Calendario.ns_por_dia, temp) else None
  | None => None
  end.

(** [calcular_temperatura_media_mensal_inmet], once the date column and the
    temperature column have been found: [din] holds the two cells of each
    row of the file, [None] for an empty cell. *)
Definition calcular_temperatura_media_mensal_inmet
    (din : list (option string * option string)) : list TempMensal :=
  let df := omap leitura din in
  let di := diarios df in
  let chaves :=
    merge_sort chave_texto_le
      (remove_dups (omap (fun p : Z * num => chave_do_dia p.1) di)) in
  List.map
    (fun k =>
       {| t_Ano := k.1; t_Mes := k.2;
          t_Temp :=
            round2
              (media
                 (List.map snd
                    (List.filter
                       (fun p : Z * num =>
                          bool_decide (chave_do_dia p.1 = Some k))
                       di))) |})
    chaves.

End Inmet.

Section Construir.

Context `{Biblioteca}.

(** [pd.to_numeric(kwh_tab["Valor"].astype(str).str.replace(",", "."),
    errors="coerce")] on one cell. *)
Definition valor_numerico (v : option Tratamento.Valor) : num :=
  match v with
  | Some (Tratamento.Numero x) => Fin x
  | Some (Tratamento.Texto s) => to_numeric (virgula_para_ponto s)
  | None => NaN
  end.

(** [construir_tabela_historico_de_chiller], from the base grid on.  The
    arguments are the frames computed before it: [mensais_temp] from INMET,
    [monthly], [pot_media] and [cop_medio] from the chiller samples (empty
    without samples), and the two yearly tables, [None] when the file is
    missing, lacks its columns or cannot be read.  The result is the table
    written, [None] when the function returns without writing. *)
Definition construir_tabela_historico_de_chiller
    (mensais_temp : list TempMensal) (monthly : list Tratamento.Mensal)
    (pot_media cop_medio : list MediaMensal)
    (kwh_tab : option (list Tratamento.LinhaKwh))
    (fator : option (list FatorAno))
  : option Estimativas.Tabela :=
  let partes_keys :=
    (List.map (fun t => (t_Ano t, t_Mes t)) mensais_temp
     ++ List.map (fun f => (Tratamento.Ano f, Tratamento.Mes f)) monthly
     ++ List.map (fun g => (m_Ano g, m_Mes g)) pot_media
     ++ List.map (fun g => (m_Ano g, m_Mes g)) cop_medio)%list in
  match partes_keys with
  | [] => None
  | _ =>
      let keys := drop_duplicates partes_keys in
      let keys := List.filter (fun k => isin k.2 MESES_ORDEM) keys in
      let keys := merge_sort chave_le keys in
      let df := List.map linha_de_chave keys in
      let df :=
        merge_left
          (fun r f => mesma_chave (Tratamento.Ano f) (Tratamento.Mes f) r)
          (fun f r =>
             com_coluna "Horas Trabalhadas (h)" (Tratamento.Horas_Trabalhadas f)
               (com_coluna "Consumo (KWh)" (Tratamento.Consumo_KWh f) r))
          monthly df in
      let df :=
        merge_left (fun r g => mesma_chave (m_Ano g) (m_Mes g) r)
          (fun g r => com_coluna "Potência Média (KW)" (m_valor g) r)
          pot_media df in
      let df :=
        merge_left (fun r g => mesma_chave (m_Ano g) (m_Mes g) r)
          (fun g r => com_coluna "COP Médio" (m_valor g) r)
          cop_medio df in
      let df :=
        match kwh_tab with
        | Some tab =>
            List.map
              (fun r =>
                 com_coluna "Gasto da Operacao (R$)"
                   (fmul (Estimativas.celula r "Consumo (KWh)")
                         (Estimativas.celula r "Preco_KWh_R$")) r)
              (merge_left (fun r a => mesmo_ano (Tratamento.k_Ano a) r)
                 (fun a r =>
                    com_coluna "Preco_KWh_R$"
                      (valor_numerico (Tratamento.k_Valor a)) r)
                 tab df)
        | None => df
        end in
      let df :=
        match fator with
        | Some tab =>
            List.map
              (fun r =>
                 com_coluna "CO2 Emitido (Kg)"
                   (fmul (Estimativas.celula r "Consumo (KWh)")
                         (Estimativas.celula r "kgCO2_kWh")) r)
              (merge_left (fun r a => mesmo_ano (f_Ano a) r)
                 (fun a r => com_coluna "kgCO2_kWh" (f_kgCO2_kWh a) r)
                 tab df)
        | None => df
        end in
      let df :=
        match mensais_temp with
        | [] => df
        | _ =>
            merge_left (fun r t => mesma_chave (t_Ano t) (t_Mes t) r)
              (fun t r => com_coluna "Temp. Média (ºC)" (t_Temp t) r)
              mensais_temp df
        end in
      Some
        {| Estimativas.colunas :=
             ([ "Ano"; "Mês"; "Consumo (KWh)"; "Horas Trabalhadas (h)";
                "Potência Média (KW)"; "COP Médio" ]
              ++ (match kwh_tab with
                  | Some _ => ["Preco_KWh_R$"; "Gasto da Operacao (R$)"]
                  | None => []
                  end)
              ++ (match fator with
                  | Some _ => ["kgCO2_kWh"; "CO2 Emitido (Kg)"]
                  | None => []
                  end)
              ++ (match mensais_temp with
                  | [] => []
                  | _ => ["Temp. Média (ºC)"]
                  end))%list;
           Estimativas.linhas := merge_sort linha_le df |}
  end.

End Construir.

End Historico.

(** ** [_executores/validacao_acuracia.py] *)

Module Validacao.

Import Utils Texto.
Local Open Scope string_scope.

(** The columns of [Tabela_Historico_Tratada.xlsx] read by the validation. *)
Record LinhaReal := {
  r_Ano : Z;
  r_Mes : string;
  Consumo_KWh : num;
  Horas_Trabalhadas : num;
  Temp_Media : num;
  Potencia_Media_KW : num;
  COP_Medio_r : num;
  CO2_Emitido_r : num
}.

(** The columns of [Estimativa_Consumo_Consolidado.csv] read by the
    validation; an empty cell of the file is NaN. *)
Record LinhaEstimada := {
  s_Ano : Z;
  s_Mes : string;
  s_Tipo : string;
  Consumo_Esperado_KWh : num;
  Horas_Estimadas_h : num;
  Temp_Estimada_C : num
}.

Definition upper_ascii (c : ascii) : ascii :=
  let n := nat_of_ascii c in
  if ((97 <=? n) && (n <=? 122))%nat then ascii_of_nat (n - 32) else c.

(** [s.capitalize()]: the first character in title case, the rest in lower
    case.  A small letter U+00E0 to U+00FE becomes its capital, the sharp s
    U+00DF becomes [Ss], the y with diaeresis U+00FF becomes U+0178 and the
    micro sign U+00B5 becomes U+039C. *)
Definition capitalize (s : string) : string :=
  match s with
  | EmptyString => EmptyString
  | String c s' =>
      match s' with
      | String d s'' =>
          if Ascii.eqb c "195" && minuscula_latin1 d
          then String c (String (ascii_of_nat (nat_of_ascii d - 32)) (lower s''))
          else if Ascii.eqb c "195" && Ascii.eqb d "159"
          then String "S" (String "s" (lower s''))
          else if Ascii.eqb c "195" && Ascii.eqb d "191"
          then String "197" (String "184" (lower s''))
          else if Ascii.eqb c "194" && Ascii.eqb d "181"
          then String "206" (String "156" (lower s''))
          else String (upper_ascii c) (lower s')
      | EmptyString => String (upper_ascii c) EmptyString
      end
  end.

(** [df["Mês"].str.capitalize().str.strip()]. *)
Definition normalizar_mes (s : string) : string := strip (capitalize s).

(** [pd.merge(df_real, df_estimado, on=["Ano", "Mês"], how="inner")]. *)
Definition merge_inner (df_real : list LinhaReal) (df_estimado : list LinhaEstimada)
  : list (LinhaReal * LinhaEstimada) :=
  flat_map
    (fun a =>
       List.map (fun b => (a, b))
         (List.filter
            (fun b => (r_Ano a =? s_Ano b)%Z && String.eqb (r_Mes a) (s_Mes b))
            df_estimado))
    df_real.

(** [(estimado - real) / den * 100], where [den] is [real] with 0 replaced
    by NaN. *)
Definition erro_pct (estimado real : num) : num :=
  let den := replace_zero_nan real in
  fmul (fdiv (fsub estimado real) den) (Fin 100).

(** [Consumo / den_fu] with [den_fu = (Potência Média * Horas).replace(0, nan)]. *)
Definition fator_utilizacao (consumo potencia_media horas : num) : num :=
  let den_fu := replace_zero_nan (fmul potencia_media horas) in
  fdiv consumo den_fu.

Definition linha_comparada (ab : LinhaReal * LinhaEstimada) : LinhaPrecisao :=
  let '(a, b) := ab in
  {| p_Ano := r_Ano a;
     p_Mes := r_Mes a;
     p_Tipo := s_Tipo b;
     Consumo_Real := Consumo_KWh a;
     Consumo_Estimado := Consumo_Esperado_KWh b;
     Erro_Consumo := erro_pct (Consumo_Esperado_KWh b) (Consumo_KWh a);
     Horas_Reais := Horas_Trabalhadas a;
     Horas_Estimadas_p := Horas_Estimadas_h b;
     Erro_Horas := erro_pct (Horas_Estimadas_h b) (Horas_Trabalhadas a);
     Temp_Real := Temp_Media a;
     Temp_Estimada_p := Temp_Estimada_C b;
     Erro_Temp := erro_pct (Temp_Estimada_C b) (Temp_Media a);
     Potencia_Media := Potencia_Media_KW a;
     Fator_Utilizacao :=
       fator_utilizacao (Consumo_KWh a) (Potencia_Media_KW a) (Horas_Trabalhadas a);
     COP_Medio := COP_Medio_r a;
     CO2_Emitido := CO2_Emitido_r a |}.

Definition precisao_le (a b : LinhaPrecisao) : Prop :=
  ano_mes_le (p_Ano a, codigo_mes (p_Mes a)) (p_Ano b, codigo_mes (p_Mes b)).

#[global] Instance precisao_le_dec : RelDecision precisao_le.
Proof.
  intros a b. unfold precisao_le, ano_mes_le. simpl.
  destruct (codigo_mes (p_Mes a)), (codigo_mes (p_Mes b)); apply _.
Defined.

Definition com_mes_normalizado_r (a : LinhaReal) : LinhaReal :=
  {| r_Ano := r_Ano a; r_Mes := normalizar_mes (r_Mes a);
     Consumo_KWh := Consumo_KWh a; Horas_Trabalhadas := Horas_Trabalhadas a;
     Temp_Media := Temp_Media a; Potencia_Media_KW := Potencia_Media_KW a;
     COP_Medio_r := COP_Medio_r a; CO2_Emitido_r := CO2_Emitido_r a |}.

Definition com_mes_normalizado_s (b : LinhaEstimada) : LinhaEstimada :=
  {| s_Ano := s_Ano b; s_Mes := normalizar_mes (s_Mes b); s_Tipo := s_Tipo b;
     Consumo_Esperado_KWh := Consumo_Esperado_KWh b;
     Horas_Estimadas_h := Horas_Estimadas_h b;
     Temp_Estimada_C := Temp_Estimada_C b |}.

(** The frame [atualizar_historico_acuracia] writes from two frames that
    hold the columns it reads, each under its own name, the month labels of
    the estimates being names of [MESES_ORDEM] (as [gerar_estimativas]
    writes them).  The function on the files it opens, with the columns
    they may lack and any label, is [atualizar_historico_acuracia] below. *)
Definition comparar_tabelas
    (df_real : list LinhaReal) (df_estimado : list LinhaEstimada)
  : list LinhaPrecisao :=
  let df_comparado :=
    merge_inner (List.map com_mes_normalizado_r df_real)
                (List.map com_mes_normalizado_s df_estimado) in
  merge_sort precisao_le (List.map linha_comparada df_comparado).

(** *** The function on its files *)

(** A row of a frame read from a file: the two key columns, the text column
    [Tipo] and the numeric cell under every other column name. *)
Record Registo := {
  g_Ano : Z;
  g_Mes : string;
  g_Tipo : string;
  g_celula : string -> num
}.

(** A frame read from a file: its column names and its rows. *)
Record Quadro := {
  q_colunas : list string;
  q_linhas : list Registo
}.

Definition com_mes_normalizado (a : Registo) : Registo :=
  {| g_Ano := g_Ano a; g_Mes := normalizar_mes (g_Mes a);
     g_Tipo := g_Tipo a; g_celula := g_celula a |}.

(** [pd.merge(df_real, df_estimado, on=["Ano", "Mês"], how="inner",
    suffixes=("_Real", "_Estimado"))], the rows. *)
Definition juntar (df_real df_estimado : list Registo)
  : list (Registo * Registo) :=
  flat_map
    (fun a =>
       List.map (fun b => (a, b))
         (List.filter
            (fun b => (g_Ano a =? g_Ano b)%Z && String.eqb (g_Mes a) (g_Mes b))
            df_estimado))
    df_real.

(** The columns of [df_comparado], the keys apart, that the function reads
    by name. *)
Definition COLUNAS_LIDAS : list string :=
  [ "Consumo (KWh)"; "Consumo Esperado (KWh)";
    "Horas Trabalhadas (h)"; "Horas Estimadas (h)";
    "Temp. Média (ºC)"; "Temp Estimada (ºC)";
    "Potência Média (KW)"; "Tipo"; "COP Médio"; "CO2 Emitido (Kg)" ].

(** A column of [df_comparado] that is not a key is found under its name
    when exactly one of the two frames has it: a name both frames have is
    renamed with the two suffixes.  Reading a name that is not found raises
    [KeyError]. *)
Definition encontrada (real estimado : Quadro) (c : string) : bool :=
  xorb (isin c (q_colunas real)) (isin c (q_colunas estimado)).

(** The cell of a row of [df_comparado] under a column that is found. *)
Definition celula_comparada (real : Quadro) (ab : Registo * Registo)
    (c : string) : num :=
  if isin c (q_colunas real) then g_celula ab.1 c else g_celula ab.2 c.

Definition tipo_comparado (real : Quadro) (ab : Registo * Registo) : string :=
  if isin "Tipo" (q_colunas real) then g_Tipo ab.1 else g_Tipo ab.2.

(** [pd.Categorical(., categories=MESES_ORDEM, ordered=True)] on one label:
    a label outside the categories becomes an empty cell, written as the
    empty text. *)
Definition categoria (m : string) : string :=
  if isin m MESES_ORDEM then m else "".

(** A row of [df_final]. *)
Definition linha_do_historico (real : Quadro) (ab : Registo * Registo)
  : LinhaPrecisao :=
  let v := celula_comparada real ab in
  {| p_Ano := g_Ano ab.1;
     p_Mes := categoria (g_Mes ab.1);
     p_Tipo := tipo_comparado real ab;
     Consumo_Real := v "Consumo (KWh)";
     Consumo_Estimado := v "Consumo Esperado (KWh)";
     Erro_Consumo := erro_pct (v "Consumo Esperado (KWh)") (v "Consumo (KWh)");
     Horas_Reais := v "Horas Trabalhadas (h)";
     Horas_Estimadas_p := v "Horas Estimadas (h)";
     Erro_Horas := erro_pct (v "Horas Estimadas (h)") (v "Horas Trabalhadas (h)");
     Temp_Real := v "Temp. Média (ºC)";
     Temp_Estimada_p := v "Temp Estimada (ºC)";
     Erro_Temp := erro_pct (v "Temp Estimada (ºC)") (v "Temp. Média (ºC)");
     Potencia_Media := v "Potência Média (KW)";
     Fator_Utilizacao :=
       fator_utilizacao (v "Consumo (KWh)") (v "Potência Média (KW)")
                        (v "Horas Trabalhadas (h)");
     COP_Medio := v "COP Médio";
     CO2_Emitido := v "CO2 Emitido (Kg)" |}.

(** [atualizar_historico_acuracia]: the arguments are the two files, [None]
    for a file that does not exist; the result is the frame written to
    [Historico_Precisao_Estimativas.csv], [None] when the function returns
    without writing (a file is missing, or an exception is caught by its
    [try]). *)
Definition atualizar_historico_acuracia
    (arquivo_real arquivo_estimado : option Quadro)
  : option (list LinhaPrecisao) :=
  match arquivo_real, arquivo_estimado with
  | Some real, Some estimado =>
      if isin "Mês" (q_colunas real) && isin "Mês" (q_colunas estimado)
         && isin "Ano" (q_colunas real) && isin "Ano" (q_colunas estimado)
         && forallb (encontrada real estimado) COLUNAS_LIDAS
      then
        let df_comparado :=
          juntar (List.map com_mes_normalizado (q_linhas real))
                 (List.map com_mes_normalizado (q_linhas estimado)) in
        Some (merge_sort precisao_le
                (List.map (linha_do_historico real) df_comparado))
      else None
  | _, _ => None
  end.

(** The rows of the two files under the columns the function reads. *)
Definition real_tipado (a : Registo) : LinhaReal :=
  {| r_Ano := g_Ano a;
     r_Mes := g_Mes a;
     Consumo_KWh := g_celula a "Consumo (KWh)";
     Horas_Trabalhadas := g_celula a "Horas Trabalhadas (h)";
     Temp_Media := g_celula a "Temp. Média (ºC)";
     Potencia_Media_KW := g_celula a "Potência Média (KW)";
     COP_Medio_r := g_celula a "COP Médio";
     CO2_Emitido_r := g_celula a "CO2 Emitido (Kg)" |}.

Definition estimado_tipado (b : Registo) : LinhaEstimada :=
  {| s_Ano := g_Ano b;
     s_Mes := g_Mes b;
     s_Tipo := g_Tipo b;
     Consumo_Esperado_KWh := g_celula b "Consumo Esperado (KWh)";
     Horas_Estimadas_h := g_celula b "Horas Estimadas (h)";
     Temp_Estimada_C := g_celula b "Temp Estimada (ºC)" |}.

End Validacao.

(** ** [Atualizar_Dados.py]: from the history table to the accuracy ledger *)

Module Atualizar.

Import Estimativas Validacao.
Local Open Scope string_scope.

(** A row of [Tabela_Historico_Tratada.xlsx] as
    [atualizar_historico_acuracia] reads it. *)
Definition linha_real (r : Linha) : LinhaReal :=
  {| r_Ano := Ano r;
     r_Mes := Mes r;
     Consumo_KWh := celula r "Consumo (KWh)";
     Horas_Trabalhadas := celula r "Horas Trabalhadas (h)";
     Temp_Media := celula r "Temp. Média (ºC)";
     Potencia_Media_KW := celula r "Potência Média (KW)";
     COP_Medio_r := celula r "COP Médio";
     CO2_Emitido_r := celula r "CO2 Emitido (Kg)" |}.

(** A row of [Estimativa_Consumo_Consolidado.csv] as
    [atualizar_historico_acuracia] reads it; an empty cell is NaN. *)
Definition linha_estimada (r : LinhaEstimativa) : LinhaEstimada :=
  {| s_Ano := e_Ano r;
     s_Mes := e_Mes r;
     s_Tipo := e_Tipo r;
     Consumo_Esperado_KWh := default NaN (Consumo_Esperado r);
     Horas_Estimadas_h := default NaN (Horas_Estimadas r);
     Temp_Estimada_C := default NaN (Temp_Estimada r) |}.

Section Ciclo.

Context `{Biblioteca}.

(** The ledger written by the steps
    [gerar_estimativas(); atualizar_historico_acuracia()] of the update,
    on the history table [df] and the ledger [precisao] of the run
    before, both steps finding the columns they read. *)
Definition historico_de_precisao
    (hoje : Data) (precisao : option (list LinhaPrecisao)) (df : Tabela)
  : list LinhaPrecisao :=
  comparar_tabelas
    (List.map linha_real (linhas df))
    (List.map linha_estimada (gerar_estimativas hoje precisao df)).

End Ciclo.

End Atualizar.

(** ** Data of the worked scenarios *)

(** A sample of 15 January 2024 without an electric power reading, with a
    five-minute step. *)
Definition amostra_sem_potencia : Tratamento.AmostraPasso :=
  {| Tratamento.amostra :=
       {| Tratamento.dt := Some (Calendario.carimbo 2024 1 15 10 0 0);
          Tratamento.Pot_Elet_KW := NaN;
          Tratamento.Pot_Frig_KW := NaN;
          Tratamento.COP := NaN |};
     Tratamento.step_h := Fin (1 # 12) |}.

(** A ledger row with the given consumption error and every other metric
    empty. *)
Definition linha_precisao (a : Z) (m tipo : string) (erro : num) : LinhaPrecisao :=
  {| p_Ano := a; p_Mes := m; p_Tipo := tipo;
     Consumo_Real := NaN; Consumo_Estimado := NaN; Erro_Consumo := erro;
     Horas_Reais := NaN; Horas_Estimadas_p := NaN; Erro_Horas := NaN;
     Temp_Real := NaN; Temp_Estimada_p := NaN; Erro_Temp := NaN;
     Potencia_Media := NaN; Fator_Utilizacao := NaN;
     COP_Medio := NaN; CO2_Emitido := NaN |}.

(** A history row holding the value [v] in every numeric column. *)
Definition linha_hist (a : Z) (m : string) (v : Q) : Estimativas.Linha :=
  {| Estimativas.Ano := a; Estimativas.Mes := m;
     Estimativas.celula := fun _ => Fin v |}.

(** A history row whose numeric cells are all empty. *)
Definition linha_hist_vazia (a : Z) (m : string) : Estimativas.Linha :=
  {| Estimativas.Ano := a; Estimativas.Mes := m;
     Estimativas.celula := fun _ => NaN |}.

Definition tabela_hist (l : list Estimativas.Linha) : Estimativas.Tabela :=
  {| Estimativas.colunas :=
       [ "Ano"; "Mês"; "Consumo (KWh)"; "Temp. Média (ºC)";
         "Horas Trabalhadas (h)" ]%string;
     Estimativas.linhas := l |}.

(** ** Predicates on text used in the statements *)

(** Every character of the string satisfies [P]. *)
Fixpoint todos (P : ascii -> Prop) (s : string) : Prop :=
  match s with
  | EmptyString => True
  | String c s' => P c /\ todos P s'
  end.

(** The character is not one of the ASCII capital letters. *)
Definition minuscula (c : ascii) : Prop :=
  ((65 <=? nat_of_ascii c) && (nat_of_ascii c <=? 90))%nat = false.

(** * Properties *)

(** ** Values *)

Section FactosNum.

Lemma num_eq_refl x : num_eq x x.
Proof. destruct x; simpl; auto. reflexivity. Qed.

Lemma num_eq_sym x y : num_eq x y -> num_eq y x.
Proof. destruct x, y; simpl; auto. intros E. symmetry. exact E. Qed.

Lemma num_eq_trans x y z : num_eq x y -> num_eq y z -> num_eq x z.
Proof.
  destruct x, y, z; simpl; try tauto; try congruence.
  intros E1 E2. rewrite E1. exact E2.
Qed.

Lemma fadd_zero_l x : num_eq (fadd (Fin 0) x) x.
Proof. destruct x; simpl; auto. ring. Qed.

Lemma fadd_eq_r x y y' : num_eq y y' -> num_eq (fadd x y) (fadd x y').
Proof.
  destruct x, y, y'; simpl; try tauto; try congruence.
  - intros ->. destruct (Bool.eqb neg neg1); simpl; auto.
  - intros E. rewrite E. reflexivity.
Qed.

Lemma Qzero_false q : ~ (q == 0)%Q -> Qzero q = false.
Proof.
  intros E. unfold Qzero. destruct (Qeq_bool q 0) eqn:B; [|reflexivity].
  apply Qeq_bool_iff in B. contradiction.
Qed.

Lemma Qzero_true q : (q == 0)%Q -> Qzero q = true.
Proof. intros E. apply Qeq_bool_iff. exact E. Qed.

Lemma Qzero_inject z : z <> 0 -> Qzero (inject_Z z) = false.
Proof.
  intros E. apply Qzero_false. unfold Qeq, inject_Z. simpl. lia.
Qed.

Lemma Qneg_false q : (0 <= q)%Q -> Qneg q = false.
Proof.
  intros E. unfold Qneg. destruct (Qcompare q 0) eqn:C; try reflexivity.
  apply Qlt_alt in C. lra.
Qed.

Lemma flt_Fin p q : flt (Fin p) (Fin q) = true <-> (p < q)%Q.
Proof.
  simpl. rewrite Qlt_alt. destruct (Qcompare p q); split; congruence.
Qed.

Lemma fsum_Fin (l : list Q) : fsum (List.map Fin l) = Fin (Qsum l).
Proof.
  unfold fsum. induction l as [|x l IH]; simpl; [reflexivity|].
  rewrite IH. reflexivity.
Qed.

Lemma dropna_Fin (l : list Q) : dropna (List.map Fin l) = List.map Fin l.
Proof.
  unfold dropna. induction l as [|x l IH]; simpl; [reflexivity|].
  rewrite IH. reflexivity.
Qed.

End FactosNum.

(** ** Normaliser *)

Section FactosNormalizador.

Import Tratamento.

#[local] Instance dt_le_total : Total dt_le.
Proof.
  intros a b. unfold dt_le.
  destruct (dt a), (dt b); auto. lia.
Qed.

#[local] Instance dt_le_trans : Transitive dt_le.
Proof.
  intros a b c. unfold dt_le.
  destruct (dt a), (dt b), (dt c); auto; try tauto. lia.
Qed.

Lemma sort_values_dt_perm l : sort_values_dt l ≡ₚ l.
Proof. apply merge_sort_Permutation. Qed.

Lemma sort_values_dt_sorted l : StronglySorted dt_le (sort_values_dt l).
Proof. apply StronglySorted_merge_sort; apply _. Qed.

Lemma dropna_dt_tem l : Forall (fun a => is_Some (dt a)) (dropna_dt l).
Proof.
  apply Forall_forall. intros a Ha. apply list_elem_of_In in Ha.
  apply filter_In in Ha. destruct Ha as [_ Ha].
  unfold tem_dt in Ha. destruct (dt a); [eauto | discriminate].
Qed.

Lemma carimbos_ordenados l :
  Forall (fun a => is_Some (dt a)) l ->
  StronglySorted dt_le l -> StronglySorted Z.le (carimbos l).
Proof.
  intros Hs Hl. induction Hl as [|a l Hl IH Ha]; simpl.
  - constructor.
  - apply Forall_cons in Hs. destruct Hs as [[t Ht] Hs].
    unfold carimbos in *. simpl. rewrite Ht. simpl.
    constructor; [auto|].
    apply Forall_forall. intros u Hu.
    apply list_elem_of_omap in Hu. destruct Hu as (b & Hb & Hu).
    rewrite Forall_forall in Ha. specialize (Ha b Hb).
    unfold dt_le in Ha. rewrite Ht, Hu in Ha. exact Ha.
Qed.

(** Frames that end in [dropna(subset=["dt"]).sort_values("dt")]. *)
Lemma dropna_sort_ok l :
  let out := sort_values_dt (dropna_dt l) in
  Forall (fun a => is_Some (dt a)) out /\
  StronglySorted Z.le (carimbos out) /\
  out ≡ₚ dropna_dt l.
Proof.
  simpl. assert (Hs : Forall (fun a => is_Some (dt a)) (sort_values_dt (dropna_dt l))).
  { rewrite sort_values_dt_perm. apply dropna_dt_tem. }
  split; [exact Hs|]. split.
  - apply carimbos_ordenados; [exact Hs | apply sort_values_dt_sorted].
  - apply sort_values_dt_perm.
Qed.

Lemma largura_perm (r r' : list (list string)) :
  r ≡ₚ r' -> largura r = largura r'.
Proof.
  unfold largura. induction 1; simpl; lia.
Qed.

Lemma filter_perm {A} (f : A -> bool) (l l' : list A) :
  l ≡ₚ l' -> List.filter f l ≡ₚ List.filter f l'.
Proof.
  induction 1; simpl; auto.
  - destruct (f x); auto.
  - destruct (f x), (f y); auto. constructor.
  - etrans; eauto.
Qed.

Lemma carimbos_perm l l' : l ≡ₚ l' -> carimbos l ≡ₚ carimbos l'.
Proof. intros E. unfold carimbos. rewrite E. reflexivity. Qed.

Lemma carimbos_iguais l l' :
  l ≡ₚ l' ->
  carimbos (sort_values_dt (dropna_dt l)) = carimbos (sort_values_dt (dropna_dt l')).
Proof.
  intros E.
  apply (StronglySorted_unique Z.le).
  - apply dropna_sort_ok.
  - apply dropna_sort_ok.
  - apply carimbos_perm. rewrite !sort_values_dt_perm.
    apply filter_perm. exact E.
Qed.

End FactosNormalizador.

Section Normalizacao.

Import Tratamento.
Context `{Biblioteca}.

Lemma tokens_perm (s s' : list string) :
  s' ≡ₚ s ->
  carimbos (converter_tokens_para_amostras_chiller s')
  = carimbos (converter_tokens_para_amostras_chiller s).
Proof.
  intros E. unfold converter_tokens_para_amostras_chiller.
  set (f := fun parts : list string => (6 <=? length parts)%nat).
  assert (Er : List.filter f (List.map Texto.split s')
               ≡ₚ List.filter f (List.map Texto.split s)).
  { apply filter_perm. apply Permutation_map. exact E. }
  rewrite (largura_perm _ _ Er).
  apply carimbos_iguais. apply Permutation_map. exact Er.
Qed.

(** C1, as amended.  The token parser and the tabular parser end in
    [dropna(subset=["dt"]).sort_values("dt")]: for every input, in any row
    order, no output row has a null timestamp, the output timestamps are in
    ascending order (not strictly: equal timestamps are all kept), and the
    output is, up to order, the list of rows whose timestamp parsed.  The
    output timestamps do not depend on the order of the input rows. *)
Theorem normalizacao_ordenada_sem_nulos :
  (forall s : list string,
     let rows := List.filter (fun parts => (6 <=? length parts)%nat)
                             (List.map Texto.split s) in
     let out := converter_tokens_para_amostras_chiller s in
     Forall (fun a => is_Some (dt a)) out /\
     StronglySorted Z.le (carimbos out) /\
     out ≡ₚ dropna_dt (List.map (linha_de_tokens (largura rows)) rows) /\
     (forall s', s' ≡ₚ s ->
        carimbos (converter_tokens_para_amostras_chiller s') = carimbos out))
  /\
  (forall df dts c_pot_elet c_pot_frig c_cop achatado,
     let out := converter_tabela_para_amostras_chiller
                  df dts c_pot_elet c_pot_frig c_cop achatado in
     Forall (fun a => is_Some (dt a)) out /\
     StronglySorted Z.le (carimbos out))
  /\
  (forall df dts ce c_pot_frig c_cop,
     let out := converter_tabela_para_amostras_chiller
                  df dts (Some ce) c_pot_frig c_cop false in
     out ≡ₚ dropna_dt (List.map (linha_tabelada ce c_pot_frig c_cop)
                                (combine dts df)) /\
     (forall df' dts', combine dts' df' ≡ₚ combine dts df ->
        carimbos (converter_tabela_para_amostras_chiller
                    df' dts' (Some ce) c_pot_frig c_cop false)
        = carimbos out)).
Proof.
  split; [|split].
  - intros s rows out.
    destruct (dropna_sort_ok (List.map (linha_de_tokens (largura rows)) rows))
      as (Hn & Hs & Hp).
    repeat split; try assumption.
    intros s' E. apply tokens_perm. exact E.
  - intros df dts ce cf cc ach out. subst out.
    unfold converter_tabela_para_amostras_chiller.
    destruct ce, cf, cc, ach;
      first [ split; [constructor | constructor]
            | destruct (dropna_sort_ok
                (List.map (linha_de_tokens
                   (largura (List.filter (fun parts => (6 <=? length parts)%nat)
                      (List.map Texto.split (juntar_linhas df)))))
                   (List.filter (fun parts => (6 <=? length parts)%nat)
                      (List.map Texto.split (juntar_linhas df)))))
                as (Hn & Hs & _); split; assumption
            | match goal with
              | |- context [linha_tabelada ?a ?b ?c] =>
                  destruct (dropna_sort_ok
                    (List.map (linha_tabelada a b c) (combine dts df)))
                    as (Hn & Hs & _); split; assumption
              end ].
  - intros df dts ce cf cc out. subst out.
    assert (E0 : forall d t,
      converter_tabela_para_amostras_chiller d t (Some ce) cf cc false
      = sort_values_dt (dropna_dt
          (List.map (linha_tabelada ce cf cc) (combine t d)))).
    { intros d t. unfold converter_tabela_para_amostras_chiller.
      destruct cf, cc; reflexivity. }
    rewrite E0. split.
    + apply sort_values_dt_perm.
    + intros df' dts' E. rewrite E0.
      apply carimbos_iguais. apply Permutation_map. exact E.
Qed.

End Normalizacao.

(** C1, counterexample: two rows of a flattened export that carry the same
    timestamp both reach the output, so the output timestamps are neither
    strictly ascending nor free of duplicates. *)
Lemma normalizacao_mantem_carimbos_repetidos :
  let out := Tratamento.converter_tokens_para_amostras_chiller
               (H := Referencia.pandas)
               [ "01/01/2024 10:00:00 a b 1 2 3"%string;
                 "01/01/2024 10:00:00 a b 4 5 6"%string ] in
  Tratamento.carimbos out = [1704103200000000000; 1704103200000000000] /\
  ~ StronglySorted Z.lt (Tratamento.carimbos out) /\
  ~ NoDup (Tratamento.carimbos out).
Proof.
  assert (E : Tratamento.carimbos
                (Tratamento.converter_tokens_para_amostras_chiller
                   (H := Referencia.pandas)
                   [ "01/01/2024 10:00:00 a b 1 2 3"%string;
                     "01/01/2024 10:00:00 a b 4 5 6"%string ])
              = [1704103200000000000; 1704103200000000000])
    by (vm_compute; reflexivity).
  intros out. subst out. rewrite E. split; [reflexivity|]. split.
  - intros Hs. inversion Hs as [|? ? _ Hf]; subst.
    inversion Hf as [|? ? Hlt _]; subst. lia.
  - intros Hn. inversion Hn as [|? ? Hni _]; subst.
    apply Hni. left.
Qed.

(** The wide branch of the flattened path is outside the statement above:
    it returns its rows as they were read.  A later row stays ahead of an
    earlier one, and a row whose timestamp does not parse stays, with a null
    timestamp. *)
Lemma planilha_achatada_larga_sem_ordenar :
  List.map Tratamento.dt
    (Tratamento.amostras_de_planilha_achatada (H := Referencia.pandas)
       [ [Some "02/01/2024 10:00:00 3 4 5 6 7 8 9 10 11 12 13 14 15 16 17 18 19 20 21 1,5 2,5 3,5"%string];
         [Some "xx/01/2024 10:00:00 3 4 5 6 7 8 9 10 11 12 13 14 15 16 17 18 19 20 21 1,5 2,5 3,5"%string];
         [Some "01/01/2024 10:00:00 3 4 5 6 7 8 9 10 11 12 13 14 15 16 17 18 19 20 21 1,5 2,5 3,5"%string] ])
  = [Some 1704189600000000000; None; Some 1704103200000000000].
Proof. vm_compute. reflexivity. Qed.

Section Separacao.

Import Tratamento Texto.
Context `{Biblioteca}.

Lemma linha_larga_campos (xs : list string) :
  (24 <= length xs)%nat ->
  let w := linha_larga xs in
  List.map fst (campos w) = COLUNAS_CHILLER_COMPLETO /\
  List.map snd (campos w) = firstn 24 xs /\
  dt_larga w = to_datetime (nth 0 xs "" ++ " " ++ nth 1 xs "")%string /\
  Pot_Frig_larga w = to_numeric (virgula_para_ponto (nth 21 xs ""%string)) /\
  Pot_Elet_larga w = to_numeric (virgula_para_ponto (nth 22 xs ""%string)) /\
  COP_larga w = to_numeric (virgula_para_ponto (nth 23 xs ""%string)).
Proof.
  intros Hlen.
  do 24 (destruct xs as [|? xs]; [simpl in Hlen; lia|]).
  repeat split; reflexivity.
Qed.

(** C9, as amended.  [separar_colunas_tokenizadas], the positional parser
    of the flattened path: the non-empty cells of each row are joined by a
    space and stripped, flattened header lines are removed, each line is
    split on whitespace, and a line is kept exactly when it has at least 24
    tokens, the number of names in [COLUNAS_CHILLER_COMPLETO].  The first 24
    tokens are assigned to those names in order, the timestamp is parsed
    from the first two tokens joined by a space, and the tokens at positions
    22, 23 and 24 (cooling power, electric power, COP) are parsed as numbers
    after every comma has been replaced by a point. *)
Theorem separacao_posicional :
  length COLUNAS_CHILLER_COMPLETO = 24%nat /\
  (forall (df : Bruto) (linha : string),
     linha ∈ tokenizar_linhas df <->
     exists r, r ∈ df /\
       linha = strip (join " " (List.filter (fun x => negb (is_empty x))
                                            (omap id r))) /\
       cabecalho_achatado linha = false) /\
  (forall (df : Bruto) (w : Larga),
     w ∈ separar_colunas_tokenizadas df <->
     exists linha, linha ∈ tokenizar_linhas df /\
       (24 <= length (split linha))%nat /\
       w = linha_larga (split linha)) /\
  (forall xs : list string,
     (24 <= length xs)%nat ->
     let w := linha_larga xs in
     List.map fst (campos w) = COLUNAS_CHILLER_COMPLETO /\
     List.map snd (campos w) = firstn 24 xs /\
     dt_larga w = to_datetime (nth 0 xs "" ++ " " ++ nth 1 xs "")%string /\
     Pot_Frig_larga w = to_numeric (virgula_para_ponto (nth 21 xs ""%string)) /\
     Pot_Elet_larga w = to_numeric (virgula_para_ponto (nth 22 xs ""%string)) /\
     COP_larga w = to_numeric (virgula_para_ponto (nth 23 xs ""%string))) /\
  Referencia.decimal (virgula_para_ponto "12,5") = Fin (25 # 2).
Proof.
  split; [reflexivity|]. split; [|split; [|split]].
  - intros df linha. unfold tokenizar_linhas.
    rewrite list_elem_of_In, filter_In, in_map_iff. split.
    + intros [(r & Hr & Hin) Hc]. exists r.
      apply list_elem_of_In in Hin. apply negb_true_iff in Hc. auto.
    + intros (r & Hin & Hr & Hc). split.
      * exists r. apply list_elem_of_In in Hin. auto.
      * rewrite Hc. reflexivity.
  - intros df w. unfold separar_colunas_tokenizadas.
    rewrite list_elem_of_In, in_map_iff. split.
    + intros (xs & Hw & Hin). apply filter_In in Hin.
      destruct Hin as [Hin Hlen]. apply in_map_iff in Hin.
      destruct Hin as (linha & Hl & Hin). subst xs.
      exists linha. apply list_elem_of_In in Hin.
      apply Nat.leb_le in Hlen. auto.
    + intros (linha & Hin & Hlen & Hw). exists (split linha).
      split; [auto|]. apply filter_In. split.
      * apply in_map. apply list_elem_of_In. exact Hin.
      * apply Nat.leb_le. exact Hlen.
  - apply linha_larga_campos.
  - vm_compute. reflexivity.
Qed.

End Separacao.

(** C9, counterexample: the canonical field count is 24, not 23; a line of
    exactly 23 tokens, which is not shorter than 23, is discarded. *)
Lemma linha_de_23_tokens_descartada :
  let linha :=
    "01/02/2024 10:00:00 3 4 5 6 7 8 9 10 11 12 13 14 15 16 17 18 19 20 21 1,5 2,5"%string in
  length (Texto.split linha) = 23%nat /\
  Tratamento.separar_colunas_tokenizadas (H := Referencia.pandas) [[Some linha]] = [] /\
  length Tratamento.COLUNAS_CHILLER_COMPLETO <> 23%nat.
Proof.
  repeat split; try (vm_compute; reflexivity).
  vm_compute. discriminate.
Qed.

(** ** Sampling step *)

Section FactosPasso.

Import Tratamento.

#[local] Instance num_ord_total : Total num_ord.
Proof.
  intros x y. unfold num_ord.
  destruct x as [|a|p], y as [|b|q]; simpl; auto.
  - destruct a, b; simpl; auto.
  - destruct a; auto.
  - destruct b; auto.
  - destruct (Qlt_le_dec p q) as [L|L].
    + left. apply Qle_bool_iff. lra.
    + right. apply Qle_bool_iff. exact L.
Qed.

#[local] Instance num_ord_trans : Transitive num_ord.
Proof.
  intros x y z. unfold num_ord.
  destruct x as [|a|p], y as [|b|q], z as [|c|r]; simpl; try tauto;
    repeat match goal with n : bool |- _ => destruct n end;
    simpl; try tauto; try congruence.
  intros L1 L2. apply Qle_bool_iff in L1, L2. apply Qle_bool_iff. lra.
Qed.

Lemma ordenar_perm l : ordenar l ≡ₚ l.
Proof. apply merge_sort_Permutation. Qed.

Lemma ordenar_ordenado l : StronglySorted num_ord (ordenar l).
Proof. apply StronglySorted_merge_sort; apply _. Qed.

Lemma dropna_finitos l : Forall finito l -> dropna l = l.
Proof.
  unfold dropna. induction 1 as [|x l Hx _ IH]; simpl; [reflexivity|].
  destruct x; try discriminate. simpl. rewrite IH. reflexivity.
Qed.

Lemma nth_finito (v : list num) i :
  Forall finito v -> (i < length v)%nat -> exists q, nth i v NaN = Fin q.
Proof.
  intros Hv Hi. rewrite Forall_forall in Hv.
  assert (Hin : In (nth i v NaN) v) by (apply nth_In; exact Hi).
  apply list_elem_of_In in Hin. specialize (Hv _ Hin).
  destruct (nth i v NaN); try discriminate. eauto.
Qed.

Lemma mediana_finita (l : list num) :
  Forall finito l -> l <> [] -> exists m, mediana l = Fin m.
Proof.
  intros Hl Hne. unfold mediana. rewrite (dropna_finitos l Hl).
  assert (Hv : Forall finito (ordenar l)) by (rewrite ordenar_perm; exact Hl).
  assert (Hlen : length (ordenar l) = length l)
    by (apply Permutation_length, ordenar_perm).
  destruct (length (ordenar l)) as [|n] eqn:En.
  - destruct l; [congruence | simpl in Hlen; lia].
  - assert (H1 : (S n / 2 < S n)%nat) by (apply Nat.div_lt; lia).
    destruct (Nat.odd (S n)).
    + apply nth_finito; [exact Hv | lia].
    + destruct (nth_finito _ (S n / 2 - 1) Hv) as [a Ha]; [lia|].
      destruct (nth_finito _ (S n / 2) Hv) as [b Hb]; [lia|].
      rewrite Ha, Hb. simpl. eauto.
Qed.

Lemma mediana_do_meio (l : list num) :
  Forall finito l -> l <> [] ->
  mediana l
  = (let v := ordenar l in
     if Nat.odd (length v) then nth (length v / 2) v NaN
     else fdiv (fadd (nth (length v / 2 - 1) v NaN) (nth (length v / 2) v NaN))
               (Fin 2)).
Proof.
  intros Hl Hne. unfold mediana. rewrite (dropna_finitos l Hl). cbv zeta.
  assert (Hlen : length (ordenar l) = length l)
    by (apply Permutation_length, ordenar_perm).
  destruct (length (ordenar l)) eqn:E; [|reflexivity].
  destruct l; [congruence | simpl in Hlen; lia].
Qed.

Lemma delta_minutos_Fin x y :
  delta_minutos (Some x) (Some y)
  = Fin (inject_Z (y - x) / inject_Z 1000000000 / 60).
Proof. reflexivity. Qed.

Lemma diff_minutos_nan_ou_finito l :
  Forall (fun d => d = NaN \/ finito d) (diff_minutos l).
Proof.
  induction l as [|a l IH]; simpl; [constructor|].
  destruct l as [|b l]; [constructor|].
  constructor; [|exact IH].
  destruct a, b; simpl; auto. right. reflexivity.
Qed.

Lemma deltas_validos_finitos l : Forall finito (deltas_validos l).
Proof.
  apply Forall_forall. intros d Hd. unfold deltas_validos in Hd.
  apply list_elem_of_In, filter_In in Hd. destruct Hd as [Hin Hc].
  pose proof (diff_minutos_nan_ou_finito l) as Hf.
  rewrite Forall_forall in Hf. apply list_elem_of_In in Hin.
  destruct (Hf d Hin) as [-> | Hd]; [discriminate | exact Hd].
Qed.

Lemma diff_minutos_lookup l i a b :
  l !! i = Some a -> l !! S i = Some b ->
  diff_minutos l !! i = Some (delta_minutos a b).
Proof.
  revert i. induction l as [|x l IH]; intros i Ha Hb; [discriminate|].
  destruct l as [|y l]; [discriminate|].
  destruct i as [|i]; simpl in *.
  - congruence.
  - apply IH; assumption.
Qed.

Lemma diff_minutos_cons_length l :
  forall x, length (diff_minutos (x :: l)) = length l.
Proof.
  induction l as [|y l IH]; intros x; [reflexivity|].
  change (diff_minutos (x :: y :: l))
    with (delta_minutos x y :: diff_minutos (y :: l)).
  cbn [length]. f_equal. apply IH.
Qed.

Lemma diff_minutos_length l : length (diff_minutos l) = pred (length l).
Proof. destruct l as [|x l]; [reflexivity | apply diff_minutos_cons_length]. Qed.

Lemma argmin_go_minimo (dist : Q -> num) (dq : Q -> Q) :
  (forall c, dist c = Fin (dq c)) ->
  forall l melhor,
    let r := argmin_go dist melhor l in
    r ∈ melhor :: l /\ (dq r <= dq melhor)%Q /\
    Forall (fun c => (dq r <= dq c)%Q) l.
Proof.
  intros Hd. induction l as [|c l IH]; intros melhor; simpl.
  - split; [left|]. split; [lra | constructor].
  - rewrite (Hd c), (Hd melhor).
    destruct (flt (Fin (dq c)) (Fin (dq melhor))) eqn:E.
    + apply flt_Fin in E. destruct (IH c) as (Hin & Hle & Hall).
      split; [right; exact Hin|]. split; [lra|].
      constructor; assumption.
    + assert (E' : (dq melhor <= dq c)%Q).
      { destruct (Qlt_le_dec (dq c) (dq melhor)) as [L|L]; [|exact L].
        apply flt_Fin in L. congruence. }
      destruct (IH melhor) as (Hin & Hle & Hall).
      split.
      { apply elem_of_cons in Hin. destruct Hin as [->|Hin];
          [left | right; right; exact Hin]. }
      split; [exact Hle|]. constructor; [lra | exact Hall].
Qed.

End FactosPasso.

(** C7.  [estimar_intervalo_de_amostragem_minutos]: the deltas are those of
    consecutive timestamps, in minutes; the deltas kept are exactly those
    with [0 < d <= 60]; when none is kept the result is 1; otherwise the
    median [m] of the kept deltas is a number, the middle value of the kept
    deltas in ascending order (the mean of the two middle values when their
    count is even), and the result is a member [r] of
    [{1, 5, 10, 15, 30, 60}] with [|r - m| <= |c - m|] for every candidate
    [c]. *)
Theorem passo_mais_proximo_da_mediana (series_dt : list (option Z)) :
  Tratamento.candidatos = [1; 5; 10; 15; 30; 60]%Q /\
  (forall x y,
     Tratamento.delta_minutos (Some x) (Some y)
     = Fin (inject_Z (y - x) / inject_Z 1000000000 / 60)) /\
  length (Tratamento.diff_minutos series_dt) = pred (length series_dt) /\
  (forall i a b,
     series_dt !! i = Some a -> series_dt !! S i = Some b ->
     Tratamento.diff_minutos series_dt !! i
     = Some (Tratamento.delta_minutos a b)) /\
  (forall d,
     d ∈ Tratamento.deltas_validos series_dt <->
     d ∈ Tratamento.diff_minutos series_dt /\
     fgt d (Fin 0) = true /\ fle d (Fin 60) = true) /\
  match Tratamento.deltas_validos series_dt with
  | [] => Tratamento.estimar_intervalo_de_amostragem_minutos series_dt = Fin 1
  | _ =>
      exists m r,
        Tratamento.mediana (Tratamento.deltas_validos series_dt) = Fin m /\
        (let v := Tratamento.ordenar (Tratamento.deltas_validos series_dt) in
         StronglySorted Tratamento.num_ord v /\
         v ≡ₚ Tratamento.deltas_validos series_dt /\
         Fin m
         = if Nat.odd (length v) then nth (length v / 2) v NaN
           else fdiv (fadd (nth (length v / 2 - 1) v NaN)
                           (nth (length v / 2) v NaN)) (Fin 2)) /\
        Tratamento.estimar_intervalo_de_amostragem_minutos series_dt = Fin r /\
        r ∈ Tratamento.candidatos /\
        Forall (fun c => (Qabs (r - m) <= Qabs (c - m))%Q) Tratamento.candidatos
  end.
Proof.
  split; [reflexivity|]. split; [intros; reflexivity|].
  split; [apply diff_minutos_length|].
  split; [apply diff_minutos_lookup|]. split.
  - intros d. unfold Tratamento.deltas_validos.
    rewrite !list_elem_of_In, filter_In, andb_true_iff. tauto.
  - unfold Tratamento.estimar_intervalo_de_amostragem_minutos.
    pose proof (deltas_validos_finitos series_dt) as Hf.
    destruct (Tratamento.deltas_validos series_dt) as [|d ds] eqn:E;
      [reflexivity|].
    destruct (mediana_finita (d :: ds) Hf) as [m Hm]; [discriminate|].
    exists m. rewrite Hm.
    pose proof (argmin_go_minimo
                  (fun c => Tratamento.fabs (fsub (Fin c) (Fin m)))
                  (fun c => Qabs (c - m))
                  (fun c => eq_refl)
                  (tl Tratamento.candidatos) 1%Q) as (Hin & Hle & Hall).
    eexists. split; [reflexivity|]. split.
    { split; [apply ordenar_ordenado|]. split; [apply ordenar_perm|].
      rewrite <- Hm. apply mediana_do_meio; [exact Hf | discriminate]. }
    split; [reflexivity|]. split; [exact Hin|].
    constructor; [exact Hle | exact Hall].
Qed.

(** ** Monthly aggregation *)

Section FactosAgregacao.

Import Tratamento Utils Calendario.

Lemma soma_cons x l :
  soma (x :: l) = if notnull x then fadd x (soma l) else soma l.
Proof. unfold soma, dropna. simpl. destruct (notnull x); reflexivity. Qed.

Lemma soma_cons_eq x l l' :
  num_eq (soma l) (soma l') -> num_eq (soma (x :: l)) (soma (x :: l')).
Proof.
  intros E. rewrite !soma_cons. destruct (notnull x); [|exact E].
  apply fadd_eq_r. exact E.
Qed.

Lemma soma_zero_cons l : num_eq (soma (Fin 0 :: l)) (soma l).
Proof. rewrite soma_cons. simpl. apply fadd_zero_l. Qed.

(** Summing the masked column equals summing over the rows that are on. *)
Lemma soma_dos_ligados (f : AmostraPasso -> num) (thr : num) l :
  num_eq (soma (List.map (fun a => if ligado thr a then f a else Fin 0) l))
         (soma (List.map f (List.filter (ligado thr) l))).
Proof.
  induction l as [|a l IH]; [apply num_eq_refl|].
  cbn [List.map List.filter]. destruct (ligado thr a); cbn [List.map].
  - apply soma_cons_eq. exact IH.
  - eapply num_eq_trans; [apply soma_zero_cons | exact IH].
Qed.

Lemma nome_do_mes_canonico n m :
  numero_mes_para_nome_pt_br n = Some m -> isin m MESES_ORDEM = true.
Proof.
  unfold numero_mes_para_nome_pt_br, MES_NUM_PARA_PT. intros Hm.
  apply elem_of_list_to_map_2 in Hm.
  repeat (apply elem_of_cons in Hm; destruct Hm as [Hm|Hm];
          [inversion Hm; subst; vm_compute; reflexivity|]).
  inversion Hm.
Qed.

Lemma chave_canonica a k : chave a = Some k -> isin k.2 MESES_ORDEM = true.
Proof.
  unfold chave. destruct (dt (amostra a)) as [t|]; [|discriminate].
  destruct (numero_mes_para_nome_pt_br (mes_de t)) as [m|] eqn:Em;
    [|discriminate].
  intros [= <-]. simpl. eapply nome_do_mes_canonico. exact Em.
Qed.

Lemma agregar_elem parsed thr f :
  f ∈ agregar_consumo_e_horas_chiller parsed thr <->
  exists k, k ∈ omap chave parsed /\ f = mensal_de thr parsed k.
Proof.
  unfold agregar_consumo_e_horas_chiller.
  rewrite merge_sort_Permutation.
  rewrite list_elem_of_In, filter_In, in_map_iff. split.
  - intros [(k & Hf & Hk) _]. exists k.
    rewrite <- list_elem_of_In, elem_of_remove_dups in Hk.
    split; [exact Hk|]. symmetry. exact Hf.
  - intros (k & Hk & Hf). split.
    + exists k. split; [symmetry; exact Hf|].
      rewrite <- list_elem_of_In, elem_of_remove_dups. exact Hk.
    + subst f. simpl. apply list_elem_of_omap in Hk.
      destruct Hk as (a & _ & Ha). apply (chave_canonica a k Ha).
Qed.

Lemma agregar_chaves_NoDup parsed thr :
  NoDup (List.map (fun f => (Ano f, Mes f))
                  (agregar_consumo_e_horas_chiller parsed thr)).
Proof.
  unfold agregar_consumo_e_horas_chiller.
  rewrite merge_sort_Permutation.
  set (ks := remove_dups (omap chave parsed)).
  assert (Hks : NoDup ks) by apply NoDup_remove_dups.
  clearbody ks. induction Hks as [|k ks Hk _ IH]; simpl; [constructor|].
  destruct (isin k.2 MESES_ORDEM); simpl; [|exact IH].
  constructor; [|exact IH].
  intros Hin. apply Hk. apply list_elem_of_In in Hin.
  apply in_map_iff in Hin. destruct Hin as (f & Hf & Hin).
  apply filter_In in Hin. destruct Hin as [Hin _].
  apply in_map_iff in Hin. destruct Hin as (k' & <- & Hin).
  simpl in Hf. destruct k, k'; simpl in *. inversion Hf; subst.
  apply list_elem_of_In. exact Hin.
Qed.

End FactosAgregacao.

(** C5.  [agregar_consumo_e_horas_chiller]: a row is on exactly when its
    electric power (a missing reading counting as 0) is strictly greater
    than the threshold; the key of a row is the year and the canonical month
    name of its timestamp; every output row carries, for its (year, month),
    the sum of [power * step_h] and the sum of [step_h] over the input rows
    that have that key and are on; a (year, month) is in the output exactly
    when some input row has that key, and no key occurs twice.  Two samples
    five minutes apart with 10 kW and 20 kW at threshold 0 give a step of 5
    minutes, 2.5 kWh and 1/6 h (0.1667 to four places).  Five samples over
    December 2023, January 2024 and February 2024, one of them without a
    reading, give one row for each of the three months, each with the totals
    of its own samples, and no row for any other month. *)
Theorem agregacao_mensal
    (parsed : list Tratamento.AmostraPasso) (potencia_min_kw : num) :
  let out := Tratamento.agregar_consumo_e_horas_chiller parsed potencia_min_kw in
  let energia a := fmul (Tratamento.potencia a) (Tratamento.step_h a) in
  let ligados f :=
    List.filter
      (fun a => fgt (Tratamento.potencia a) potencia_min_kw)
      (List.filter
         (fun a => bool_decide
                     (Tratamento.chave a
                      = Some (Tratamento.Ano f, Tratamento.Mes f)))
         parsed) in
  (forall a,
     Tratamento.ligado potencia_min_kw a
     = fgt (Tratamento.potencia a) potencia_min_kw /\
     Tratamento.potencia a
     = (if is_nan (Tratamento.Pot_Elet_KW (Tratamento.amostra a)) then Fin 0
        else Tratamento.Pot_Elet_KW (Tratamento.amostra a)) /\
     Tratamento.chave a
     = match Tratamento.dt (Tratamento.amostra a) with
       | Some t =>
           option_map (fun m => (Calendario.ano_de t, m))
             (Tratamento.numero_mes_para_nome_pt_br (Calendario.mes_de t))
       | None => None
       end) /\
  Forall (fun f =>
            num_eq (Tratamento.Consumo_KWh f)
                   (soma (List.map energia (ligados f))) /\
            num_eq (Tratamento.Horas_Trabalhadas f)
                   (soma (List.map Tratamento.step_h (ligados f)))) out /\
  (forall y m,
     (exists f, f ∈ out /\ Tratamento.Ano f = y /\ Tratamento.Mes f = m) <->
     (exists a, a ∈ parsed /\ Tratamento.chave a = Some (y, m))) /\
  NoDup (List.map (fun f => (Tratamento.Ano f, Tratamento.Mes f)) out) /\
  (let t0 := Calendario.carimbo 2024 1 15 10 0 0 in
   let a1 := {| Tratamento.dt := Some t0; Tratamento.Pot_Elet_KW := Fin 10;
                Tratamento.Pot_Frig_KW := NaN; Tratamento.COP := NaN |} in
   let a2 := {| Tratamento.dt := Some (t0 + 5 * 60 * 1000000000);
                Tratamento.Pot_Elet_KW := Fin 20;
                Tratamento.Pot_Frig_KW := NaN; Tratamento.COP := NaN |} in
   Tratamento.estimar_intervalo_de_amostragem_minutos
     [Tratamento.dt a1; Tratamento.dt a2] = Fin 5 /\
   exists c h,
     Tratamento.agregar_consumo_e_horas_chiller
       (Tratamento.carregar_amostras_chiller [a1; a2]) (Fin 0)
     = [ {| Tratamento.Ano := 2024; Tratamento.Mes := "Janeiro";
            Tratamento.Consumo_KWh := Fin c;
            Tratamento.Horas_Trabalhadas := Fin h |} ] /\
     (c == 5 # 2)%Q /\ (h == 1 # 6)%Q /\
     Qround_casas 4 h = (1667 # 10000)%Q) /\
  (let am t p := {| Tratamento.dt := Some t; Tratamento.Pot_Elet_KW := p;
                    Tratamento.Pot_Frig_KW := NaN; Tratamento.COP := NaN |} in
   exists c1 h1 c2 h2 c3 h3,
     Tratamento.agregar_consumo_e_horas_chiller
       (Tratamento.carregar_amostras_chiller
          [ am (Calendario.carimbo 2024 2 1 0 0 0) (Fin 20);
            am (Calendario.carimbo 2024 2 1 0 5 0) NaN;
            am (Calendario.carimbo 2024 2 1 0 10 0) (Fin 40);
            am (Calendario.carimbo 2023 12 31 23 55 0) (Fin 30);
            am (Calendario.carimbo 2024 1 31 23 55 0) (Fin 10) ])
       (Fin 0)
     = [ {| Tratamento.Ano := 2023; Tratamento.Mes := "Dezembro";
            Tratamento.Consumo_KWh := Fin c1;
            Tratamento.Horas_Trabalhadas := Fin h1 |};
         {| Tratamento.Ano := 2024; Tratamento.Mes := "Janeiro";
            Tratamento.Consumo_KWh := Fin c2;
            Tratamento.Horas_Trabalhadas := Fin h2 |};
         {| Tratamento.Ano := 2024; Tratamento.Mes := "Fevereiro";
            Tratamento.Consumo_KWh := Fin c3;
            Tratamento.Horas_Trabalhadas := Fin h3 |} ] /\
     (c1 == 30 * (5 # 60))%Q /\ (h1 == 5 # 60)%Q /\
     (c2 == 10 * (5 # 60))%Q /\ (h2 == 5 # 60)%Q /\
     (c3 == (20 + 40) * (5 # 60))%Q /\ (h3 == 2 * (5 # 60))%Q).
Proof.
  intros out energia ligados. split; [|split; [|split; [|split; [|split]]]].
  - intros a. split; [reflexivity|]. split; [reflexivity|].
    unfold Tratamento.chave.
    destruct (Tratamento.dt (Tratamento.amostra a)); [|reflexivity].
    destruct (Tratamento.numero_mes_para_nome_pt_br _); reflexivity.
  - apply Forall_forall. intros f Hf. apply agregar_elem in Hf.
    destruct Hf as (k & _ & ->). subst ligados energia.
    destruct k as [y m]. simpl. split.
    + apply (soma_dos_ligados
               (fun a => fmul (Tratamento.potencia a) (Tratamento.step_h a))).
    + apply (soma_dos_ligados Tratamento.step_h).
  - intros y m. split.
    + intros (f & Hf & <- & <-). apply agregar_elem in Hf.
      destruct Hf as (k & Hk & ->). apply list_elem_of_omap in Hk.
      destruct Hk as (a & Ha & Hk). exists a. destruct k. auto.
    + intros (a & Ha & Hk).
      exists (Tratamento.mensal_de potencia_min_kw parsed (y, m)).
      split; [|split; reflexivity].
      apply agregar_elem. exists (y, m). split; [|reflexivity].
      apply list_elem_of_omap. eauto.
  - apply agregar_chaves_NoDup.
  - split; [vm_compute; reflexivity|].
    exists (9000 # 3600)%Q, (600 # 3600)%Q.
    split; [vm_compute; reflexivity|].
    split; [reflexivity|]. split; vm_compute; reflexivity.
  - intros am.
    exists (150 # 60)%Q, (5 # 60)%Q, (50 # 60)%Q, (5 # 60)%Q,
           (18000 # 3600)%Q, (600 # 3600)%Q.
    split; [vm_compute; reflexivity|].
    repeat split; vm_compute; reflexivity.
Qed.

Section FactosPotenciaAusente.

Import Tratamento.

Lemma ausente_desligado thr a :
  fle (Fin 0) thr = true ->
  is_nan (Pot_Elet_KW (amostra a)) = true ->
  potencia a = Fin 0 /\ ligado thr a = false /\
  kwh_linha thr a = Fin 0 /\ h_linha thr a = Fin 0.
Proof.
  intros Hthr Hnan.
  assert (Hp : potencia a = Fin 0).
  { unfold potencia, fillna. rewrite Hnan. reflexivity. }
  assert (Hl : ligado thr a = false).
  { unfold ligado, fgt. rewrite Hp.
    destruct thr as [|b|q]; simpl in *; try discriminate.
    - destruct b; [discriminate | reflexivity].
    - apply Qle_bool_iff in Hthr.
      destruct (Qcompare q 0) eqn:C; try reflexivity.
      apply Qlt_alt in C. lra. }
  unfold kwh_linha, h_linha. rewrite Hl. auto.
Qed.

(** Dropping the rows without a power reading leaves a masked sum as it
    is, when such rows contribute 0. *)
Lemma soma_sem_ausentes (f : AmostraPasso -> num) l :
  (forall a, tem_potencia a = false -> f a = Fin 0) ->
  num_eq (soma (List.map f l))
         (soma (List.map f (List.filter tem_potencia l))).
Proof.
  intros Hf. induction l as [|a l IH]; [apply num_eq_refl|].
  cbn [List.map List.filter]. destruct (tem_potencia a) eqn:E; cbn [List.map].
  - apply soma_cons_eq. exact IH.
  - rewrite (Hf a E). eapply num_eq_trans; [apply soma_zero_cons | exact IH].
Qed.

Lemma soma_finita (l : list num) : Forall finito l -> finito (soma l).
Proof.
  intros Hl. unfold soma. rewrite (dropna_finitos l Hl).
  induction Hl as [|x l Hx _ IH]; [reflexivity|].
  unfold fsum in *. simpl. destruct x; try discriminate.
  destruct (foldr fadd (Fin 0) l); try discriminate. reflexivity.
Qed.

Lemma linhas_finitas thr a :
  is_fin (step_h a) = true ->
  is_inf (Pot_Elet_KW (amostra a)) = false ->
  finito (kwh_linha thr a) /\ finito (h_linha thr a).
Proof.
  intros Hs Hp. unfold kwh_linha, h_linha, potencia, fillna.
  destruct (ligado thr a); [|split; reflexivity].
  destruct (step_h a); try discriminate.
  destruct (Pot_Elet_KW (amostra a)); try discriminate; split; reflexivity.
Qed.

End FactosPotenciaAusente.

(** C10, as amended.  With a threshold that is not negative (the default
    is 0), a row whose electric power is missing is given power 0, is off,
    and contributes 0 kWh and 0 h; the monthly totals equal the totals over
    the rows that have a power reading, and, the steps and the readings
    present being finite, every total is a number. *)
Theorem potencia_ausente_nao_contribui
    (parsed : list Tratamento.AmostraPasso) (potencia_min_kw : num) :
  fle (Fin 0) potencia_min_kw = true ->
  Forall (fun a => is_fin (Tratamento.step_h a) = true /\
                   is_inf (Tratamento.Pot_Elet_KW (Tratamento.amostra a)) = false)
         parsed ->
  (forall a,
     is_nan (Tratamento.Pot_Elet_KW (Tratamento.amostra a)) = true ->
     Tratamento.potencia a = Fin 0 /\
     Tratamento.ligado potencia_min_kw a = false /\
     Tratamento.kwh_linha potencia_min_kw a = Fin 0 /\
     Tratamento.h_linha potencia_min_kw a = Fin 0) /\
  Forall
    (fun f =>
       let com_leitura :=
         List.filter Tratamento.tem_potencia
           (Tratamento.grupo (Tratamento.Ano f, Tratamento.Mes f) parsed) in
       is_fin (Tratamento.Consumo_KWh f) = true /\
       is_fin (Tratamento.Horas_Trabalhadas f) = true /\
       num_eq (Tratamento.Consumo_KWh f)
              (soma (List.map (Tratamento.kwh_linha potencia_min_kw) com_leitura)) /\
       num_eq (Tratamento.Horas_Trabalhadas f)
              (soma (List.map (Tratamento.h_linha potencia_min_kw) com_leitura)))
    (Tratamento.agregar_consumo_e_horas_chiller parsed potencia_min_kw).
Proof.
  intros Hthr Hfin. split.
  - intros a Ha. apply ausente_desligado; assumption.
  - apply Forall_forall. intros f Hf. apply agregar_elem in Hf.
    destruct Hf as (k & _ & ->). destruct k as [y m].
    unfold Tratamento.mensal_de.
    cbn [Tratamento.Ano Tratamento.Mes Tratamento.Consumo_KWh
         Tratamento.Horas_Trabalhadas fst snd].
    assert (Hg : Forall (fun a => finito (Tratamento.kwh_linha potencia_min_kw a) /\
                                  finito (Tratamento.h_linha potencia_min_kw a))
                        (Tratamento.grupo (y, m) parsed)).
    { apply Forall_forall. intros a Ha.
      apply list_elem_of_In, filter_In in Ha. destruct Ha as [Ha _].
      rewrite Forall_forall in Hfin. apply list_elem_of_In in Ha.
      destruct (Hfin a Ha) as [Hs Hp]. apply linhas_finitas; assumption. }
    assert (Hz : forall a, Tratamento.tem_potencia a = false ->
                   Tratamento.kwh_linha potencia_min_kw a = Fin 0 /\
                   Tratamento.h_linha potencia_min_kw a = Fin 0).
    { intros a Ha. unfold Tratamento.tem_potencia, notnull in Ha.
      apply negb_false_iff in Ha.
      destruct (ausente_desligado potencia_min_kw a Hthr Ha) as (_ & _ & ? & ?).
      auto. }
    split; [|split; [|split]].
    + apply soma_finita. apply Forall_forall. intros x Hx.
      apply list_elem_of_In, in_map_iff in Hx. destruct Hx as (a & <- & Ha).
      rewrite Forall_forall in Hg. apply list_elem_of_In in Ha.
      apply (Hg a Ha).
    + apply soma_finita. apply Forall_forall. intros x Hx.
      apply list_elem_of_In, in_map_iff in Hx. destruct Hx as (a & <- & Ha).
      rewrite Forall_forall in Hg. apply list_elem_of_In in Ha.
      apply (Hg a Ha).
    + apply soma_sem_ausentes. intros a Ha. apply (Hz a Ha).
    + apply soma_sem_ausentes. intros a Ha. apply (Hz a Ha).
Qed.

(** C10, witness: at threshold 0, the row without a power reading is off
    and contributes nothing. *)
Lemma potencia_ausente_nao_contribui_witness :
  Tratamento.potencia amostra_sem_potencia = Fin 0 /\
  Tratamento.ligado (Fin 0) amostra_sem_potencia = false /\
  Tratamento.kwh_linha (Fin 0) amostra_sem_potencia = Fin 0 /\
  Tratamento.h_linha (Fin 0) amostra_sem_potencia = Fin 0.
Proof.
  apply (potencia_ausente_nao_contribui [amostra_sem_potencia] (Fin 0)).
  - reflexivity.
  - repeat constructor.
  - reflexivity.
Defined.

(** C10, counterexample: with the threshold [-1] a row without a power
    reading has power [0 > -1], is on, and adds its step to the hours of
    its month. *)
Lemma potencia_ausente_com_limiar_negativo :
  Tratamento.ligado (Fin (-1)) amostra_sem_potencia = true /\
  Tratamento.h_linha (Fin (-1)) amostra_sem_potencia = Fin (1 # 12) /\
  ~ num_eq (Tratamento.h_linha (Fin (-1)) amostra_sem_potencia) (Fin 0) /\
  Tratamento.agregar_consumo_e_horas_chiller [amostra_sem_potencia] (Fin (-1))
  = [ {| Tratamento.Ano := 2024; Tratamento.Mes := "Janeiro";
         Tratamento.Consumo_KWh := Fin (0 # 12);
         Tratamento.Horas_Trabalhadas := Fin (1 # 12) |} ].
Proof.
  split; [reflexivity|]. split; [reflexivity|]. split.
  - vm_compute. intros E. discriminate E.
  - vm_compute. reflexivity.
Qed.

(** ** Historical bias *)

Section FactosVies.

Import Estimativas.

Lemma foldl_insert_lookup (cond : string -> bool) (val : string -> num)
    (l : list string) (m0 : gmap string num) (k : string) :
  foldl (fun (vm : gmap string num) mes =>
           if cond mes then <[mes := val mes]> vm else vm) m0 l !! k
  = if bool_decide (k ∈ l) && cond k then Some (val k) else m0 !! k.
Proof.
  revert m0. induction l as [|x l IH]; intros m0; simpl.
  - reflexivity.
  - rewrite IH. destruct (decide (k = x)) as [->|Hne].
    + rewrite (bool_decide_eq_true_2 (x ∈ x :: l)) by left. simpl.
      destruct (cond x).
      * rewrite lookup_insert_eq. destruct (bool_decide (x ∈ l)); reflexivity.
      * rewrite andb_false_r. reflexivity.
    + assert (E : bool_decide (k ∈ x :: l) = bool_decide (k ∈ l)).
      { apply bool_decide_ext. rewrite elem_of_cons. tauto. }
      rewrite E. destruct (bool_decide (k ∈ l) && cond k); [reflexivity|].
      destruct (cond x); [|reflexivity].
      apply lookup_insert_ne. congruence.
Qed.

Lemma vies_por_mes_lookup (df_hist : list LinhaPrecisao) (mes : string) :
  vies_por_mes df_hist !! mes
  = let df_mes := List.filter (fun r => String.eqb (p_Mes r) mes) df_hist in
    if (3 <=? length df_mes)%nat
    then Some (media (List.map Erro_Consumo df_mes)) else None.
Proof.
  unfold vies_por_mes.
  rewrite (foldl_insert_lookup
             (fun mes => (3 <=? length
                (List.filter (fun r => String.eqb (p_Mes r) mes) df_hist))%nat)
             (fun mes => media (List.map Erro_Consumo
                (List.filter (fun r => String.eqb (p_Mes r) mes) df_hist)))).
  cbv zeta. rewrite lookup_empty.
  destruct (3 <=? _)%nat eqn:E; [|rewrite andb_false_r; reflexivity].
  rewrite bool_decide_eq_true_2; [reflexivity|].
  apply elem_of_remove_dups.
  destruct (List.filter _ df_hist) as [|r rs] eqn:Ef; [discriminate|].
  assert (Hr : In r (List.filter (fun r => String.eqb (p_Mes r) mes) df_hist))
    by (rewrite Ef; left; reflexivity).
  apply filter_In in Hr. destruct Hr as [Hr Hm].
  apply String.eqb_eq in Hm. subst mes.
  apply list_elem_of_In, in_map. exact Hr.
Qed.

Lemma media_Fin (qs : list Q) :
  media (List.map Fin qs)
  = match qs with [] => NaN | _ => Fin (Qmedia qs) end.
Proof.
  unfold media. rewrite dropna_Fin. destruct qs as [|q qs]; [reflexivity|].
  cbn [List.map]. rewrite <- (map_cons Fin q qs), fsum_Fin, length_map.
  unfold fdiv, of_Z. rewrite Qzero_inject by (simpl; lia). reflexivity.
Qed.

End FactosVies.

(** C3, as amended.  [carregar_vies_historico] over the ledger rows of type
    [Real]: the global bias is the mean of [Erro Consumo (%)] when there are
    at least 6 such rows, and null otherwise; a month has a per-month bias,
    the mean over its rows, exactly when it has at least 3 such rows and the
    ledger has at least 6 of them in all; a month without a per-month bias
    uses the global bias.  Without the ledger file both are empty.  The mean
    skips empty cells and, on numbers, is their sum divided by their
    count. *)
Theorem vies_global_e_mensal (df : list LinhaPrecisao) :
  let reais := List.filter (fun r => String.eqb (p_Tipo r) "Real") df in
  let do_mes mes := List.filter (fun r => String.eqb (p_Mes r) mes) reais in
  let vies := Estimativas.carregar_vies_historico (Some df) in
  Estimativas.carregar_vies_historico None = (None, ∅) /\
  vies.1 = (if (6 <=? length reais)%nat
            then Some (media (List.map Erro_Consumo reais)) else None) /\
  (forall mes,
     vies.2 !! mes
     = if (6 <=? length reais)%nat && (3 <=? length (do_mes mes))%nat
       then Some (media (List.map Erro_Consumo (do_mes mes))) else None) /\
  (forall mes,
     Estimativas.vies_ajuste vies mes
     = if (6 <=? length reais)%nat && (3 <=? length (do_mes mes))%nat
       then Some (media (List.map Erro_Consumo (do_mes mes))) else vies.1) /\
  (forall qs : list Q,
     media (List.map Fin qs)
     = match qs with [] => NaN | _ => Fin (Qmedia qs) end).
Proof.
  intros reais do_mes vies.
  assert (Hm : forall mes,
    vies.2 !! mes
    = if (6 <=? length reais)%nat && (3 <=? length (do_mes mes))%nat
      then Some (media (List.map Erro_Consumo (do_mes mes))) else None).
  { intros mes. subst vies. unfold Estimativas.carregar_vies_historico.
    fold reais. destruct (6 <=? length reais)%nat; simpl.
    - apply vies_por_mes_lookup.
    - apply lookup_empty. }
  split; [reflexivity|]. split; [|split; [exact Hm|split]].
  - subst vies. unfold Estimativas.carregar_vies_historico. fold reais.
    destruct (6 <=? length reais)%nat; reflexivity.
  - intros mes. unfold Estimativas.vies_ajuste. rewrite Hm.
    destruct (_ && _); reflexivity.
  - apply media_Fin.
Qed.

(** C3, counterexample: a ledger whose only [Real] rows are three rows of
    January.  January has the 3 qualifying rows, yet no per-month bias is
    produced, because the ledger has fewer than 6 qualifying rows. *)
Lemma vies_mensal_exige_seis_linhas :
  let df := [ linha_precisao 2021 "Janeiro" "Real" (Fin 10);
              linha_precisao 2022 "Janeiro" "Real" (Fin 20);
              linha_precisao 2023 "Janeiro" "Real" (Fin 30) ] in
  length (List.filter
            (fun r => String.eqb (p_Tipo r) "Real" && String.eqb (p_Mes r) "Janeiro")
            df) = 3%nat /\
  (Estimativas.carregar_vies_historico (Some df)).2 !! "Janeiro"%string = None /\
  Estimativas.vies_ajuste (Estimativas.carregar_vies_historico (Some df)) "Janeiro"
  = None.
Proof. repeat split; vm_compute; reflexivity. Qed.

(** ** Bias application *)

Section FactosCorrecao.

Import Estimativas Utils.
Context `{Biblioteca}.


Lemma linha_ano_seguinte_corrigido hoje vies df mes_nome :
  let r := linha_ano_seguinte hoje vies df mes_nome in
  e_Mes r = mes_nome /\
  e_Tipo r = "Projetado"%string /\
  Consumo_Corrigido r
  = aplicar_vies (vies_ajuste vies mes_nome) (Consumo_Esperado r).
Proof.
  unfold linha_ano_seguinte.
  destruct (calcular_diferenca _ _); destruct (calcular_diferenca _ _).
  cbn [e_Mes e_Tipo Consumo_Corrigido Consumo_Esperado].
  repeat split; reflexivity.
Qed.





End FactosCorrecao.

(** ** Monthly band *)

Section FactosFaixa.

Import Estimativas Utils.
Context `{Biblioteca}.












(** The band when the expected value or the deviation is not a number. *)
Lemma faixa_sem_numero (e s : num) :
  is_inf e = false -> is_inf s = false ->
  is_nan e || is_nan s = true ->
  {| min := arredondar_ou_nulo (max0 (fsub e s));
     esperado := arredondar_ou_nulo e;
     max := arredondar_ou_nulo (fadd e s) |}
  = {| min := Some (Fin 0);
       esperado := match e with Fin x => Some (Fin (Qround2 x)) | _ => None end;
       max := None |}.
Proof.
  destruct e as [| |x], s as [| |y]; try discriminate; intros _ _ _; reflexivity.
Qed.



End FactosFaixa.



(** ** IQR fence *)

Section FactosCerca.

Import Estimativas.

Lemma filter_filter_ext {A} (f g : A -> bool) (l : list A) :
  Forall (fun x => f x = g x) l -> List.filter f l = List.filter g l.
Proof.
  induction 1 as [|x l Hx _ IH]; simpl; [reflexivity|].
  rewrite Hx, IH. reflexivity.
Qed.

Lemma vazio_app {A} (l1 l2 : list A) :
  vazio (l1 ++ l2) = vazio l1 && vazio l2.
Proof. destruct l1; reflexivity. Qed.

End FactosCerca.

Section FactosCercaValores.

Import Estimativas.

(** A sorted list that holds one value above all the others ends with it. *)
Lemma ordenado_termina_no_maior (orig s : list num) (v hi : Q) :
  StronglySorted Tratamento.num_ord s ->
  s ≡ₚ Fin v :: orig ->
  Forall (fun x => exists q, x = Fin q /\ (q <= hi)%Q) orig ->
  (hi < v)%Q ->
  exists a, s = a ++ [Fin v] /\ a ≡ₚ orig.
Proof.
  intros Hs Hp Ho Hv.
  assert (Hin : Fin v ∈ s) by (rewrite Hp; left).
  apply list_elem_of_split in Hin. destruct Hin as (a & b & ->).
  assert (Hab : a ++ b ≡ₚ orig).
  { apply (Permutation_cons_inv (a := Fin v)).
    rewrite <- Hp. apply Permutation_middle. }
  destruct b as [|y b].
  - exists a. split; [reflexivity|]. rewrite app_nil_r in Hab. exact Hab.
  - exfalso.
    assert (Hy : y ∈ orig).
    { rewrite <- Hab. apply elem_of_app. right. left. }
    rewrite Forall_forall in Ho. destruct (Ho y Hy) as (q & -> & Hq).
    apply StronglySorted_app_1_r in Hs.
    apply StronglySorted_inv in Hs. destruct Hs as [_ Hs].
    apply Forall_cons in Hs. destruct Hs as [Hs _].
    unfold Tratamento.num_ord in Hs. cbn [fle] in Hs.
    apply Qle_bool_iff in Hs. lra.
Qed.

Lemma nth_de_cotas (a : list num) (lo hi : Q) (i : nat) (d : num) :
  Forall (fun x => exists q, x = Fin q /\ (lo <= q <= hi)%Q) a ->
  (i < length a)%nat ->
  exists q, nth i a d = Fin q /\ (lo <= q <= hi)%Q.
Proof.
  rewrite Forall_forall. intros Ha Hi. apply Ha.
  apply list_elem_of_In, nth_In. exact Hi.
Qed.

Lemma combinacao_entre_cotas (lo hi x y f : Q) :
  (lo <= x <= hi)%Q -> (lo <= y <= hi)%Q -> (0 <= f <= 1)%Q ->
  (lo <= x + (y + - x) * f <= hi)%Q.
Proof.
  intros Hx Hy Hf.
  assert (H1 : (0 <= (x - lo) * (1 - f))%Q) by (apply Qmult_le_0_compat; lra).
  assert (H2 : (0 <= (y - lo) * f)%Q) by (apply Qmult_le_0_compat; lra).
  assert (H3 : (0 <= (hi - x) * (1 - f))%Q) by (apply Qmult_le_0_compat; lra).
  assert (H4 : (0 <= (hi - y) * f)%Q) by (apply Qmult_le_0_compat; lra).
  split.
  - assert (E : (x + (y + - x) * f
                 == lo + ((x - lo) * (1 - f) + (y - lo) * f))%Q) by ring.
    rewrite E. lra.
  - assert (E : (x + (y + - x) * f
                 == hi - ((hi - x) * (1 - f) + (hi - y) * f))%Q) by ring.
    rewrite E. lra.
Qed.

(** A quantile up to the third quartile of a series of at least four
    numbers and one larger value lies between the bounds of the numbers. *)
Lemma quantil_abaixo_do_maior (vals a : list num) (v lo hi qq : Q) :
  Tratamento.ordenar (dropna vals) = a ++ [Fin v] ->
  Forall (fun x => exists q, x = Fin q /\ (lo <= q <= hi)%Q) a ->
  (4 <= length a)%nat -> (0 <= qq <= 3 # 4)%Q ->
  exists r, quantil vals qq = Fin r /\ (lo <= r <= hi)%Q.
Proof.
  intros Hs Ha Hn Hq. unfold quantil. rewrite Hs.
  replace (length (a ++ [Fin v])) with (S (length a))
    by (rewrite length_app; cbn [length]; lia).
  cbv beta iota zeta.
  set (n := length a) in *.
  set (pos := (qq * inject_Z (Z.of_nat n))%Q).
  set (F := Qfloor pos).
  assert (HN : (4 <= inject_Z (Z.of_nat n))%Q).
  { change 4%Q with (inject_Z 4). rewrite <- Zle_Qle. lia. }
  assert (Hp0 : (0 <= pos)%Q) by (subst pos; apply Qmult_le_0_compat; lra).
  assert (Hp1 : (pos <= (3 # 4) * inject_Z (Z.of_nat n))%Q).
  { subst pos. apply Qmult_le_compat_r; lra. }
  assert (HF1 : (inject_Z F <= pos)%Q) by apply Qfloor_le.
  assert (HF2 : (pos < inject_Z (F + 1))%Q) by apply Qlt_floor.
  rewrite inject_Z_plus in HF2. change (inject_Z 1) with 1%Q in HF2.
  assert (HF0 : 0 <= F).
  { change 0 with (Qfloor 0). apply Qfloor_resp_le. exact Hp0. }
  assert (HFn : F < Z.of_nat n).
  { rewrite Zlt_Qlt. lra. }
  assert (Hfrac : (0 <= pos - inject_Z F <= 1)%Q) by lra.
  assert (Hi : (Z.to_nat F < n)%nat) by lia.
  rewrite (app_nth1 a [Fin v] NaN Hi).
  destruct (nth_de_cotas a lo hi (Z.to_nat F) NaN Ha Hi) as (x & -> & Hx).
  destruct (Nat.lt_ge_cases (S (Z.to_nat F)) n) as [Hj|Hj].
  - rewrite Nat.min_l by lia. rewrite (app_nth1 a [Fin v] NaN Hj).
    destruct (nth_de_cotas a lo hi (S (Z.to_nat F)) NaN Ha Hj) as (y & -> & Hy).
    eexists. split; [reflexivity|].
    apply combinacao_entre_cotas; assumption.
  - rewrite Nat.min_r by lia.
    rewrite (app_nth2 a [Fin v] NaN) by lia.
    replace (n - length a)%nat with 0%nat by (subst n; lia).
    cbn [nth]. eexists. split; [reflexivity|].
    assert (HFe : F = Z.of_nat n - 1) by lia.
    assert (HFq : (inject_Z F == inject_Z (Z.of_nat n) - 1)%Q).
    { rewrite HFe. unfold Z.sub. rewrite inject_Z_plus. reflexivity. }
    assert (Hz : (pos - inject_Z F == 0)%Q) by lra.
    assert (Hm : ((v + - x) * (pos - inject_Z F) == 0)%Q)
      by (rewrite Hz; ring).
    rewrite Hm. lra.
Qed.

(** A sorted list that holds one value below all the others starts with
    it. *)
Lemma ordenado_comeca_no_menor (orig s : list num) (v lo : Q) :
  StronglySorted Tratamento.num_ord s ->
  s ≡ₚ Fin v :: orig ->
  Forall (fun x => exists q, x = Fin q /\ (lo <= q)%Q) orig ->
  (v < lo)%Q ->
  exists a, s = Fin v :: a /\ a ≡ₚ orig.
Proof.
  intros Hs Hp Ho Hv.
  assert (Hin : Fin v ∈ s) by (rewrite Hp; left).
  apply list_elem_of_split in Hin. destruct Hin as (a & b & ->).
  assert (Hab : a ++ b ≡ₚ orig).
  { apply (Permutation_cons_inv (a := Fin v)).
    rewrite <- Hp. apply Permutation_middle. }
  destruct a as [|y a].
  - exists b. split; [reflexivity | exact Hab].
  - exfalso.
    assert (Hy : y ∈ orig) by (rewrite <- Hab; left).
    rewrite Forall_forall in Ho. destruct (Ho y Hy) as (q & -> & Hq).
    cbn [app] in Hs. apply StronglySorted_inv in Hs. destruct Hs as [_ Hs].
    rewrite Forall_forall in Hs.
    assert (Hle : Tratamento.num_ord (Fin q) (Fin v)).
    { apply Hs. apply elem_of_app. right. left. }
    unfold Tratamento.num_ord in Hle. cbn [fle] in Hle.
    apply Qle_bool_iff in Hle. lra.
Qed.

(** A quantile from the first quartile on of a series of at least four
    numbers and one smaller value lies between the bounds of the numbers. *)
Lemma quantil_acima_do_menor (vals a : list num) (v lo hi qq : Q) :
  Tratamento.ordenar (dropna vals) = Fin v :: a ->
  Forall (fun x => exists q, x = Fin q /\ (lo <= q <= hi)%Q) a ->
  (4 <= length a)%nat -> (1 # 4 <= qq <= 1)%Q ->
  exists r, quantil vals qq = Fin r /\ (lo <= r <= hi)%Q.
Proof.
  intros Hs Ha Hn Hq. unfold quantil. rewrite Hs.
  cbn [length]. cbv beta iota zeta.
  set (n := length a) in *.
  set (pos := (qq * inject_Z (Z.of_nat n))%Q).
  set (F := Qfloor pos).
  assert (HN : (4 <= inject_Z (Z.of_nat n))%Q).
  { change 4%Q with (inject_Z 4). rewrite <- Zle_Qle. lia. }
  assert (Hp0 : (1 <= pos)%Q).
  { subst pos.
    assert (Hm : ((1 # 4) * inject_Z (Z.of_nat n) <= qq * inject_Z (Z.of_nat n))%Q)
      by (apply Qmult_le_compat_r; lra).
    lra. }
  assert (Hp1 : (pos <= inject_Z (Z.of_nat n))%Q).
  { subst pos.
    assert (Hm : (qq * inject_Z (Z.of_nat n) <= 1 * inject_Z (Z.of_nat n))%Q)
      by (apply Qmult_le_compat_r; lra).
    lra. }
  assert (HF1 : (inject_Z F <= pos)%Q) by apply Qfloor_le.
  assert (HF2 : (pos < inject_Z (F + 1))%Q) by apply Qlt_floor.
  rewrite inject_Z_plus in HF2. change (inject_Z 1) with 1%Q in HF2.
  assert (HF0 : 1 <= F).
  { change 1 with (Qfloor 1). apply Qfloor_resp_le. exact Hp0. }
  assert (HFn : F <= Z.of_nat n).
  { rewrite Zle_Qle. lra. }
  assert (Hfrac : (0 <= pos - inject_Z F <= 1)%Q) by lra.
  destruct (Z.to_nat F) as [|i] eqn:Ei; [lia|].
  assert (Hi : (i < n)%nat) by lia.
  cbn [nth].
  destruct (nth_de_cotas a lo hi i NaN Ha Hi) as (x & -> & Hx).
  destruct (Nat.min (S (S i)) n) as [|j] eqn:Ej; [lia|].
  assert (Hj : (j < n)%nat) by lia.
  cbn [nth].
  destruct (nth_de_cotas a lo hi j NaN Ha Hj) as (y & -> & Hy).
  eexists. split; [reflexivity|].
  apply combinacao_entre_cotas; assumption.
Qed.

(** The fence of a series of at least four numbers between [lo] and [hi]
    and one value beyond [hi + 1.5 (hi - lo)] or [lo - 1.5 (hi - lo)] leaves
    the value out. *)
Lemma cerca_exclui_o_distante (vals orig : list num) (v lo hi : Q) :
  dropna vals ≡ₚ Fin v :: orig ->
  Forall (fun x => exists q, x = Fin q /\ (lo <= q <= hi)%Q) orig ->
  (4 <= length orig)%nat ->
  (hi + (3 # 2) * (hi - lo) < v \/ v < lo - (3 # 2) * (hi - lo))%Q ->
  exists q1 q3,
    cerca vals = (Fin (q1 + - ((3 # 2) * (q3 + - q1))),
                  Fin (q3 + (3 # 2) * (q3 + - q1))) /\
    (lo <= q1 <= hi)%Q /\ (lo <= q3 <= hi)%Q /\
    dentro (cerca vals) (Fin v) = false.
Proof.
  intros Hp Ho Hn Hv.
  assert (Hlh : (lo <= hi)%Q).
  { destruct orig as [|x orig]; [cbn in Hn; lia|].
    apply Forall_cons in Ho. destruct Ho as [(q & _ & Hq) _]. lra. }
  assert (Hq : exists q1 q3,
             quantil vals (1 # 4) = Fin q1 /\ quantil vals (3 # 4) = Fin q3 /\
             (lo <= q1 <= hi)%Q /\ (lo <= q3 <= hi)%Q).
  { pose proof (ordenar_ordenado (dropna vals)) as Hs.
    assert (Hps : Tratamento.ordenar (dropna vals) ≡ₚ Fin v :: orig)
      by (etransitivity; [apply ordenar_perm | exact Hp]).
    destruct Hv as [Hv|Hv].
    - destruct (ordenado_termina_no_maior orig _ v hi Hs Hps) as (a & Ha & Hpa).
      { eapply Forall_impl; [exact Ho|]. intros x (q & -> & Hq).
        exists q. split; [reflexivity | lra]. }
      { lra. }
      assert (Hfa : Forall (fun x => exists q, x = Fin q /\ (lo <= q <= hi)%Q) a)
        by (rewrite Hpa; exact Ho).
      assert (Hna : (4 <= length a)%nat) by (rewrite Hpa; exact Hn).
      destruct (quantil_abaixo_do_maior vals a v lo hi (1 # 4) Ha Hfa Hna)
        as (q1 & E1 & B1); [lra|].
      destruct (quantil_abaixo_do_maior vals a v lo hi (3 # 4) Ha Hfa Hna)
        as (q3 & E3 & B3); [lra|].
      exists q1, q3. auto.
    - destruct (ordenado_comeca_no_menor orig _ v lo Hs Hps) as (a & Ha & Hpa).
      { eapply Forall_impl; [exact Ho|]. intros x (q & -> & Hq).
        exists q. split; [reflexivity | lra]. }
      { lra. }
      assert (Hfa : Forall (fun x => exists q, x = Fin q /\ (lo <= q <= hi)%Q) a)
        by (rewrite Hpa; exact Ho).
      assert (Hna : (4 <= length a)%nat) by (rewrite Hpa; exact Hn).
      destruct (quantil_acima_do_menor vals a v lo hi (1 # 4) Ha Hfa Hna)
        as (q1 & E1 & B1); [lra|].
      destruct (quantil_acima_do_menor vals a v lo hi (3 # 4) Ha Hfa Hna)
        as (q3 & E3 & B3); [lra|].
      exists q1, q3. auto. }
  destruct Hq as (q1 & q3 & E1 & E3 & B1 & B3).
  exists q1, q3. unfold cerca. cbv zeta. rewrite E1, E3.
  split; [reflexivity|]. split; [exact B1|]. split; [exact B3|].
  unfold dentro, fge. cbn [fst snd fsub fadd fopp fmul fle].
  apply andb_false_iff.
  destruct Hv as [Hv|Hv].
  - right. destruct (Qle_bool v _) eqn:E; [|reflexivity].
    apply Qle_bool_iff in E. lra.
  - left. destruct (Qle_bool _ v) eqn:E; [|reflexivity].
    apply Qle_bool_iff in E. lra.
Qed.

End FactosCercaValores.


(** C6, as amended.  A row of the month is added to a series that holds at
    least four numbers, all between [lo] and [hi] (empty cells aside), and
    its value [v] lies beyond [hi + 1.5 (hi - lo)] or below
    [lo - 1.5 (hi - lo)].  The fence [media_historica_corrigida] computes is
    the fence of the series that already contains [v]: it is
    [Q1 - 1.5 IQR, Q3 + 1.5 IQR] for two quartiles that lie between [lo] and
    [hi], and it leaves [v] out.  The result is then the result for the
    series without [v], whenever that fence keeps the same rows of the
    original series as the fence of the original series does.  For the May
    values 10, 11, 12, 13 of 2018 to 2021 and the added value 1000 the fence
    is [8, 16] and both results are the weighted mean 12. *)
Theorem valor_fora_da_cerca_nao_altera
    (cols : list string) (l1 l2 : list Estimativas.Linha) (o : Estimativas.Linha)
    (coluna mes_nome : string) (ano_atual : Z) (v lo hi : Q) :
  let df := {| Estimativas.colunas := cols; Estimativas.linhas := l1 ++ l2 |} in
  let df' := {| Estimativas.colunas := cols;
                Estimativas.linhas := l1 ++ o :: l2 |} in
  let serie d :=
    List.map (fun r => Estimativas.celula r coluna)
             (Estimativas.do_mes_antes d mes_nome ano_atual) in
  Estimativas.Mes o = mes_nome ->
  (Estimativas.Ano o < ano_atual)%Z ->
  Estimativas.celula o coluna = Fin v ->
  Forall (fun x => x = NaN \/ exists q, x = Fin q /\ (lo <= q <= hi)%Q)
         (serie df) ->
  (4 <= length (List.filter notnull (serie df)))%nat ->
  (hi + (3 # 2) * (hi - lo) < v \/ v < lo - (3 # 2) * (hi - lo))%Q ->
  (exists q1 q3,
     (lo <= q1 <= hi)%Q /\ (lo <= q3 <= hi)%Q /\
     num_eq (Estimativas.cerca (serie df')).1 (Fin (q1 - (3 # 2) * (q3 - q1))) /\
     num_eq (Estimativas.cerca (serie df')).2 (Fin (q3 + (3 # 2) * (q3 - q1)))) /\
  Estimativas.dentro (Estimativas.cerca (serie df')) (Fin v) = false /\
  (Forall (fun r =>
             Estimativas.dentro (Estimativas.cerca (serie df'))
                                (Estimativas.celula r coluna)
             = Estimativas.dentro (Estimativas.cerca (serie df))
                                  (Estimativas.celula r coluna))
          (Estimativas.do_mes_antes df mes_nome ano_atual) ->
   Estimativas.media_historica_corrigida df' coluna mes_nome ano_atual
   = Estimativas.media_historica_corrigida df coluna mes_nome ano_atual) /\
  (let serie0 := [Fin 10; Fin 11; Fin 1000; Fin 12; Fin 13] in
   num_eq (Estimativas.cerca serie0).1 (Fin 8) /\
   num_eq (Estimativas.cerca serie0).2 (Fin 16) /\
   Estimativas.media_historica_corrigida
     (tabela_hist [ linha_hist 2018 "Maio" 10; linha_hist 2019 "Maio" 11; linha_hist 2022 "Maio" 1000;
                    linha_hist 2020 "Maio" 12; linha_hist 2021 "Maio" 13 ])
     "Consumo (KWh)" "Maio" 2023
   = Some (Fin (120 # 10)) /\
   Estimativas.media_historica_corrigida
     (tabela_hist [ linha_hist 2018 "Maio" 10; linha_hist 2019 "Maio" 11; linha_hist 2020 "Maio" 12; linha_hist 2021 "Maio" 13 ])
     "Consumo (KWh)" "Maio" 2023
   = Some (Fin (120 # 10))).
Proof.
  intros df df' serie Hmes Hano Hcel Hcotas Hquatro Hlonge.
  set (P := fun r : Estimativas.Linha =>
              String.eqb (Estimativas.Mes r) mes_nome
              && (Estimativas.Ano r <? ano_atual)%Z).
  assert (Po : P o = true).
  { subst P. cbv beta. rewrite Hmes, String.eqb_refl.
    apply Z.ltb_lt in Hano. rewrite Hano. reflexivity. }
  assert (E : Estimativas.do_mes_antes df mes_nome ano_atual
              = List.filter P l1 ++ List.filter P l2)
    by apply List.filter_app.
  assert (E' : Estimativas.do_mes_antes df' mes_nome ano_atual
               = List.filter P l1 ++ o :: List.filter P l2).
  { unfold Estimativas.do_mes_antes. fold P. cbn [Estimativas.linhas df'].
    rewrite List.filter_app. cbn [List.filter]. rewrite Po. reflexivity. }
  assert (Hperm : dropna (serie df') ≡ₚ Fin v :: dropna (serie df)).
  { subst serie. cbv beta. rewrite E, E'. rewrite !List.map_app.
    cbn [List.map]. rewrite Hcel. unfold dropna.
    rewrite !List.filter_app. cbn [List.filter notnull is_nan negb].
    symmetry. apply Permutation_middle. }
  assert (Horig : Forall (fun x => exists q, x = Fin q /\ (lo <= q <= hi)%Q)
                         (dropna (serie df))).
  { apply Forall_forall. intros x Hx. unfold dropna in Hx.
    apply list_elem_of_In, filter_In in Hx. destruct Hx as [Hx Hn].
    rewrite Forall_forall in Hcotas. apply list_elem_of_In in Hx.
    destruct (Hcotas x Hx) as [-> | Hq]; [discriminate Hn | exact Hq]. }
  destruct (cerca_exclui_o_distante (serie df') (dropna (serie df)) v lo hi
              Hperm Horig Hquatro Hlonge)
    as (q1 & q3 & Hc & B1 & B3 & Hfora).
  split; [|split; [|split]].
  - exists q1, q3. split; [exact B1|]. split; [exact B3|].
    rewrite Hc. cbn [fst snd num_eq]. split; ring.
  - exact Hfora.
  - intros Hmesmas.
    unfold Estimativas.media_historica_corrigida.
    fold (serie df') (serie df).
    set (c' := Estimativas.cerca (serie df')) in *.
    set (c := Estimativas.cerca (serie df)) in *.
    change (Estimativas.colunas df') with cols.
    change (Estimativas.colunas df) with cols.
    assert (Hf : List.filter
                   (fun r => Estimativas.dentro c' (Estimativas.celula r coluna))
                   (Estimativas.do_mes_antes df' mes_nome ano_atual)
                 = List.filter
                     (fun r => Estimativas.dentro c (Estimativas.celula r coluna))
                     (Estimativas.do_mes_antes df mes_nome ano_atual)).
    { rewrite <- (filter_filter_ext _ _ _ Hmesmas).
      rewrite E, E', !List.filter_app. cbn [List.filter].
      rewrite Hcel, Hfora. reflexivity. }
    rewrite Hf.
    assert (Hv : Estimativas.vazio
                   (Estimativas.do_mes_antes df' mes_nome ano_atual) = false).
    { rewrite E'. rewrite vazio_app. apply andb_false_r. }
    rewrite Hv. cbn [orb].
    destruct (negb (Utils.isin coluna cols));
      [rewrite orb_true_r; reflexivity|].
    rewrite orb_false_r.
    destruct (Estimativas.vazio
                (Estimativas.do_mes_antes df mes_nome ano_atual)) eqn:Hv0;
      [|reflexivity].
    destruct (Estimativas.do_mes_antes df mes_nome ano_atual);
      [reflexivity | discriminate].
  - intros serie0. repeat split; vm_compute; reflexivity.
Qed.

(** C6, witness: the May values 10, 11, 12, 13, an empty cell and the added
    value 1000, with [lo = 10] and [hi = 13].  The fence of the five numbers
    is [8, 16]; it excludes 1000 and keeps the four values, as the fence
    [8.5, 14.5] of the four values does. *)
Lemma valor_fora_da_cerca_nao_altera_witness :
  let df := tabela_hist [ linha_hist 2018 "Maio" 10; linha_hist 2019 "Maio" 11; linha_hist_vazia 2017 "Maio";
                          linha_hist 2020 "Maio" 12; linha_hist 2021 "Maio" 13 ] in
  let df' := tabela_hist [ linha_hist 2018 "Maio" 10; linha_hist 2019 "Maio" 11; linha_hist 2022 "Maio" 1000;
                           linha_hist_vazia 2017 "Maio";
                           linha_hist 2020 "Maio" 12; linha_hist 2021 "Maio" 13 ] in
  let serie' :=
    List.map (fun r => Estimativas.celula r "Consumo (KWh)"%string)
             (Estimativas.do_mes_antes df' "Maio"%string 2023) in
  Estimativas.dentro (Estimativas.cerca serie') (Fin 1000) = false /\
  Estimativas.media_historica_corrigida df' "Consumo (KWh)" "Maio" 2023
  = Estimativas.media_historica_corrigida df "Consumo (KWh)" "Maio" 2023.
Proof.
  intros df df' serie'.
  destruct (valor_fora_da_cerca_nao_altera
              (Estimativas.colunas (tabela_hist []))
              [linha_hist 2018 "Maio" 10; linha_hist 2019 "Maio" 11]
              [linha_hist_vazia 2017 "Maio"; linha_hist 2020 "Maio" 12; linha_hist 2021 "Maio" 13]
              (linha_hist 2022 "Maio" 1000)
              "Consumo (KWh)" "Maio" 2023 1000%Q 10%Q 13%Q)
    as (_ & Hfora & Hmesma & _).
  - reflexivity.
  - reflexivity.
  - reflexivity.
  - repeat (constructor;
            [first [left; reflexivity
                   | right; eexists; split; [reflexivity | split; discriminate]]|]).
    constructor.
  - vm_compute. lia.
  - left. reflexivity.
  - split; [exact Hfora|]. apply Hmesma.
    repeat (constructor; [vm_compute; reflexivity|]). constructor.
Defined.

(** C6, counterexamples.  The May values 10 and 20 have the fence [5, 25];
    1000 lies far outside it.  Once 1000 is added the quartiles move, the
    fence becomes [-727.5, 1252.5], the value is kept, and the result
    changes from 50/3 to 3050/6.  The May values 10, 11, 12, 13, 17 have the
    fence [8, 16], which leaves 17 out, and the result 12.  Once 1000 is
    added the fence becomes [4.125, 23.125]: 1000 is left out, but 17 is now
    kept, and the result changes to 41/3. *)
Lemma valor_distante_altera_a_media :
  (let df := tabela_hist [linha_hist 2020 "Maio" 10; linha_hist 2021 "Maio" 20] in
   let df' := tabela_hist [ linha_hist 2020 "Maio" 10; linha_hist 2021 "Maio" 20;
                            linha_hist 2022 "Maio" 1000 ] in
   num_eq (Estimativas.cerca [Fin 10; Fin 20]).1 (Fin 5) /\
   num_eq (Estimativas.cerca [Fin 10; Fin 20]).2 (Fin 25) /\
   Estimativas.dentro (Estimativas.cerca [Fin 10; Fin 20]) (Fin 1000) = false /\
   Estimativas.dentro (Estimativas.cerca [Fin 10; Fin 20; Fin 1000]) (Fin 1000)
   = true /\
   Estimativas.media_historica_corrigida df "Consumo (KWh)" "Maio" 2023
   = Some (Fin (50 # 3)) /\
   Estimativas.media_historica_corrigida df' "Consumo (KWh)" "Maio" 2023
   = Some (Fin (3050 # 6)) /\
   ~ num_eq (Fin (3050 # 6)) (Fin (50 # 3))) /\
  (let serie := [Fin 10; Fin 11; Fin 12; Fin 13; Fin 17] in
   let serie' := [Fin 10; Fin 11; Fin 12; Fin 13; Fin 17; Fin 1000] in
   let df := tabela_hist [ linha_hist 2017 "Maio" 10; linha_hist 2018 "Maio" 11;
                           linha_hist 2019 "Maio" 12; linha_hist 2020 "Maio" 13;
                           linha_hist 2021 "Maio" 17 ] in
   let df' := tabela_hist [ linha_hist 2017 "Maio" 10; linha_hist 2018 "Maio" 11;
                            linha_hist 2019 "Maio" 12; linha_hist 2020 "Maio" 13;
                            linha_hist 2021 "Maio" 17;
                            linha_hist 2022 "Maio" 1000 ] in
   num_eq (Estimativas.cerca serie).1 (Fin 8) /\
   num_eq (Estimativas.cerca serie).2 (Fin 16) /\
   num_eq (Estimativas.cerca serie').1 (Fin (33 # 8)) /\
   num_eq (Estimativas.cerca serie').2 (Fin (185 # 8)) /\
   Estimativas.dentro (Estimativas.cerca serie) (Fin 1000) = false /\
   Estimativas.dentro (Estimativas.cerca serie') (Fin 1000) = false /\
   Estimativas.dentro (Estimativas.cerca serie) (Fin 17) = false /\
   Estimativas.dentro (Estimativas.cerca serie') (Fin 17) = true /\
   Estimativas.media_historica_corrigida df "Consumo (KWh)" "Maio" 2023
   = Some (Fin (120 # 10)) /\
   Estimativas.media_historica_corrigida df' "Consumo (KWh)" "Maio" 2023
   = Some (Fin (205 # 15)) /\
   ~ num_eq (Fin (205 # 15)) (Fin (120 # 10))).
Proof.
  split.
  - repeat split; try (vm_compute; reflexivity).
    vm_compute. intros E. discriminate E.
  - repeat split; try (vm_compute; reflexivity).
    vm_compute. intros E. discriminate E.
Qed.

(** ** Accuracy validation *)

Section FactosValidacao.

Import Validacao.

Lemma merge_inner_elem df_real df_estimado a b :
  (a, b) ∈ merge_inner df_real df_estimado <->
  a ∈ df_real /\ b ∈ df_estimado /\
  r_Ano a = s_Ano b /\ r_Mes a = s_Mes b.
Proof.
  unfold merge_inner. rewrite list_elem_of_In, in_flat_map. split.
  - intros (a' & Ha & Hab). apply in_map_iff in Hab.
    destruct Hab as (b' & [= <- <-] & Hb). apply filter_In in Hb.
    destruct Hb as [Hb Hk]. apply andb_true_iff in Hk.
    destruct Hk as [Hy Hm]. apply Z.eqb_eq in Hy. apply String.eqb_eq in Hm.
    rewrite !list_elem_of_In. auto.
  - intros (Ha & Hb & Hy & Hm). exists a.
    apply list_elem_of_In in Ha. apply list_elem_of_In in Hb.
    split; [exact Ha|].
    apply in_map. apply filter_In. split; [exact Hb|].
    apply andb_true_iff. split; [apply Z.eqb_eq | apply String.eqb_eq];
      assumption.
Qed.

End FactosValidacao.

Section FactosArquivos.

Import Validacao Utils.
Local Open Scope string_scope.

Lemma juntar_elem df_real df_estimado a b :
  (a, b) ∈ juntar df_real df_estimado <->
  a ∈ df_real /\ b ∈ df_estimado /\
  g_Ano a = g_Ano b /\ g_Mes a = g_Mes b.
Proof.
  unfold juntar. rewrite list_elem_of_In, in_flat_map. split.
  - intros (a' & Ha & Hab). apply in_map_iff in Hab.
    destruct Hab as (b' & [= <- <-] & Hb). apply filter_In in Hb.
    destruct Hb as [Hb Hk]. apply andb_true_iff in Hk.
    destruct Hk as [Hy Hm]. apply Z.eqb_eq in Hy. apply String.eqb_eq in Hm.
    rewrite !list_elem_of_In. auto.
  - intros (Ha & Hb & Hy & Hm). exists a.
    apply list_elem_of_In in Ha. apply list_elem_of_In in Hb.
    split; [exact Ha|].
    apply in_map. apply filter_In. split; [exact Hb|].
    apply andb_true_iff. split; [apply Z.eqb_eq | apply String.eqb_eq];
      assumption.
Qed.

Lemma historico_escrito_elem (real estimado : Quadro) (out : list LinhaPrecisao) :
  atualizar_historico_acuracia (Some real) (Some estimado) = Some out ->
  forall r,
    r ∈ out <->
    exists a b,
      a ∈ q_linhas real /\ b ∈ q_linhas estimado /\
      g_Ano a = g_Ano b /\
      normalizar_mes (g_Mes a) = normalizar_mes (g_Mes b) /\
      r = linha_do_historico real (com_mes_normalizado a, com_mes_normalizado b).
Proof.
  unfold atualizar_historico_acuracia.
  destruct (_ && _); [|discriminate]. cbv zeta. intros [= <-] r.
  rewrite merge_sort_Permutation, list_elem_of_In, in_map_iff. split.
  - intros ([a b] & <- & Hab). apply list_elem_of_In, juntar_elem in Hab.
    destruct Hab as (Ha & Hb & Hy & Hm).
    apply list_elem_of_In, in_map_iff in Ha. destruct Ha as (a0 & <- & Ha).
    apply list_elem_of_In, in_map_iff in Hb. destruct Hb as (b0 & <- & Hb).
    exists a0, b0. rewrite !list_elem_of_In. auto.
  - intros (a & b & Ha & Hb & Hy & Hm & ->).
    exists (com_mes_normalizado a, com_mes_normalizado b).
    split; [reflexivity|]. apply list_elem_of_In, juntar_elem.
    apply list_elem_of_In in Ha. apply list_elem_of_In in Hb.
    split; [apply list_elem_of_In, in_map; exact Ha|].
    split; [apply list_elem_of_In, in_map; exact Hb|].
    split; assumption.
Qed.

Lemma juntar_tipado (la lb : list Registo) :
  merge_inner (List.map real_tipado la) (List.map estimado_tipado lb)
  = List.map (fun ab => (real_tipado ab.1, estimado_tipado ab.2)) (juntar la lb).
Proof.
  unfold merge_inner, juntar.
  induction la as [|a la IH]; [reflexivity|].
  cbn [List.map flat_map]. rewrite List.map_app. f_equal; [|exact IH].
  clear IH. induction lb as [|b lb IH]; [reflexivity|].
  cbn [List.map List.filter].
  change ((r_Ano (real_tipado a) =? s_Ano (estimado_tipado b))%Z
          && String.eqb (r_Mes (real_tipado a)) (s_Mes (estimado_tipado b)))
    with ((g_Ano a =? g_Ano b)%Z && String.eqb (g_Mes a) (g_Mes b)).
  destruct ((g_Ano a =? g_Ano b)%Z && String.eqb (g_Mes a) (g_Mes b));
    cbn [List.map fst snd]; [f_equal|]; exact IH.
Qed.

Lemma normalizado_tipado_r (la : list Registo) :
  List.map com_mes_normalizado_r (List.map real_tipado la)
  = List.map real_tipado (List.map com_mes_normalizado la).
Proof. rewrite !List.map_map. reflexivity. Qed.

Lemma normalizado_tipado_s (lb : list Registo) :
  List.map com_mes_normalizado_s (List.map estimado_tipado lb)
  = List.map estimado_tipado (List.map com_mes_normalizado lb).
Proof. rewrite !List.map_map. reflexivity. Qed.

(** On two files that hold the columns read, each under its own name, the
    months of the estimates being names of [MESES_ORDEM], the frame written
    is the frame of [comparar_tabelas]. *)
Lemma historico_das_tabelas (real estimado : Quadro) :
  Forall (fun b => isin (normalizar_mes (g_Mes b)) MESES_ORDEM = true)
         (q_linhas estimado) ->
  isin "Mês" (q_colunas real) && isin "Mês" (q_colunas estimado)
  && isin "Ano" (q_colunas real) && isin "Ano" (q_colunas estimado) = true ->
  Forall (fun c => isin c (q_colunas real) = true /\
                   isin c (q_colunas estimado) = false)
         [ "Consumo (KWh)"; "Horas Trabalhadas (h)"; "Temp. Média (ºC)";
           "Potência Média (KW)"; "COP Médio"; "CO2 Emitido (Kg)" ] ->
  Forall (fun c => isin c (q_colunas real) = false /\
                   isin c (q_colunas estimado) = true)
         [ "Tipo"; "Consumo Esperado (KWh)"; "Horas Estimadas (h)";
           "Temp Estimada (ºC)" ] ->
  atualizar_historico_acuracia (Some real) (Some estimado)
  = Some (comparar_tabelas (List.map real_tipado (q_linhas real))
                           (List.map estimado_tipado (q_linhas estimado))).
Proof.
  intros Hm Hk Hr He. unfold atualizar_historico_acuracia. rewrite Hk.
  cbn [andb].
  repeat match goal with
         | H : Forall _ (_ :: _) |- _ =>
             apply Forall_cons in H; destruct H as [[? ?] H]
         end.
  assert (Hf : forallb (encontrada real estimado) COLUNAS_LIDAS = true).
  { unfold COLUNAS_LIDAS, encontrada. cbn [forallb].
    repeat match goal with H : isin _ _ = _ |- _ => rewrite H end.
    reflexivity. }
  rewrite Hf. cbv zeta. f_equal. unfold comparar_tabelas. cbv zeta. f_equal.
  rewrite normalizado_tipado_r, normalizado_tipado_s, juntar_tipado.
  rewrite List.map_map. apply map_ext_in. intros [a b] Hab.
  assert (Hcat : categoria (g_Mes a) = g_Mes a).
  { apply list_elem_of_In, juntar_elem in Hab.
    destruct Hab as (_ & Hb & _ & Hmes).
    apply list_elem_of_In, in_map_iff in Hb. destruct Hb as (b0 & <- & Hb0).
    rewrite Forall_forall in Hm. apply list_elem_of_In in Hb0.
    unfold categoria. rewrite Hmes. cbn [com_mes_normalizado g_Mes].
    rewrite (Hm b0 Hb0). reflexivity. }
  unfold linha_do_historico, linha_comparada, celula_comparada, tipo_comparado.
  cbv zeta. cbn [fst snd real_tipado estimado_tipado r_Ano r_Mes s_Tipo
                 Validacao.Consumo_KWh Validacao.Horas_Trabalhadas Temp_Media
                 Potencia_Media_KW COP_Medio_r CO2_Emitido_r
                 Consumo_Esperado_KWh Horas_Estimadas_h Temp_Estimada_C].
  cbn [fst] in Hcat. rewrite Hcat.
  repeat match goal with H : isin _ _ = _ |- _ => rewrite H; clear H end.
  reflexivity.
Qed.

End FactosArquivos.

(** C8.  [atualizar_historico_acuracia] writes the ledger exactly when both
    files exist, both have the key columns and every other column it reads
    is found in one of them; the values in the files play no part in that,
    so a zero denominator raises nothing.  Every row written comes from one
    row of each file with the same year and the same month label once
    normalised ([MARÇO] and [março ] both become [Março]; a label that is
    not a month name is written as an empty cell), and carries the values
    of those two rows with the metrics computed from them: each
    percentage error is [(estimated - real) / real * 100] and the
    utilisation factor is [consumption / (mean power * hours)], the
    denominator being replaced by NaN when it is exactly zero, so that the
    metric is then NaN (an empty cell of the file) and not an infinity,
    which the unguarded division of a non-zero number by zero would give.
    A month with consumption 0 and 0 hours against an estimate of 110 kWh
    is written with an empty consumption error, hours error and utilisation
    factor, and the temperature error 10. *)
Theorem erros_e_fator_com_denominador_zero
    (real estimado : Validacao.Quadro) :
  let tem (q : Validacao.Quadro) (c : string) :=
    Utils.isin c (Validacao.q_colunas q) in
  let cel (a b : Validacao.Registo) (c : string) : num :=
    if tem real c then Validacao.g_celula a c else Validacao.g_celula b c in
  let sem_zero (x : num) : num :=
    match x with
    | Fin q => if Qeq_bool q 0 then NaN else x
    | _ => x
    end in
  let erro (est re : num) : num :=
    fmul (fdiv (fsub est re) (sem_zero re)) (Fin 100) in
  let fator (c p h : num) : num := fdiv c (sem_zero (fmul p h)) in
  (is_Some (Validacao.atualizar_historico_acuracia (Some real) (Some estimado))
   <->
   tem real "Mês" && tem estimado "Mês" && tem real "Ano" && tem estimado "Ano"
   && forallb (fun c => xorb (tem real c) (tem estimado c))
        [ "Consumo (KWh)"; "Consumo Esperado (KWh)";
          "Horas Trabalhadas (h)"; "Horas Estimadas (h)";
          "Temp. Média (ºC)"; "Temp Estimada (ºC)";
          "Potência Média (KW)"; "Tipo"; "COP Médio"; "CO2 Emitido (Kg)" ]%string
   = true) /\
  (forall q,
     Validacao.atualizar_historico_acuracia None q = None /\
     Validacao.atualizar_historico_acuracia q None = None) /\
  (forall out,
     Validacao.atualizar_historico_acuracia (Some real) (Some estimado)
     = Some out ->
     forall r,
       r ∈ out <->
       exists a b,
         a ∈ Validacao.q_linhas real /\ b ∈ Validacao.q_linhas estimado /\
         Validacao.g_Ano a = Validacao.g_Ano b /\
         Validacao.normalizar_mes (Validacao.g_Mes a)
         = Validacao.normalizar_mes (Validacao.g_Mes b) /\
         r = {| p_Ano := Validacao.g_Ano a;
                p_Mes :=
                  (let m := Validacao.normalizar_mes (Validacao.g_Mes a) in
                   if Utils.isin m Utils.MESES_ORDEM then m else "");
                p_Tipo := if tem real "Tipo" then Validacao.g_Tipo a
                          else Validacao.g_Tipo b;
                Consumo_Real := cel a b "Consumo (KWh)";
                Consumo_Estimado := cel a b "Consumo Esperado (KWh)";
                Erro_Consumo :=
                  erro (cel a b "Consumo Esperado (KWh)")
                       (cel a b "Consumo (KWh)");
                Horas_Reais := cel a b "Horas Trabalhadas (h)";
                Horas_Estimadas_p := cel a b "Horas Estimadas (h)";
                Erro_Horas :=
                  erro (cel a b "Horas Estimadas (h)")
                       (cel a b "Horas Trabalhadas (h)");
                Temp_Real := cel a b "Temp. Média (ºC)";
                Temp_Estimada_p := cel a b "Temp Estimada (ºC)";
                Erro_Temp :=
                  erro (cel a b "Temp Estimada (ºC)")
                       (cel a b "Temp. Média (ºC)");
                Potencia_Media := cel a b "Potência Média (KW)";
                Fator_Utilizacao :=
                  fator (cel a b "Consumo (KWh)")
                        (cel a b "Potência Média (KW)")
                        (cel a b "Horas Trabalhadas (h)");
                COP_Medio := cel a b "COP Médio";
                CO2_Emitido := cel a b "CO2 Emitido (Kg)" |}) /\
  (forall e q : Q,
     erro (Fin e) (Fin q)
     = if Qeq_bool q 0 then NaN else Fin ((e - q) / q * 100)) /\
  (forall (est : num) (q : Q), (q == 0)%Q -> erro est (Fin q) = NaN) /\
  (forall c p h : Q,
     fator (Fin c) (Fin p) (Fin h)
     = if Qeq_bool (p * h) 0 then NaN else Fin (c / (p * h))) /\
  (forall (c : num) (p h : Q),
     (p * h == 0)%Q -> fator c (Fin p) (Fin h) = NaN) /\
  fmul (fdiv (fsub (Fin 110) (Fin 0)) (Fin 0)) (Fin 100) = Inf false /\
  Validacao.normalizar_mes "MARÇO" = "Março"%string /\
  Validacao.normalizar_mes "março " = "Março"%string /\
  (let de (l : list (string * num)) (c : string) : num :=
     match List.find (fun kv => String.eqb c kv.1) l with
     | Some kv => kv.2
     | None => NaN
     end in
   let arquivo_real :=
     {| Validacao.q_colunas :=
          [ "Ano"; "Mês"; "Consumo (KWh)"; "Horas Trabalhadas (h)";
            "Temp. Média (ºC)"; "Potência Média (KW)"; "COP Médio";
            "CO2 Emitido (Kg)" ]%string;
        Validacao.q_linhas :=
          [ {| Validacao.g_Ano := 2024; Validacao.g_Mes := "MARÇO";
               Validacao.g_Tipo := "";
               Validacao.g_celula :=
                 de [ ("Consumo (KWh)", Fin 0); ("Horas Trabalhadas (h)", Fin 0);
                      ("Temp. Média (ºC)", Fin 20); ("Potência Média (KW)", Fin 5);
                      ("COP Médio", Fin 3); ("CO2 Emitido (Kg)", Fin 7) ]%string |};
            {| Validacao.g_Ano := 2024; Validacao.g_Mes := "Abril";
               Validacao.g_Tipo := ""; Validacao.g_celula := de [] |} ] |} in
   let arquivo_estimado :=
     {| Validacao.q_colunas :=
          [ "Ano"; "Mês"; "Tipo"; "Consumo Esperado (KWh)";
            "Horas Estimadas (h)"; "Temp Estimada (ºC)" ]%string;
        Validacao.q_linhas :=
          [ {| Validacao.g_Ano := 2024; Validacao.g_Mes := "Março";
               Validacao.g_Tipo := "Real";
               Validacao.g_celula :=
                 de [ ("Consumo Esperado (KWh)", Fin 110);
                      ("Horas Estimadas (h)", Fin 10);
                      ("Temp Estimada (ºC)", Fin 22) ]%string |};
            {| Validacao.g_Ano := 2025; Validacao.g_Mes := "Abril";
               Validacao.g_Tipo := "Projetado"; Validacao.g_celula := de [] |} ] |} in
   exists t,
     Validacao.atualizar_historico_acuracia
       (Some arquivo_real) (Some arquivo_estimado)
     = Some [ {| p_Ano := 2024; p_Mes := "Março"; p_Tipo := "Real";
                 Consumo_Real := Fin 0; Consumo_Estimado := Fin 110;
                 Erro_Consumo := NaN;
                 Horas_Reais := Fin 0; Horas_Estimadas_p := Fin 10;
                 Erro_Horas := NaN;
                 Temp_Real := Fin 20; Temp_Estimada_p := Fin 22;
                 Erro_Temp := Fin t;
                 Potencia_Media := Fin 5; Fator_Utilizacao := NaN;
                 COP_Medio := Fin 3; CO2_Emitido := Fin 7 |} ] /\
     (t == 10)%Q).
Proof.
  intros tem cel sem_zero erro fator.
  assert (Herro : forall x y, erro x y = Validacao.erro_pct x y)
    by (intros x [| |q]; reflexivity).
  assert (Hfator : forall c p h, fator c p h = Validacao.fator_utilizacao c p h).
  { intros c p h. unfold fator, Validacao.fator_utilizacao, sem_zero, replace_zero_nan.
    destruct (fmul p h); reflexivity. }
  split; [|split; [|split; [|split; [|split; [|split; [|split; [|split; [|split; [|split]]]]]]]]].
  - unfold Validacao.atualizar_historico_acuracia.
    change (forallb (Validacao.encontrada real estimado) Validacao.COLUNAS_LIDAS)
      with (forallb (fun c => xorb (tem real c) (tem estimado c))
              Validacao.COLUNAS_LIDAS).
    fold (tem real "Mês") (tem estimado "Mês") (tem real "Ano") (tem estimado "Ano").
    unfold Validacao.COLUNAS_LIDAS.
    destruct (_ && _).
    + split; [reflexivity | intros _; eexists; reflexivity].
    + split; [intros [x Hx]; discriminate Hx | discriminate].
  - intros [q|]; split; reflexivity.
  - intros out Hout r. rewrite (historico_escrito_elem real estimado out Hout).
    split; intros (a & b & Ha & Hb & Hy & Hm & ->); exists a, b;
      repeat (split; [assumption|]);
      unfold Validacao.linha_do_historico; cbv zeta;
      rewrite ?Herro, ?Hfator; reflexivity.
  - intros e q. unfold erro, sem_zero.
    destruct (Qeq_bool q 0) eqn:E; [reflexivity|].
    cbn [fsub fadd fopp fdiv fmul]. unfold Qzero. rewrite E. reflexivity.
  - intros est q Hq. unfold erro, sem_zero.
    rewrite (proj2 (Qeq_bool_iff q 0) Hq). destruct est; reflexivity.
  - intros c p h. unfold fator, sem_zero. cbn [fmul].
    destruct (Qeq_bool (p * h) 0) eqn:E; [reflexivity|].
    cbn [fdiv]. unfold Qzero. rewrite E. reflexivity.
  - intros c p h Hz. unfold fator, sem_zero. cbn [fmul].
    rewrite (proj2 (Qeq_bool_iff (p * h) 0) Hz). destruct c; reflexivity.
  - reflexivity.
  - vm_compute. reflexivity.
  - vm_compute. reflexivity.
  - intros de arquivo_real arquivo_estimado.
    eexists. split; [vm_compute; reflexivity|]. vm_compute. reflexivity.
Qed.

(** * Further properties *)

(** ** Month tables *)

Section FactosMeses.

Import Utils Tratamento.

Lemma posicao_lookup (x : string) (l : list string) (i : nat) :
  posicao x l = Some i -> l !! i = Some x.
Proof.
  revert i. induction l as [|y l IH]; intros i; simpl; [discriminate|].
  destruct (String.eqb x y) eqn:E.
  - intros [= <-]. apply String.eqb_eq in E. subst. reflexivity.
  - destruct (posicao x l) as [j|]; [|discriminate].
    intros [= <-]. simpl. apply IH. reflexivity.
Qed.

Lemma codigo_mes_inj (a b : string) (i : nat) :
  codigo_mes a = Some i -> codigo_mes b = Some i -> a = b.
Proof.
  unfold codigo_mes. intros Ha Hb.
  apply posicao_lookup in Ha. apply posicao_lookup in Hb. congruence.
Qed.

Lemma isin_codigo (m : string) :
  isin m MESES_ORDEM = true -> exists i, codigo_mes m = Some i.
Proof.
  unfold isin, codigo_mes. destruct (posicao m MESES_ORDEM); [eauto|discriminate].
Qed.

End FactosMeses.

(** X1.  [numero_mes_para_nome_pt_br] answers exactly for the month numbers
    1 to 12, and the name of month [n] is the [n]-th label of [MESES_ORDEM]:
    its categorical code is [n - 1], so ordering rows by the month label (as
    a category) is ordering them by month number. *)
Theorem nome_do_mes_segue_a_ordem (n : Z) :
  Tratamento.numero_mes_para_nome_pt_br n
  = (if (1 <=? n) && (n <=? 12) then Utils.MESES_ORDEM !! Z.to_nat (n - 1)
     else None) /\
  match Tratamento.numero_mes_para_nome_pt_br n with
  | Some m => Utils.codigo_mes m = Some (Z.to_nat (n - 1)) /\ 1 <= n <= 12
  | None => n < 1 \/ 12 < n
  end.
Proof.
  destruct (decide (1 <= n <= 12)) as [Hn|Hn].
  - assert (Hc : n = 1 \/ n = 2 \/ n = 3 \/ n = 4 \/ n = 5 \/ n = 6 \/
                 n = 7 \/ n = 8 \/ n = 9 \/ n = 10 \/ n = 11 \/ n = 12) by lia.
    repeat (destruct Hc as [->|Hc]; [vm_compute; repeat split; congruence|]).
    subst n. vm_compute. repeat split; congruence.
  - assert (Hnone : Tratamento.numero_mes_para_nome_pt_br n = None).
    { unfold Tratamento.numero_mes_para_nome_pt_br, Tratamento.MES_NUM_PARA_PT.
      apply not_elem_of_list_to_map_1. simpl. intros Hin.
      repeat (apply elem_of_cons in Hin; destruct Hin as [->|Hin]; [lia|]).
      inversion Hin. }
    rewrite Hnone. split; [|lia].
    destruct (1 <=? n) eqn:E1; [|reflexivity].
    destruct (n <=? 12) eqn:E2; [|reflexivity].
    apply Z.leb_le in E1. apply Z.leb_le in E2. lia.
Qed.

(** ** Order of the monthly tables *)

Section FactosOrdemMensal.

Import Utils Tratamento.

Lemma ano_mes_le_total (a b : Z * option nat) : ano_mes_le a b \/ ano_mes_le b a.
Proof.
  unfold ano_mes_le. destruct a as [y i], b as [z j]; simpl.
  destruct (Z.lt_trichotomy y z) as [L|[E|L]]; [auto| |auto].
  subst. destruct i as [i|], j as [j|]; auto.
  destruct (Nat.le_ge_cases i j); auto.
Qed.

Lemma ano_mes_le_trans (a b c : Z * option nat) :
  ano_mes_le a b -> ano_mes_le b c -> ano_mes_le a c.
Proof.
  unfold ano_mes_le. destruct a as [y i], b as [z j], c as [w k]; simpl.
  intros [L1|[E1 H1]] [L2|[E2 H2]]; try (left; lia).
  right. split; [lia|].
  destruct i, j, k; try tauto. lia.
Qed.

Lemma mensal_le_total : Total mensal_le.
Proof. intros a b. apply ano_mes_le_total. Qed.

Lemma mensal_le_trans : Transitive mensal_le.
Proof. intros a b c. apply ano_mes_le_trans. Qed.

(** Two rows in order are in strict order when their keys differ. *)
Lemma ordem_estrita {A K} (R R' : A -> A -> Prop) (key : A -> K) (l : list A) :
  (forall a b, R a b -> key a <> key b -> R' a b) ->
  StronglySorted R l -> NoDup (List.map key l) -> StronglySorted R' l.
Proof.
  intros HR Hs. induction Hs as [|a l Hs IH Ha]; intros Hn; [constructor|].
  simpl in Hn. apply NoDup_cons in Hn. destruct Hn as [Hni Hn].
  constructor; [apply IH; exact Hn|].
  apply Forall_forall. intros b Hb. rewrite Forall_forall in Ha.
  apply HR; [apply Ha; exact Hb|].
  intros E. apply Hni. rewrite E. apply list_elem_of_In, in_map.
  apply list_elem_of_In. exact Hb.
Qed.

End FactosOrdemMensal.

(** X2.  The frame returned by [agregar_consumo_e_horas_chiller] is in
    strictly ascending order of (year, position of the month in
    [MESES_ORDEM]), and every month label in it is one of [MESES_ORDEM]. *)
Theorem agregacao_em_ordem_de_calendario
    (parsed : list Tratamento.AmostraPasso) (potencia_min_kw : num) :
  let out := Tratamento.agregar_consumo_e_horas_chiller parsed potencia_min_kw in
  Forall (fun f => Utils.isin (Tratamento.Mes f) Utils.MESES_ORDEM = true) out /\
  StronglySorted
    (fun a b =>
       match Utils.codigo_mes (Tratamento.Mes a),
             Utils.codigo_mes (Tratamento.Mes b) with
       | Some i, Some j =>
           Tratamento.Ano a < Tratamento.Ano b \/
           (Tratamento.Ano a = Tratamento.Ano b /\ (i < j)%nat)
       | _, _ => False
       end)
    out.
Proof.
  intros out.
  assert (Hc : Forall (fun f => Utils.isin (Tratamento.Mes f) Utils.MESES_ORDEM = true) out).
  { apply Forall_forall. intros f Hf. apply agregar_elem in Hf.
    destruct Hf as (k & Hk & ->). apply list_elem_of_omap in Hk.
    destruct Hk as (a & _ & Ha). apply (chave_canonica a k Ha). }
  split; [exact Hc|].
  assert (Hs : StronglySorted Tratamento.mensal_le out).
  { subst out. unfold Tratamento.agregar_consumo_e_horas_chiller.
    pose proof mensal_le_total. pose proof mensal_le_trans.
    apply StronglySorted_merge_sort; apply _. }
  assert (Hs' : StronglySorted
            (fun a b => Tratamento.mensal_le a b /\
               Utils.isin (Tratamento.Mes a) Utils.MESES_ORDEM = true /\
               Utils.isin (Tratamento.Mes b) Utils.MESES_ORDEM = true) out).
  { clear -Hc Hs. induction Hs as [|a l Hs IH Ha]; [constructor|].
    apply Forall_cons in Hc. destruct Hc as [Hca Hc].
    constructor; [apply IH; exact Hc|].
    rewrite Forall_forall in *. intros b Hb. auto. }
  eapply (ordem_estrita _ _ (fun f => (Tratamento.Ano f, Tratamento.Mes f)));
    [|exact Hs'|apply agregar_chaves_NoDup].
  intros a b (Hle & Hia & Hib) Hne.
  apply isin_codigo in Hia. apply isin_codigo in Hib.
  destruct Hia as [i Hi], Hib as [j Hj].
  unfold Tratamento.mensal_le, Utils.ano_mes_le in Hle. simpl in Hle.
  rewrite Hi, Hj in *.
  destruct Hle as [L|[E L]]; [left; exact L|].
  right. split; [exact E|].
  destruct (decide (i = j)) as [->|Hij]; [|lia].
  exfalso. apply Hne. f_equal; [exact E|].
  eapply codigo_mes_inj; eassumption.
Qed.

(** ** Token parser on lines of different lengths *)

Section FactosTokens.

Import Tratamento.
Context `{Biblioteca}.

Lemma largura_cota (rows : list (list string)) (parts : list string) :
  In parts rows -> (length parts <= largura rows)%nat.
Proof.
  unfold largura. induction rows as [|r rows IH]; simpl; [tauto|].
  intros [->|Hin]; [lia|]. specialize (IH Hin). lia.
Qed.

Lemma celula_numerica_dentro (parts : list string) (j : nat) :
  (j < length parts)%nat ->
  celula_numerica (nth_error parts j) = to_numeric (nth j parts ""%string).
Proof.
  intros Hj. rewrite (nth_error_nth' parts ""%string Hj). reflexivity.
Qed.

Lemma celula_numerica_fora (parts : list string) (j : nat) :
  (length parts <= j)%nat -> celula_numerica (nth_error parts j) = NaN.
Proof.
  intros Hj. apply nth_error_None in Hj. rewrite Hj. reflexivity.
Qed.

(** X3.  [converter_tokens_para_amostras_chiller] reads the three power
    columns at the last three positions of the longest kept line.  A kept
    line has between 6 tokens and that length; a line as long as the longest
    gets its own last three tokens; a shorter line gets an empty COP, and a
    line shorter by three tokens or more gets all three columns empty.  The
    output is made of the rows so built whose timestamp parsed. *)
Theorem tokens_lidos_na_largura_maxima (s : list string) :
  let rows := List.filter (fun parts => (6 <=? length parts)%nat)
                          (List.map Texto.split s) in
  let n := largura rows in
  converter_tokens_para_amostras_chiller s
    ≡ₚ dropna_dt (List.map (linha_de_tokens n) rows) /\
  Forall
    (fun parts =>
       let a := linha_de_tokens n parts in
       let k := length parts in
       (6 <= k <= n)%nat /\
       (k = n ->
        Pot_Frig_KW a = to_numeric (nth (k - 3) parts ""%string) /\
        Pot_Elet_KW a = to_numeric (nth (k - 2) parts ""%string) /\
        COP a = to_numeric (nth (k - 1) parts ""%string)) /\
       ((k < n)%nat -> COP a = NaN) /\
       ((k + 3 <= n)%nat ->
        Pot_Frig_KW a = NaN /\ Pot_Elet_KW a = NaN /\ COP a = NaN))
    rows.
Proof.
  intros rows n. split.
  - apply (dropna_sort_ok (List.map (linha_de_tokens n) rows)).
  - apply Forall_forall. intros parts Hin. apply list_elem_of_In in Hin.
    assert (Hn : (length parts <= n)%nat) by (apply largura_cota; exact Hin).
    apply filter_In in Hin. destruct Hin as [_ H6]. apply Nat.leb_le in H6.
    cbv zeta. split; [lia|]. split; [|split].
    + intros E. unfold linha_de_tokens. simpl. rewrite <- E.
      rewrite !celula_numerica_dentro by lia. auto.
    + intros L. unfold linha_de_tokens. simpl.
      apply celula_numerica_fora. lia.
    + intros L. unfold linha_de_tokens. simpl.
      rewrite !celula_numerica_fora by lia. auto.
Qed.

End FactosTokens.

(** ** Flattened sheets *)

Section FactosAchatada.

Import Tratamento.
Context `{Biblioteca}.

Lemma separar_longas (raw : Bruto) :
  separar_colunas_tokenizadas raw
  = List.map linha_larga
      (List.filter (fun xs => (24 <=? length xs)%nat)
                   (List.map Texto.split (tokenizar_linhas raw))).
Proof. reflexivity. Qed.

Lemma dt_das_largas (l : list (list string)) :
  Forall (fun xs => (24 <= length xs)%nat) l ->
  List.map dt (List.map amostra_de_larga (List.map linha_larga l))
  = List.map (fun xs => to_datetime (nth 0 xs "" ++ " " ++ nth 1 xs "")%string) l.
Proof.
  induction 1 as [|xs l Hxs _ IH]; [reflexivity|].
  cbn [List.map]. rewrite IH. f_equal.
  destruct (linha_larga_campos xs Hxs) as (_ & _ & Hd & _). exact Hd.
Qed.

(** X4.  The flattened branch of [criar_arquivo_transicao_chiller].  When no
    line has 24 tokens the sheet goes through the token parser, whose output
    is ordered by timestamp and has no null timestamp.  When some line has
    24 tokens or more, the result has exactly one row for each such line, in
    the order of the sheet, with the timestamp parsed from its first two
    tokens: nothing is dropped or reordered there, and shorter lines are
    ignored. *)
Theorem planilha_achatada_uma_linha_por_registro (raw : Bruto) :
  let longas := List.filter (fun xs => (24 <=? length xs)%nat)
                            (List.map Texto.split (tokenizar_linhas raw)) in
  let out := amostras_de_planilha_achatada raw in
  match longas with
  | [] =>
      out = converter_tokens_para_amostras_chiller (tokenizar_linhas raw) /\
      Forall (fun a => is_Some (dt a)) out /\
      StronglySorted Z.le (carimbos out)
  | _ =>
      length out = length longas /\
      List.map dt out
      = List.map (fun xs => to_datetime (nth 0 xs "" ++ " " ++ nth 1 xs "")%string)
                 longas
  end.
Proof.
  intros longas out. subst out. unfold amostras_de_planilha_achatada.
  rewrite separar_longas. fold longas.
  assert (Hl : Forall (fun xs => (24 <= length xs)%nat) longas).
  { apply Forall_forall. intros xs Hxs. subst longas.
    apply list_elem_of_In, filter_In in Hxs. destruct Hxs as [_ Hxs].
    apply Nat.leb_le. exact Hxs. }
  clearbody longas. destruct longas as [|xs l].
  - cbn [List.map]. split; [reflexivity|].
    unfold converter_tokens_para_amostras_chiller.
    match goal with
    | |- context [sort_values_dt (dropna_dt ?r)] =>
        destruct (dropna_sort_ok r) as (Hn & Hs & _)
    end.
    split; assumption.
  - cbn [List.map]. split.
    + cbn [length]. rewrite !length_map. reflexivity.
    + exact (dt_das_largas (xs :: l) Hl).
Qed.

End FactosAchatada.

(** ** Sampling step: ties and regular series *)

Section FactosPassoRegular.

Import Tratamento.

Lemma argmin_go_primeiro (dist : Q -> num) (dq : Q -> Q) :
  (forall c, dist c = Fin (dq c)) ->
  forall l melhor,
    let r := argmin_go dist melhor l in
    exists l1 l2,
      melhor :: l = l1 ++ r :: l2 /\
      Forall (fun c => (dq r < dq c)%Q) l1 /\
      Forall (fun c => (dq r <= dq c)%Q) l2.
Proof.
  intros Hd. induction l as [|c l IH]; intros melhor; simpl.
  - exists [], []. repeat split; constructor.
  - rewrite (Hd c), (Hd melhor).
    destruct (flt (Fin (dq c)) (Fin (dq melhor))) eqn:E.
    + apply flt_Fin in E. destruct (IH c) as (l1 & l2 & Hl & H1 & H2).
      exists (melhor :: l1), l2. split; [rewrite Hl; reflexivity|].
      split; [|exact H2]. constructor; [|exact H1].
      destruct l1 as [|x l1].
      * simpl in Hl. injection Hl as Hc _. rewrite <- Hc. exact E.
      * simpl in Hl. injection Hl as Hc _. subst x.
        apply Forall_cons in H1. destruct H1 as [H1 _]. lra.
    + assert (E' : (dq melhor <= dq c)%Q).
      { destruct (Qlt_le_dec (dq c) (dq melhor)) as [L|L]; [|exact L].
        apply flt_Fin in L. congruence. }
      destruct (IH melhor) as (l1 & l2 & Hl & H1 & H2).
      destruct l1 as [|x l1].
      * simpl in Hl. injection Hl as Hr Hl2.
        exists [], (c :: l). split; [simpl; rewrite <- Hr; reflexivity|].
        split; [constructor|].
        constructor; [rewrite <- Hr; exact E'|].
        subst l2. exact H2.
      * simpl in Hl. injection Hl as Hx Hl'. subst x.
        exists (melhor :: c :: l1), l2.
        split; [simpl; rewrite Hl' at 1; reflexivity|].
        split; [|exact H2].
        apply Forall_cons in H1. destruct H1 as [Hm H1].
        constructor; [exact Hm|]. constructor; [lra | exact H1].
Qed.

Lemma candidatos_crescentes : StronglySorted Qle candidatos.
Proof.
  unfold candidatos.
  repeat (constructor; [|repeat (constructor; [unfold Qle; simpl; lia|]);
                           constructor]).
  constructor.
Qed.

End FactosPassoRegular.

(** X5.  [estimar_intervalo_de_amostragem_minutos] always returns one of
    the candidates 1, 5, 10, 15, 30, 60, and when two candidates are equally
    close to the median it returns the smaller one. *)
Theorem passo_empate_para_o_menor (series_dt : list (option Z)) :
  exists r,
    Tratamento.estimar_intervalo_de_amostragem_minutos series_dt = Fin r /\
    r ∈ Tratamento.candidatos /\
    forall m,
      Tratamento.deltas_validos series_dt <> [] ->
      Tratamento.mediana (Tratamento.deltas_validos series_dt) = Fin m ->
      Forall (fun c => (Qabs (c - m) == Qabs (r - m))%Q -> (r <= c)%Q)
             Tratamento.candidatos.
Proof.
  unfold Tratamento.estimar_intervalo_de_amostragem_minutos.
  destruct (Tratamento.deltas_validos series_dt) as [|d ds] eqn:E.
  - exists 1%Q. split; [reflexivity|]. split; [left|].
    intros m Hne. congruence.
  - set (l := d :: ds) in *.
    destruct (mediana_finita l) as [m Hm];
      [rewrite <- E; apply deltas_validos_finitos | discriminate |].
    rewrite Hm.
    set (dist := fun c => Tratamento.fabs (fsub (Fin c) (Fin m))).
    set (dq := fun c : Q => Qabs (c - m)).
    assert (Hd : forall c, dist c = Fin (dq c)) by reflexivity.
    pose proof (argmin_go_minimo dist dq Hd (tl Tratamento.candidatos) 1%Q)
      as (Hin & _ & _).
    pose proof (argmin_go_primeiro dist dq Hd (tl Tratamento.candidatos) 1%Q)
      as (l1 & l2 & Hl & H1 & H2).
    cbv zeta in H1, H2.
    change (Tratamento.argmin dist Tratamento.candidatos)
      with (Tratamento.argmin_go dist 1%Q (tl Tratamento.candidatos)).
    set (r := Tratamento.argmin_go dist 1%Q (tl Tratamento.candidatos)) in *.
    clearbody r.
    exists r. split; [reflexivity|]. split; [exact Hin|].
    intros m' _ [= <-].
    change (1%Q :: tl Tratamento.candidatos) with Tratamento.candidatos in Hl.
    pose proof candidatos_crescentes as Hs. rewrite Hl in Hs. rewrite Hl.
    apply StronglySorted_app in Hs. destruct Hs as (_ & _ & Hs).
    apply StronglySorted_cons in Hs. destruct Hs as [Hr _].
    apply Forall_app. split.
    + eapply Forall_impl; [exact H1|]. intros c Hlt Heq. unfold dq in Hlt.
      exfalso. rewrite Heq in Hlt. exact (Qlt_irrefl _ Hlt).
    + constructor; [intros _; lra|].
      eapply Forall_impl; [exact Hr|]. intros c Hle _. exact Hle.
Qed.

(** ** Sampling step and hours *)

Section FactosHoras.

Import Tratamento.

Lemma passo_candidato (series_dt : list (option Z)) :
  exists c, c ∈ candidatos /\
            estimar_intervalo_de_amostragem_minutos series_dt = Fin c.
Proof.
  unfold estimar_intervalo_de_amostragem_minutos.
  destruct (deltas_validos series_dt) as [|d ds] eqn:E.
  - exists 1%Q. split; [left | reflexivity].
  - destruct (mediana_finita (d :: ds)) as [m Hm];
      [rewrite <- E; apply deltas_validos_finitos | discriminate |].
    rewrite Hm.
    pose proof (argmin_go_minimo
                  (fun c => fabs (fsub (Fin c) (Fin m)))
                  (fun c => Qabs (c - m)) (fun c => eq_refl)
                  (tl candidatos) 1%Q) as (Hin & _ & _).
    eexists. split; [exact Hin | reflexivity].
Qed.

Lemma soma_constante {A} (f : A -> num) (s : Q) (l : list A) :
  Forall (fun a => f a = Fin s) l ->
  num_eq (soma (List.map f l)) (Fin (inject_Z (Z.of_nat (length l)) * s)).
Proof.
  induction 1 as [|a l Ha _ IH].
  - simpl. unfold Qeq. simpl. lia.
  - cbn [List.map]. rewrite soma_cons, Ha. cbn [notnull is_nan negb].
    destruct (soma (List.map f l)) as [| |q]; simpl in IH; try contradiction.
    simpl. rewrite IH. rewrite Nat2Z.inj_succ. unfold Z.succ.
    rewrite inject_Z_plus. ring.
Qed.

End FactosHoras.

Section FactosIntermediario.

Import Tratamento.
Context `{Biblioteca}.

Lemma soma_dos_validos (dts : list (option Z)) :
  exists q,
    fsum (List.map (fun d => match d with Some _ => Fin 1 | None => Fin 0 end) dts) = Fin q /\
    (q == inject_Z (Z.of_nat (length (List.filter (fun d => bool_decide (is_Some d)) dts))))%Q.
Proof.
  induction dts as [|d dts (q & Hq & Eq)].
  - exists 0%Q. split; reflexivity.
  - cbn [List.map fsum fold_right]. fold (fsum (List.map (fun d => match d with Some _ => Fin 1 | None => Fin 0 end) dts)).
    rewrite Hq. destruct d as [t|]; cbn [List.filter fadd].
    + exists (1 + q)%Q. split; [reflexivity|].
      rewrite bool_decide_eq_true_2 by (eexists; reflexivity).
      cbn [length]. rewrite Nat2Z.inj_succ. unfold Z.succ.
      rewrite inject_Z_plus, Eq. change (inject_Z 1) with 1%Q. ring.
    + exists (0 + q)%Q. split; [reflexivity|].
      rewrite bool_decide_eq_false_2 by (intros [x Hx]; discriminate Hx).
      rewrite Eq. ring.
Qed.

Lemma dropna_indicadores (dts : list (option Z)) :
  dropna (List.map (fun d => match d with Some _ => Fin 1 | None => Fin 0 end) dts)
  = List.map (fun d => match d with Some _ => Fin 1 | None => Fin 0 end) dts.
Proof.
  induction dts as [|d dts IH]; [reflexivity|].
  cbn [List.map]. unfold dropna in *. cbn [List.filter].
  destruct d; cbn [notnull is_nan negb]; rewrite IH; reflexivity.
Qed.

Lemma poucos_validos_contagem (dts : list (option Z)) :
  poucos_validos dts
  = (10 * length (List.filter (fun d => bool_decide (is_Some d)) dts)
     <? 8 * length dts)%nat.
Proof.
  unfold poucos_validos, media. rewrite dropna_indicadores.
  destruct dts as [|d dts]; [reflexivity|].
  set (l := d :: dts).
  change (List.map _ (d :: dts)) with (List.map (fun d => match d with Some _ => Fin 1 | None => Fin 0 end) l).
  destruct (List.map _ l) eqn:El; [discriminate El|]. rewrite <- El. clear El.
  destruct (soma_dos_validos l) as (q & Hq & Eq). rewrite Hq, length_map.
  set (k := length (List.filter _ l)) in *.
  assert (Hn : (0 < Z.of_nat (length l))%Z) by (subst l; cbn [length]; lia).
  unfold of_Z, fdiv. rewrite Qzero_inject by lia.
  apply Bool.eq_iff_eq_true. rewrite flt_Fin, Nat.ltb_lt.
  rewrite Eq.
  assert (Hpos : (0 < inject_Z (Z.of_nat (length l)))%Q)
    by (change 0%Q with (inject_Z 0); rewrite <- Zlt_Qlt; exact Hn).
  split.
  - intros Hlt.
    assert (Hm : (inject_Z (Z.of_nat k) < (8 # 10) * inject_Z (Z.of_nat (length l)))%Q).
    { apply (Qmult_lt_l _ _ _ Hpos) in Hlt.
      rewrite Qmult_div_r in Hlt by lra. rewrite (Qmult_comm (8 # 10)).
      exact Hlt. }
    unfold Qlt, Qmult, inject_Z in Hm. cbn [Qnum Qden] in Hm.
    rewrite Pos.mul_1_r in Hm. subst l. cbn [length] in *. lia.
  - intros Hlt. apply Qlt_shift_div_r; [exact Hpos|].
    unfold Qlt, Qmult, inject_Z. cbn [Qnum Qden].
    rewrite Pos.mul_1_r. subst l. cbn [length] in *. lia.
Qed.

Lemma contagem_map {A B} (P : B -> bool) (f : A -> B) (l : list A) :
  length (List.filter P (List.map f l))
  = length (List.filter (fun x => P (f x)) l).
Proof.
  induction l as [|x l IH]; [reflexivity|]. cbn [List.map List.filter].
  destruct (P (f x)); cbn [length]; rewrite IH; reflexivity.
Qed.

Lemma map_fst_combine {A B} (l : list A) (l' : list B) :
  length l = length l' -> List.map fst (combine l l') = l.
Proof.
  revert l'. induction l as [|x l IH]; intros [|y l'] Hl;
    try discriminate; [reflexivity|].
  cbn [combine List.map fst]. rewrite IH by (injection Hl; auto). reflexivity.
Qed.

Lemma map_snd_combine {A B} (l : list A) (l' : list B) :
  length l = length l' -> List.map snd (combine l l') = l'.
Proof.
  revert l'. induction l as [|x l IH]; intros [|y l'] Hl;
    try discriminate; [reflexivity|].
  cbn [combine List.map snd]. rewrite IH by (injection Hl; auto). reflexivity.
Qed.

Lemma interpretar_comprimento (series : list (option string)) :
  length (interpretar_datetime_intermediario series) = length series.
Proof.
  unfold interpretar_datetime_intermediario. cbv zeta.
  destruct (poucos_validos _); apply length_map.
Qed.

Lemma ler_normalizado_dt (csv : list LinhaCsv) :
  List.map dt (ler_normalizado csv)
  = interpretar_datetime_intermediario (List.map csv_dt csv).
Proof.
  unfold ler_normalizado. cbv zeta. rewrite List.map_map. cbn [dt].
  change (List.map (fun x : option Z * LinhaCsv => x.1)) with
    (List.map (@fst (option Z) LinhaCsv)).
  apply map_fst_combine. rewrite interpretar_comprimento. apply length_map.
Qed.

Lemma ler_normalizado_linhas (csv : list LinhaCsv)
    (col : Amostra -> num) (cel : LinhaCsv -> option string) :
  (forall d r, col {| dt := d;
                      Pot_Elet_KW := celula_numerica (csv_Pot_Elet_KW r);
                      Pot_Frig_KW := celula_numerica (csv_Pot_Frig_KW r);
                      COP := celula_numerica (csv_COP r) |}
               = celula_numerica (cel r)) ->
  List.map col (ler_normalizado csv)
  = List.map (fun r => celula_numerica (cel r)) csv.
Proof.
  intros Hcol. unfold ler_normalizado. cbv zeta. rewrite List.map_map.
  transitivity (List.map (fun r => celula_numerica (cel r))
                  (List.map snd (combine
                     (interpretar_datetime_intermediario (List.map csv_dt csv))
                     csv))).
  - rewrite List.map_map. apply List.map_ext. intros [d r]. apply Hcol.
  - rewrite map_snd_combine; [reflexivity|].
    rewrite interpretar_comprimento. apply length_map.
Qed.

End FactosIntermediario.


(** X6.  [carregar_amostras_chiller] reads the samples back from the
    transition file: every timestamp is the reading of its cell under the
    format [%Y-%m-%d %H:%M:%S] when at least 80% of the rows parse under it,
    and the day-first reading of its cell when fewer do; the three numeric
    columns are the numeric readings of their cells.  Every row receives the
    same step [c / 60] hours, [c] being one of the candidates 1, 5, 10, 15,
    30, 60, and the hours [agregar_consumo_e_horas_chiller] reports for a
    month are the number of samples of that month that are on times that
    step. *)
Theorem horas_sao_amostras_ligadas_vezes_passo `{Biblioteca}
    (csv : list Tratamento.LinhaCsv) (potencia_min_kw : num) :
  let parsed := Tratamento.carregar_amostras_do_normalizado csv in
  let validos :=
    length (List.filter
              (fun r => bool_decide
                          (is_Some (Tratamento.csv_dt r ≫= to_datetime_formato)))
              csv) in
  List.map (fun a => Tratamento.dt (Tratamento.amostra a)) parsed
  = List.map
      (fun r => Tratamento.csv_dt r
                ≫= (if (10 * validos <? 8 * length csv)%nat
                    then to_datetime else to_datetime_formato))
      csv /\
  List.map (fun a => Tratamento.Pot_Elet_KW (Tratamento.amostra a)) parsed
  = List.map (fun r => Tratamento.celula_numerica (Tratamento.csv_Pot_Elet_KW r))
             csv /\
  List.map (fun a => Tratamento.Pot_Frig_KW (Tratamento.amostra a)) parsed
  = List.map (fun r => Tratamento.celula_numerica (Tratamento.csv_Pot_Frig_KW r))
             csv /\
  List.map (fun a => Tratamento.COP (Tratamento.amostra a)) parsed
  = List.map (fun r => Tratamento.celula_numerica (Tratamento.csv_COP r)) csv /\
  exists c,
    c ∈ Tratamento.candidatos /\
    Forall (fun a => Tratamento.step_h a = Fin (c / 60)) parsed /\
    Forall (fun f =>
              let ligadas :=
                List.filter
                  (fun a => fgt (Tratamento.potencia a) potencia_min_kw)
                  (List.filter
                     (fun a => bool_decide
                                 (Tratamento.chave a
                                  = Some (Tratamento.Ano f, Tratamento.Mes f)))
                     parsed) in
              num_eq (Tratamento.Horas_Trabalhadas f)
                     (Fin (inject_Z (Z.of_nat (length ligadas)) * (c / 60))))
           (Tratamento.agregar_consumo_e_horas_chiller parsed potencia_min_kw).
Proof.
  intros parsed validos.
  assert (Hdt : List.map (fun a => Tratamento.dt (Tratamento.amostra a)) parsed
                = Tratamento.interpretar_datetime_intermediario
                    (List.map Tratamento.csv_dt csv)).
  { subst parsed. unfold Tratamento.carregar_amostras_do_normalizado,
      Tratamento.carregar_amostras_chiller. rewrite List.map_map.
    cbn [Tratamento.amostra]. apply ler_normalizado_dt. }
  split.
  { rewrite Hdt. unfold Tratamento.interpretar_datetime_intermediario.
    cbv zeta. rewrite poucos_validos_contagem, !contagem_map, !length_map.
    fold validos. destruct (10 * validos <? 8 * length csv)%nat;
      apply List.map_map. }
  split.
  { subst parsed. unfold Tratamento.carregar_amostras_do_normalizado,
      Tratamento.carregar_amostras_chiller. rewrite List.map_map.
    cbn [Tratamento.amostra].
    apply (ler_normalizado_linhas csv
             Tratamento.Pot_Elet_KW Tratamento.csv_Pot_Elet_KW).
    reflexivity. }
  split.
  { subst parsed. unfold Tratamento.carregar_amostras_do_normalizado,
      Tratamento.carregar_amostras_chiller. rewrite List.map_map.
    cbn [Tratamento.amostra].
    apply (ler_normalizado_linhas csv
             Tratamento.Pot_Frig_KW Tratamento.csv_Pot_Frig_KW).
    reflexivity. }
  split.
  { subst parsed. unfold Tratamento.carregar_amostras_do_normalizado,
      Tratamento.carregar_amostras_chiller. rewrite List.map_map.
    cbn [Tratamento.amostra].
    apply (ler_normalizado_linhas csv
             Tratamento.COP Tratamento.csv_COP).
    reflexivity. }
  destruct (passo_candidato
              (List.map Tratamento.dt (Tratamento.ler_normalizado csv)))
    as (c & Hc & Hp).
  exists c. split; [exact Hc|].
  assert (Hstep : Forall (fun a => Tratamento.step_h a = Fin (c / 60)) parsed).
  { subst parsed. unfold Tratamento.carregar_amostras_do_normalizado,
      Tratamento.carregar_amostras_chiller. rewrite Hp.
    apply Forall_forall. intros a Ha. apply list_elem_of_In, in_map_iff in Ha.
    destruct Ha as (x & <- & _). reflexivity. }
  split; [exact Hstep|].
  apply Forall_forall. intros f Hf. apply agregar_elem in Hf.
  destruct Hf as (k & _ & ->). destruct k as [y m]. simpl.
  eapply num_eq_trans; [apply (soma_dos_ligados Tratamento.step_h)|].
  apply soma_constante.
  apply Forall_forall. intros a Ha.
  rewrite Forall_forall in Hstep. apply Hstep.
  apply list_elem_of_In, filter_In in Ha. destruct Ha as [Ha _].
  unfold Tratamento.grupo in Ha. apply filter_In in Ha. destruct Ha as [Ha _].
  apply list_elem_of_In. exact Ha.
Qed.

Section FactosSerieRegular.

Import Tratamento.

(** The timestamps [t0, t0 + k, t0 + 2k, ...] in nanoseconds. *)
Lemma diff_minutos_regular (t0 k : Z) (n : nat) :
  forall i : nat,
    diff_minutos
      (List.map (fun j : nat => Some (t0 + Z.of_nat j * k)) (seq i (S n)))
    = replicate n (Fin (inject_Z k / inject_Z 1000000000 / 60)).
Proof.
  induction n as [|n IH]; intros i; [reflexivity|].
  change (seq i (S (S n))) with (i :: S i :: seq (S (S i)) n).
  cbn [List.map].
  change (diff_minutos (?a :: ?b :: ?l))
    with (delta_minutos a b :: diff_minutos (b :: l)).
  rewrite delta_minutos_Fin.
  replace (t0 + Z.of_nat (S i) * k - (t0 + Z.of_nat i * k)) with k by lia.
  cbn [replicate]. f_equal. apply (IH (S i)).
Qed.

Lemma filter_replicate {A} (f : A -> bool) (x : A) (n : nat) :
  f x = true -> List.filter f (replicate n x) = replicate n x.
Proof.
  intros Hx. induction n as [|n IH]; simpl; [reflexivity|].
  rewrite Hx, IH. reflexivity.
Qed.

Lemma mediana_constante (d : Q) (n : nat) :
  exists m, mediana (replicate (S n) (Fin d)) = Fin m /\ (m == d)%Q.
Proof.
  assert (Hf : Forall finito (replicate (S n) (Fin d))).
  { apply Forall_forall. intros x Hx. apply elem_of_replicate in Hx.
    destruct Hx as [-> _]. reflexivity. }
  rewrite (mediana_do_meio _ Hf); [|discriminate]. cbv zeta.
  assert (Ho : ordenar (replicate (S n) (Fin d)) = replicate (S n) (Fin d)).
  { symmetry. apply replicate_Permutation. symmetry. apply ordenar_perm. }
  rewrite Ho, length_replicate.
  assert (Hn : forall i, (i < S n)%nat ->
                         nth i (replicate (S n) (Fin d)) NaN = Fin d).
  { intros i Hi. apply nth_lookup_Some. apply lookup_replicate. auto. }
  assert (H2 : (S n / 2 < S n)%nat) by (apply Nat.div_lt; lia).
  destruct (Nat.odd (S n)).
  - exists d. split; [apply Hn; exact H2 | reflexivity].
  - rewrite !Hn by lia. simpl. eexists. split; [reflexivity|]. field.
Qed.

Lemma candidato_mais_proximo (c m : Q) :
  c ∈ candidatos -> (m == c)%Q ->
  argmin (fun x => fabs (fsub (Fin x) (Fin m))) candidatos = c.
Proof.
  intros Hc Hm.
  pose proof (argmin_go_minimo
                (fun x => fabs (fsub (Fin x) (Fin m)))
                (fun x => Qabs (x - m)) (fun x => eq_refl)
                (tl candidatos) 1%Q) as (Hin & Hle & Hall).
  cbv zeta in Hin, Hle, Hall.
  change (argmin (fun x => fabs (fsub (Fin x) (Fin m))) candidatos)
    with (argmin_go (fun x => fabs (fsub (Fin x) (Fin m))) 1%Q (tl candidatos)).
  set (r := argmin_go _ 1%Q (tl candidatos)) in *. clearbody r.
  assert (Hrc : (Qabs (r - m) <= Qabs (c - m))%Q).
  { change (1%Q :: tl candidatos) with candidatos in Hin.
    assert (Hall' : Forall (fun x => (Qabs (r - m) <= Qabs (x - m))%Q) candidatos)
      by (constructor; assumption).
    rewrite Forall_forall in Hall'. apply Hall'. exact Hc. }
  assert (Hz : (Qabs (c - m) == 0)%Q).
  { apply (Qabs_case (c - m)%Q (fun x => (x == 0)%Q)); intros; lra. }
  rewrite Hz in Hrc.
  assert (Hr : (r == c)%Q).
  { pose proof (Qabs_nonneg (r - m)) as Hn.
    assert (Ha : (Qabs (r - m) == 0)%Q) by lra.
    rewrite <- Hm. revert Ha.
    apply (Qabs_case (r - m)%Q (fun x => (x == 0)%Q -> (r == m)%Q));
      intros; lra. }
  change (1%Q :: tl candidatos) with candidatos in Hin.
  unfold candidatos in Hin, Hc.
  repeat (apply elem_of_cons in Hin; destruct Hin as [->|Hin]);
    try (inversion Hin; fail);
    repeat (apply elem_of_cons in Hc; destruct Hc as [->|Hc]);
    try (inversion Hc; fail);
    try reflexivity; exfalso; revert Hr; unfold Qeq; simpl; lia.
Qed.

End FactosSerieRegular.

(** X7.  For a regular series, at least two timestamps spaced by exactly [c]
    minutes with [c] one of the candidates 1, 5, 10, 15, 30, 60,
    [estimar_intervalo_de_amostragem_minutos] returns [c]. *)
Theorem passo_de_serie_regular (t0 c : Z) (n : nat) :
  inject_Z c ∈ Tratamento.candidatos ->
  (2 <= n)%nat ->
  Tratamento.estimar_intervalo_de_amostragem_minutos
    (List.map (fun j : nat => Some (t0 + Z.of_nat j * (c * 60000000000)))
              (seq 0 n))
  = Fin (inject_Z c).
Proof.
  intros Hc Hn.
  destruct n as [|[|n]]; [lia | lia |].
  unfold Tratamento.estimar_intervalo_de_amostragem_minutos,
    Tratamento.deltas_validos.
  rewrite diff_minutos_regular.
  set (d := (inject_Z (c * 60000000000) / inject_Z 1000000000 / 60)%Q).
  assert (Hd : (d == inject_Z c)%Q).
  { subst d. rewrite inject_Z_mult. field. }
  assert (Hv : fgt (Fin d) (Fin 0) && fle (Fin d) (Fin 60) = true).
  { unfold fgt. apply andb_true_iff. split.
    - apply flt_Fin. rewrite Hd.
      unfold Tratamento.candidatos in Hc.
      repeat (apply elem_of_cons in Hc; destruct Hc as [Hc|Hc];
              [rewrite Hc; reflexivity|]).
      inversion Hc.
    - simpl. apply Qle_bool_iff. rewrite Hd.
      unfold Tratamento.candidatos in Hc.
      repeat (apply elem_of_cons in Hc; destruct Hc as [Hc|Hc];
              [rewrite Hc; unfold Qle; simpl; lia|]).
      inversion Hc. }
  rewrite (filter_replicate (fun d => fgt d (Fin 0) && fle d (Fin 60))
             (Fin d) _ Hv).
  destruct (mediana_constante d n) as (m & Hm & Hmd).
  cbn [replicate] in *. rewrite Hm. f_equal.
  apply candidato_mais_proximo; [exact Hc|].
  rewrite Hmd. exact Hd.
Qed.

Lemma passo_de_serie_regular_witness :
  Tratamento.estimar_intervalo_de_amostragem_minutos
    (List.map (fun j : nat => Some (0 + Z.of_nat j * (15 * 60000000000)))
              (seq 0 4))
  = Fin (inject_Z 15).
Proof.
  apply (passo_de_serie_regular 0 15 4).
  - unfold Tratamento.candidatos. do 3 right. left.
  - lia.
Defined.

(** ** Mean power and utilisation factor *)

Section FactosMediaPonderada.

Import Tratamento.

Lemma fadd_quase_zero (z : Q) (y : num) : (z == 0)%Q -> num_eq (fadd (Fin z) y) y.
Proof.
  intros Hz. destruct y as [|b|q]; simpl; auto. rewrite Hz. ring.
Qed.

Lemma soma_quase_zero (z : Q) (l l' : list num) :
  (z == 0)%Q -> num_eq (soma l) (soma l') -> num_eq (soma (Fin z :: l)) (soma l').
Proof.
  intros Hz E. rewrite soma_cons. cbn [notnull is_nan negb].
  eapply num_eq_trans; [apply fadd_quase_zero; exact Hz | exact E].
Qed.

Lemma soma_sem_nan (l l' : list num) :
  num_eq (soma l) (soma l') -> num_eq (soma (NaN :: l)) (soma l').
Proof. intros E. rewrite soma_cons. exact E. Qed.

Lemma grupo_com_peso thr k (l : list AmostraPasso) :
  grupo_am k (com_peso thr l) = com_peso thr (grupo k l).
Proof.
  unfold grupo_am, com_peso, grupo.
  induction l as [|a l IH]; [reflexivity|].
  cbn [List.map List.filter]. cbn [linha].
  destruct (no_grupo k a); cbn [List.map]; rewrite IH; reflexivity.
Qed.

Lemma pesos_sao_horas thr (l : list AmostraPasso) :
  Forall (fun a => finito (step_h a)) l ->
  List.map (fun r => fillna (Fin 0) (w r)) (com_peso thr l)
  = List.map (h_linha thr) l.
Proof.
  unfold com_peso. induction 1 as [|a l Ha _ IH]; [reflexivity|].
  cbn [List.map]. rewrite IH. f_equal. cbn [w]. unfold h_linha.
  destruct (ligado thr a); [|reflexivity].
  destruct (step_h a); try discriminate. reflexivity.
Qed.

Lemma energia_ponderada thr (l : list AmostraPasso) :
  Forall (fun a => finito (step_h a)) l ->
  num_eq
    (nansum (List.map (fun '(x, p) => fmul x p)
               (combine (List.map (fun r => Pot_Elet_KW (amostra (linha r)))
                                  (com_peso thr l))
                        (List.map (fun r => fillna (Fin 0) (w r))
                                  (com_peso thr l)))))
    (soma (List.map (kwh_linha thr) l)).
Proof.
  change nansum with soma. unfold com_peso.
  induction 1 as [|a l Ha _ IH]; [apply num_eq_refl|].
  cbn [List.map combine linha w].
  unfold kwh_linha at 1. unfold potencia.
  destruct (step_h a) as [| |s] eqn:Es; try discriminate.
  destruct (ligado thr a).
  - cbn [fillna is_nan].
    destruct (Pot_Elet_KW (amostra a)) as [|b|p] eqn:Ep.
    + cbn [fmul fillna is_nan]. apply soma_sem_nan. apply num_eq_sym.
      apply soma_quase_zero; [ring | apply num_eq_sym; exact IH].
    + cbn [fillna is_nan]. apply soma_cons_eq. exact IH.
    + cbn [fillna is_nan]. apply soma_cons_eq. exact IH.
  - cbn [fillna is_nan].
    destruct (Pot_Elet_KW (amostra a)) as [|b|p] eqn:Ep.
    + cbn [fmul]. apply soma_sem_nan. apply num_eq_sym.
      apply soma_quase_zero; [reflexivity | apply num_eq_sym; exact IH].
    + change (fmul (Inf b) (Fin 0)) with NaN.
      apply soma_sem_nan. apply num_eq_sym.
      apply soma_quase_zero; [reflexivity | apply num_eq_sym; exact IH].
    + cbn [fmul]. apply soma_quase_zero; [ring|].
      apply num_eq_sym.
      apply soma_quase_zero; [reflexivity | apply num_eq_sym; exact IH].
Qed.

Lemma fdiv_fmul_positivo (x : num) (h : Q) :
  (0 < h)%Q -> num_eq (fmul (fdiv x (Fin h)) (Fin h)) x.
Proof.
  intros Hh.
  assert (Hz : Qzero h = false) by (apply Qzero_false; lra).
  assert (Hn : Qneg h = false) by (apply Qneg_false; lra).
  destruct x as [|b|p]; cbn [fdiv].
  - exact I.
  - rewrite Hn. cbn [fmul]. rewrite Hz, Hn. destruct b; reflexivity.
  - rewrite Hz. cbn [fmul num_eq]. field. lra.
Qed.

End FactosMediaPonderada.

Section FactosHistorico.

Import Tratamento.

Lemma passos_finitos (df : list Amostra) :
  Forall (fun a => finito (step_h a)) (carregar_amostras_chiller df).
Proof.
  destruct (passo_candidato (List.map dt df)) as (c & _ & Hp).
  unfold carregar_amostras_chiller. rewrite Hp.
  apply Forall_forall. intros a Ha. apply list_elem_of_In, in_map_iff in Ha.
  destruct Ha as (x & <- & _). reflexivity.
Qed.

Lemma grupo_Forall (P : AmostraPasso -> Prop) k l :
  Forall P l -> Forall P (grupo k l).
Proof.
  intros Hl. apply Forall_forall. intros a Ha.
  rewrite Forall_forall in Hl. apply Hl.
  apply list_elem_of_In in Ha. unfold grupo in Ha. apply filter_In in Ha.
  apply list_elem_of_In. tauto.
Qed.

Lemma horas_finitas thr (l : list AmostraPasso) :
  Forall (fun a => finito (step_h a)) l ->
  finito (soma (List.map (h_linha thr) l)).
Proof.
  intros Hl. apply soma_finita. apply Forall_forall. intros x Hx.
  apply list_elem_of_In, in_map_iff in Hx. destruct Hx as (a & <- & Ha).
  rewrite Forall_forall in Hl. apply list_elem_of_In in Ha.
  specialize (Hl a Ha). unfold h_linha.
  destruct (ligado thr a); [exact Hl | reflexivity].
Qed.

(** The weighted mean power of a group in terms of its two monthly sums. *)
Lemma media_ponderada_pelas_somas thr (g : list AmostraPasso) :
  Forall (fun a => finito (step_h a)) g ->
  exists h e,
    soma (List.map (h_linha thr) g) = Fin h /\
    num_eq e (soma (List.map (kwh_linha thr) g)) /\
    _weighted_avg (com_peso thr g) Pot_Elet_KW
    = if Qle_bool h 0 then NaN else fdiv e (Fin h).
Proof.
  intros Hg. pose proof (horas_finitas thr g Hg) as Hh.
  destruct (soma (List.map (h_linha thr) g)) as [| |h] eqn:Eh;
    try discriminate.
  exists h. eexists. split; [reflexivity|].
  split; [apply (energia_ponderada thr g Hg)|].
  unfold _weighted_avg. rewrite (pesos_sao_horas thr g Hg).
  change (nansum (List.map (h_linha thr) g))
    with (soma (List.map (h_linha thr) g)).
  rewrite Eh. reflexivity.
Qed.

End FactosHistorico.

(** X8.  In the history table, on the samples of [carregar_amostras_chiller],
    the mean power of a month is empty when the month has no hours of
    operation; otherwise the hours are a positive number and the mean power
    times the hours is the consumption of that month. *)
Theorem potencia_media_vezes_horas_e_consumo
    (df : list Tratamento.Amostra) (potencia_min_kw : num) (k : Z * string) :
  let parsed := Tratamento.carregar_amostras_chiller df in
  let f := Tratamento.mensal_de potencia_min_kw parsed k in
  let pm :=
    Tratamento.media_ponderada_de potencia_min_kw parsed
      Tratamento.Pot_Elet_KW k in
  exists h,
    Tratamento.Horas_Trabalhadas f = Fin h /\
    if Qle_bool h 0 then pm = NaN
    else num_eq (fmul pm (Fin h)) (Tratamento.Consumo_KWh f).
Proof.
  intros parsed f pm.
  assert (Hg : Forall (fun a => finito (Tratamento.step_h a))
                      (Tratamento.grupo k parsed))
    by apply grupo_Forall, passos_finitos.
  destruct (media_ponderada_pelas_somas potencia_min_kw _ Hg)
    as (h & e & Hh & He & Hw).
  exists h. split; [exact Hh|].
  subst pm. unfold Tratamento.media_ponderada_de.
  rewrite grupo_com_peso, Hw.
  destruct (Qle_bool h 0) eqn:E; [reflexivity|].
  assert (Hpos : (0 < h)%Q).
  { destruct (Qlt_le_dec 0 h) as [L|L]; [exact L|].
    apply Qle_bool_iff in L. congruence. }
  eapply num_eq_trans; [apply fdiv_fmul_positivo; exact Hpos | exact He].
Qed.

(** X9.  The utilisation factor that [atualizar_historico_acuracia] computes
    from the consumption, mean power and hours of a month of the history
    table is 1 when the month has hours of operation and a consumption that
    is a number other than 0, and is empty in every other case: in exact
    arithmetic it never takes another value. *)
Theorem fator_de_utilizacao_e_um_ou_vazio
    (df : list Tratamento.Amostra) (potencia_min_kw : num) (k : Z * string) :
  let parsed := Tratamento.carregar_amostras_chiller df in
  let f := Tratamento.mensal_de potencia_min_kw parsed k in
  let pm :=
    Tratamento.media_ponderada_de potencia_min_kw parsed
      Tratamento.Pot_Elet_KW k in
  let fu :=
    Validacao.fator_utilizacao (Tratamento.Consumo_KWh f) pm
      (Tratamento.Horas_Trabalhadas f) in
  if fgt (Tratamento.Horas_Trabalhadas f) (Fin 0)
     && is_fin (Tratamento.Consumo_KWh f)
     && negb (feqb (Tratamento.Consumo_KWh f) (Fin 0))
  then num_eq fu (Fin 1)
  else fu = NaN.
Proof.
  intros parsed f pm fu.
  assert (Hg : Forall (fun a => finito (Tratamento.step_h a))
                      (Tratamento.grupo k parsed))
    by apply grupo_Forall, passos_finitos.
  destruct (media_ponderada_pelas_somas potencia_min_kw _ Hg)
    as (h & e & Hh & He & Hw).
  assert (Hpm : pm = if Qle_bool h 0 then NaN else fdiv e (Fin h)).
  { subst pm. unfold Tratamento.media_ponderada_de.
    rewrite grupo_com_peso. exact Hw. }
  subst fu. unfold Validacao.fator_utilizacao.
  change (Tratamento.Horas_Trabalhadas f)
    with (soma (List.map (Tratamento.h_linha potencia_min_kw)
                         (Tratamento.grupo k parsed))).
  change (Tratamento.Consumo_KWh f)
    with (soma (List.map (Tratamento.kwh_linha potencia_min_kw)
                         (Tratamento.grupo k parsed))) in *.
  rewrite Hh, Hpm. clear Hpm Hw Hh.
  set (C := soma _) in *. clearbody C.
  unfold fgt. cbn [flt].
  destruct (Qle_bool h 0) eqn:E.
  - apply Qle_bool_iff in E.
    assert (Hc : (0 ?= h)%Q <> Lt).
    { intros Hlt. apply Qlt_alt in Hlt. lra. }
    destruct (0 ?= h)%Q; try congruence; cbn [andb];
      destruct C; reflexivity.
  - assert (Hpos : (0 < h)%Q).
    { destruct (Qlt_le_dec 0 h) as [L|L]; [exact L|].
      apply Qle_bool_iff in L. congruence. }
    pose proof (fdiv_fmul_positivo e h Hpos) as Hp.
    pose proof (num_eq_trans _ _ _ Hp He) as Hq.
    assert (Hcmp : (0 ?= h)%Q = Lt) by (apply Qlt_alt; exact Hpos).
    rewrite Hcmp. cbn [andb].
    destruct (fmul (fdiv e (Fin h)) (Fin h)) as [|b|p], C as [|b'|c];
      simpl in Hq; try contradiction; try reflexivity.
    cbn [is_fin feqb andb replace_zero_nan].
    change (Qeq_bool c 0) with (Qzero c).
    destruct (Qzero c) eqn:Ec.
    + assert (Hz : Qzero p = true).
      { apply Qzero_true. rewrite Hq. apply Qeq_bool_iff. exact Ec. }
      rewrite Hz. reflexivity.
    + assert (Hnz : ~ (c == 0)%Q).
      { intros Hc. apply Qzero_true in Hc. congruence. }
      assert (Hz : Qzero p = false).
      { apply Qzero_false. rewrite Hq. exact Hnz. }
      rewrite Hz. cbn [negb fdiv]. rewrite Hz. cbn [num_eq].
      rewrite Hq. field. exact Hnz.
Qed.

(** ** Price of the kWh *)

Section FactosKwh.

Import Tratamento.

Lemma kwh_le_total : Total kwh_le.
Proof.
  intros a b. unfold kwh_le.
  destruct (k_Ano a), (k_Ano b); auto. lia.
Qed.

Lemma kwh_le_trans : Transitive kwh_le.
Proof.
  intros a b c. unfold kwh_le.
  destruct (k_Ano a), (k_Ano b), (k_Ano c); try tauto. lia.
Qed.

Lemma existsb_ano (y : option Z) (l : list LinhaKwh) :
  existsb (fun r' => bool_decide (k_Ano r' = y)) l = false <->
  Forall (fun r' => k_Ano r' <> y) l.
Proof.
  induction l as [|a l IH]; simpl.
  - split; [constructor | reflexivity].
  - rewrite orb_false_iff, IH, bool_decide_eq_false. split.
    + intros [Ha Hl]. constructor; assumption.
    + intros Hl. apply Forall_cons in Hl. exact Hl.
Qed.

(** A row kept by [drop_duplicates_last] is the last of its year. *)
Lemma drop_duplicates_last_elem (l : list LinhaKwh) (r : LinhaKwh) :
  r ∈ drop_duplicates_last l ->
  exists l1 l2, l = l1 ++ r :: l2 /\ Forall (fun r' => k_Ano r' <> k_Ano r) l2.
Proof.
  induction l as [|a l IH]; simpl; [intros Hr; inversion Hr|].
  destruct (existsb _ l) eqn:E.
  - intros Hr. destruct (IH Hr) as (l1 & l2 & -> & Hl2).
    exists (a :: l1), l2. split; [reflexivity | exact Hl2].
  - intros Hr. apply elem_of_cons in Hr. destruct Hr as [-> | Hr].
    + exists [], l. split; [reflexivity|]. apply existsb_ano. exact E.
    + destruct (IH Hr) as (l1 & l2 & -> & Hl2).
      exists (a :: l1), l2. split; [reflexivity | exact Hl2].
Qed.

(** Every year of the frame survives. *)
Lemma drop_duplicates_last_cobre (l : list LinhaKwh) :
  forall r, r ∈ l ->
            exists r', r' ∈ drop_duplicates_last l /\ k_Ano r' = k_Ano r.
Proof.
  induction l as [|a l IH]; intros r Hr; [inversion Hr|].
  simpl. destruct (existsb _ l) eqn:E.
  - apply elem_of_cons in Hr. destruct Hr as [-> | Hr]; [|auto].
    apply existsb_exists in E. destruct E as (x & Hx & Hy).
    apply bool_decide_eq_true in Hy. apply list_elem_of_In in Hx.
    destruct (IH x Hx) as (r' & Hr' & Hk). exists r'. split; [exact Hr'|].
    congruence.
  - apply elem_of_cons in Hr. destruct Hr as [-> | Hr].
    + exists a. split; [left | reflexivity].
    + destruct (IH r Hr) as (r' & Hr' & Hk).
      exists r'. split; [right|]; assumption.
Qed.

Lemma drop_duplicates_last_sub (l : list LinhaKwh) (r : LinhaKwh) :
  r ∈ drop_duplicates_last l -> r ∈ l.
Proof.
  intros Hr. destruct (drop_duplicates_last_elem l r Hr) as (l1 & l2 & -> & _).
  apply elem_of_app. right. left.
Qed.

Lemma drop_duplicates_last_NoDup (l : list LinhaKwh) :
  NoDup (List.map k_Ano (drop_duplicates_last l)).
Proof.
  induction l as [|a l IH]; simpl; [constructor|].
  destruct (existsb _ l) eqn:E; [exact IH|].
  simpl. constructor; [|exact IH].
  intros Hin. apply list_elem_of_In, in_map_iff in Hin.
  destruct Hin as (x & Hk & Hx). apply list_elem_of_In in Hx.
  apply drop_duplicates_last_sub in Hx.
  apply existsb_ano in E. rewrite Forall_forall in E.
  exact (E x Hx Hk).
Qed.

(** The last row of a frame is the only row of its year that is kept. *)
Lemma drop_duplicates_last_ultima (l : list LinhaKwh) (x : LinhaKwh) :
  List.filter (fun r => bool_decide (k_Ano r = k_Ano x))
              (drop_duplicates_last (l ++ [x]))
  = [x].
Proof.
  induction l as [|a l IH]; simpl.
  - rewrite bool_decide_eq_true_2 by reflexivity. reflexivity.
  - destruct (existsb _ (l ++ [x])) eqn:E; [exact IH|].
    simpl. apply existsb_ano in E. rewrite Forall_forall in E.
    assert (Hx : k_Ano x <> k_Ano a).
    { apply E. apply elem_of_app. right. left. }
    rewrite bool_decide_eq_false_2 by congruence. exact IH.
Qed.

End FactosKwh.

(** X10.  [tratar_arquivo_kwh_para_dados_cummins] writes nothing when
    [KWH.xlsx] has no rows.  Otherwise, with [total] the existing table
    followed by the complete input rows of a year other than 2022 and by the
    fixed row (2022, "0,5"): the table written has exactly one row for 2022
    and it is the fixed row, whatever the input and the existing table say;
    no year occurs twice; the rows are in ascending order of year; every
    year of [total] is in the table; and every row written is the last row
    of [total] for its year. *)
Theorem preco_do_kwh_por_ano
    (df_entrada : list Tratamento.LinhaKwh)
    (destino : option (list Tratamento.LinhaKwh)) :
  let total :=
    default [] destino
    ++ List.filter
         (fun r => negb (bool_decide (Tratamento.k_Ano r = Some 2022)))
         (Tratamento.dropna_kwh df_entrada)
    ++ Tratamento.df_fixo in
  match Tratamento.tratar_arquivo_kwh_para_dados_cummins df_entrada destino with
  | None => df_entrada = []
  | Some out =>
      df_entrada <> [] /\
      List.filter (fun r => bool_decide (Tratamento.k_Ano r = Some 2022)) out
      = Tratamento.df_fixo /\
      NoDup (List.map Tratamento.k_Ano out) /\
      StronglySorted Tratamento.kwh_le out /\
      (forall r, r ∈ total ->
         exists r', r' ∈ out /\ Tratamento.k_Ano r' = Tratamento.k_Ano r) /\
      (forall r, r ∈ out ->
         exists l1 l2,
           total = l1 ++ r :: l2 /\
           Forall (fun r' => Tratamento.k_Ano r' <> Tratamento.k_Ano r) l2)
  end.
Proof.
  intros total.
  unfold Tratamento.tratar_arquivo_kwh_para_dados_cummins.
  destruct df_entrada as [|r0 l0]; [reflexivity|].
  set (ent := List.filter _ (Tratamento.dropna_kwh (r0 :: l0))) in *.
  assert (Ht : match destino with
               | Some df_existente => df_existente ++ ent ++ Tratamento.df_fixo
               | None => ent ++ Tratamento.df_fixo
               end = total).
  { subst total. destruct destino; reflexivity. }
  cbv zeta. rewrite Ht. clear Ht.
  set (out := merge_sort Tratamento.kwh_le
                (Tratamento.drop_duplicates_last total)).
  assert (Hp : out ≡ₚ Tratamento.drop_duplicates_last total)
    by apply merge_sort_Permutation.
  split; [discriminate|]. split; [|split; [|split; [|split]]].
  - assert (Hf : List.filter
                   (fun r => bool_decide (Tratamento.k_Ano r = Some 2022))
                   (Tratamento.drop_duplicates_last total)
                 = Tratamento.df_fixo).
    { subst total. rewrite app_assoc.
      apply (drop_duplicates_last_ultima _
               {| Tratamento.k_Ano := Some 2022;
                  Tratamento.k_Valor := Some (Tratamento.Texto "0,5") |}). }
    pose proof (filter_perm
                  (fun r => bool_decide (Tratamento.k_Ano r = Some 2022))
                  _ _ Hp) as Hq.
    rewrite Hf in Hq. unfold Tratamento.df_fixo in *.
    apply Permutation_singleton_r in Hq. exact Hq.
  - rewrite (Permutation_map Tratamento.k_Ano Hp).
    apply drop_duplicates_last_NoDup.
  - pose proof kwh_le_total. pose proof kwh_le_trans.
    apply StronglySorted_merge_sort; apply _.
  - intros r Hr.
    destruct (drop_duplicates_last_cobre total r Hr) as (r' & Hr' & Hk).
    exists r'. split; [|exact Hk]. rewrite Hp. exact Hr'.
  - intros r Hr. rewrite Hp in Hr.
    apply drop_duplicates_last_elem. exact Hr.
Qed.

(** ** Differences against the corrected history *)

Section FactosDiferenca.

Import Estimativas Utils.
Context `{Biblioteca}.

Lemma round_half_even_comp (x y : Q) :
  (x == y)%Q -> round_half_even x = round_half_even y.
Proof.
  intros E. unfold round_half_even.
  rewrite (Qfloor_comp x y E).
  assert (Ec : (x - inject_Z (Qfloor y) ?= 1 # 2)%Q
               = (y - inject_Z (Qfloor y) ?= 1 # 2)%Q).
  { apply Qcompare_comp; [rewrite E; reflexivity | reflexivity]. }
  rewrite Ec. reflexivity.
Qed.

Lemma Qround2_comp (x y : Q) : (x == y)%Q -> Qround2 x = Qround2 y.
Proof.
  intros E. unfold Qround2, Qround_casas.
  rewrite (round_half_even_comp (x * inject_Z (10 ^ Z.of_nat 2))
                                (y * inject_Z (10 ^ Z.of_nat 2)));
    [reflexivity | rewrite E; reflexivity].
Qed.

Lemma Qround2_zero (x : Q) : (x == 0)%Q -> Qround2 x = 0%Q.
Proof. intros E. rewrite (Qround2_comp x 0 E). reflexivity. Qed.

(** The difference of a value against itself is never a number other
    than 0. *)
Lemma calcular_diferenca_de_si (x : option num) :
  let zero_ou_vazio (d : option num) :=
    match d with Some (Fin q) => q = 0%Q | _ => True end in
  zero_ou_vazio (calcular_diferenca x x).1 /\
  zero_ou_vazio (calcular_diferenca x x).2.
Proof.
  cbv zeta. unfold calcular_diferenca.
  destruct x as [[|a|q]|]; cbn [notnull is_nan negb andb feqb];
    try (split; exact I).
  - change (fsub (Inf a) (Inf a)) with (fadd (Inf a) (Inf (negb a))).
    cbn [fadd]. destruct a; cbn; split; exact I.
  - destruct (Qeq_bool q 0) eqn:E; cbn [negb fst snd]; [split; exact I|].
    assert (Hq : ~ (q == 0)%Q).
    { intros Hq. apply Qeq_bool_iff in Hq. congruence. }
    cbn [fsub fopp fadd round2 fdiv]. change (Qzero q) with (Qeq_bool q 0).
    rewrite E. cbn [fmul round2]. split.
    + apply Qround2_zero. ring.
    + apply Qround2_zero. field. exact Hq.
Qed.

Lemma linha_ano_vigente_diferencas hoje vies df idx mes_nome :
  let r := linha_ano_vigente hoje vies df idx mes_nome in
  ((idx <? mes hoje)%Z = true <-> e_Tipo r = "Real"%string) /\
  ((idx <? mes hoje)%Z = false ->
   Delta_Temp r
   = (calcular_diferenca (Temp_Hist_Corr r) (Temp_Hist_Corr r)).1 /\
   Tendencia_Temp r
   = (calcular_diferenca (Temp_Hist_Corr r) (Temp_Hist_Corr r)).2 /\
   Delta_Horas r
   = (calcular_diferenca (Horas_Hist_Corr r) (Horas_Hist_Corr r)).1 /\
   Tendencia_Horas r
   = (calcular_diferenca (Horas_Hist_Corr r) (Horas_Hist_Corr r)).2).
Proof.
  unfold linha_ano_vigente.
  destruct (idx <? mes hoje)%Z; [|destruct (idx =? mes hoje)%Z];
    repeat match goal with
           | |- context [let '(_, _) := calcular_diferenca ?a ?b in _] =>
               destruct (calcular_diferenca a b) eqn:?
           end;
    cbn [e_Tipo Delta_Temp Tendencia_Temp Delta_Horas Tendencia_Horas
         Temp_Hist_Corr Horas_Hist_Corr];
    (refine (conj _ _);
     [refine (conj _ _); intros Hx; first [reflexivity | discriminate Hx]
     |intros Hx;
      first [discriminate Hx
            |repeat match goal with
                    | E : calcular_diferenca _ _ = _ |- _ => rewrite E; clear E
                    end;
             repeat split; reflexivity]]).
Qed.

Lemma linha_ano_seguinte_diferencas hoje vies df mes_nome :
  let r := linha_ano_seguinte hoje vies df mes_nome in
  Delta_Temp r
  = (calcular_diferenca (Temp_Hist_Corr r) (Temp_Hist_Corr r)).1 /\
  Tendencia_Temp r
  = (calcular_diferenca (Temp_Hist_Corr r) (Temp_Hist_Corr r)).2 /\
  Delta_Horas r
  = (calcular_diferenca (Horas_Hist_Corr r) (Horas_Hist_Corr r)).1 /\
  Tendencia_Horas r
  = (calcular_diferenca (Horas_Hist_Corr r) (Horas_Hist_Corr r)).2.
Proof.
  unfold linha_ano_seguinte.
  repeat match goal with
         | |- context [let '(_, _) := calcular_diferenca ?a ?b in _] =>
             destruct (calcular_diferenca a b) eqn:?
         end.
  cbn [Delta_Temp Tendencia_Temp Delta_Horas Tendencia_Horas
       Temp_Hist_Corr Horas_Hist_Corr].
  repeat match goal with
         | E : calcular_diferenca _ _ = _ |- _ => rewrite E; clear E
         end.
  repeat split; reflexivity.
Qed.

(** X11.  In the estimate tables the four difference columns (delta and
    trend of temperature and of hours) of every row that is not [Real], that
    is of the current month, of the months to come and of the whole
    following year, are never a number other than 0: the estimate is the
    corrected historical mean itself, so each difference is 0 or empty. *)
Theorem diferencas_das_projecoes_sao_nulas
    (hoje : Data) (precisao : option (list LinhaPrecisao)) (df : Tabela) :
  let zero_ou_vazio (d : option num) :=
    match d with Some (Fin q) => q = 0%Q | _ => True end in
  let sem_diferenca (r : LinhaEstimativa) :=
    zero_ou_vazio (Delta_Temp r) /\ zero_ou_vazio (Tendencia_Temp r) /\
    zero_ou_vazio (Delta_Horas r) /\ zero_ou_vazio (Tendencia_Horas r) in
  Forall (fun r => e_Tipo r <> "Real"%string -> sem_diferenca r)
         (estimar_consumo_ano_vigente hoje precisao df) /\
  Forall sem_diferenca (estimar_consumo_ano_seguinte hoje precisao df).
Proof.
  intros zero_ou_vazio sem_diferenca. split.
  - unfold estimar_consumo_ano_vigente.
    apply Forall_forall. intros r Hr.
    apply list_elem_of_In, in_map_iff in Hr.
    destruct Hr as ([idx m] & <- & _). intros Hreal.
    destruct (linha_ano_vigente_diferencas
                hoje (carregar_vies_historico precisao) df idx m)
      as (Ht & Hd).
    destruct (idx <? mes hoje)%Z eqn:E.
    { exfalso. apply Hreal. apply Ht. reflexivity. }
    destruct (Hd eq_refl) as (H1 & H2 & H3 & H4).
    unfold sem_diferenca. rewrite H1, H2, H3, H4.
    pose proof (calcular_diferenca_de_si
                  (Temp_Hist_Corr
                     (linha_ano_vigente hoje (carregar_vies_historico precisao)
                                        df idx m))) as [Ha Hb].
    pose proof (calcular_diferenca_de_si
                  (Horas_Hist_Corr
                     (linha_ano_vigente hoje (carregar_vies_historico precisao)
                                        df idx m))) as [Hc Hd'].
    repeat split; assumption.
  - unfold estimar_consumo_ano_seguinte.
    apply Forall_forall. intros r Hr.
    apply list_elem_of_In, in_map_iff in Hr. destruct Hr as (m & <- & _).
    destruct (linha_ano_seguinte_diferencas
                hoje (carregar_vies_historico precisao) df m)
      as (H1 & H2 & H3 & H4).
    unfold sem_diferenca. rewrite H1, H2, H3, H4.
    pose proof (calcular_diferenca_de_si
                  (Temp_Hist_Corr
                     (linha_ano_seguinte hoje (carregar_vies_historico precisao)
                                         df m))) as [Ha Hb].
    pose proof (calcular_diferenca_de_si
                  (Horas_Hist_Corr
                     (linha_ano_seguinte hoje (carregar_vies_historico precisao)
                                         df m))) as [Hc Hd'].
    repeat split; assumption.
Qed.

End FactosDiferenca.

(** ** The threshold of the aggregation *)

Section FactosLimiar.

Import Tratamento.

Lemma naonegativo_casos (x : num) :
  fle (Fin 0) x = true ->
  x = Inf false \/ exists q, x = Fin q /\ (0 <= q)%Q.
Proof.
  destruct x as [|b|q]; simpl; try discriminate.
  - destruct b; [discriminate | auto].
  - intros Hq. apply Qle_bool_iff in Hq. right. eauto.
Qed.

Lemma fle_Fin (p q : Q) : fle (Fin p) (Fin q) = true <-> (p <= q)%Q.
Proof. simpl. apply Qle_bool_iff. Qed.

Lemma naonegativo_fadd (x y : num) :
  fle (Fin 0) x = true -> fle (Fin 0) y = true ->
  fle (Fin 0) (fadd x y) = true.
Proof.
  intros Hx Hy.
  destruct (naonegativo_casos x Hx) as [-> | (p & -> & Hp)];
    destruct (naonegativo_casos y Hy) as [-> | (q & -> & Hq)];
    try reflexivity.
  apply fle_Fin. lra.
Qed.

Lemma fle_fadd_monotono (x x' y y' : num) :
  fle (Fin 0) x = true -> fle (Fin 0) y = true ->
  fle x x' = true -> fle y y' = true ->
  fle (fadd x y) (fadd x' y') = true.
Proof.
  intros Hx Hy Hxx Hyy.
  destruct (naonegativo_casos x Hx) as [-> | (p & -> & Hp)];
    destruct (naonegativo_casos y Hy) as [-> | (q & -> & Hq)];
    destruct x' as [|[|]|p'], y' as [|[|]|q']; try discriminate;
    try reflexivity.
  apply fle_Fin in Hxx, Hyy. apply fle_Fin. lra.
Qed.

Lemma fle_trans_naonegativo (x y : num) :
  fle (Fin 0) x = true -> fle x y = true -> fle (Fin 0) y = true.
Proof.
  intros Hx Hxy.
  destruct (naonegativo_casos x Hx) as [-> | (p & -> & Hp)];
    destruct y as [|[|]|q]; try discriminate; try reflexivity.
  apply fle_Fin in Hxy. apply fle_Fin. lra.
Qed.

(** Two masked sums of non-negative terms, the second mask inside the
    first. *)
Lemma somas_mascaradas {A} (on1 on2 : A -> bool) (t : A -> num) (l : list A) :
  (forall a, on2 a = true -> on1 a = true) ->
  (forall a, a ∈ l -> on1 a = true -> fle (Fin 0) (t a) = true) ->
  let s1 := soma (List.map (fun a => if on1 a then t a else Fin 0) l) in
  let s2 := soma (List.map (fun a => if on2 a then t a else Fin 0) l) in
  fle (Fin 0) s2 = true /\ fle s2 s1 = true.
Proof.
  intros Hsub Hnn. cbv zeta.
  induction l as [|a l IH]; [split; reflexivity|].
  cbn [List.map]. rewrite !soma_cons.
  destruct IH as [IH0 IH1].
  { intros x Hx. apply Hnn. right. exact Hx. }
  specialize (Hnn a (list_elem_of_here a l)).
  set (s1 := soma (List.map (fun a => if on1 a then t a else Fin 0) l)) in *.
  set (s2 := soma (List.map (fun a => if on2 a then t a else Fin 0) l)) in *.
  clearbody s1 s2.
  assert (Hnan : forall x, fle (Fin 0) x = true -> notnull x = true).
  { intros [|b|q]; simpl; [discriminate | reflexivity | reflexivity]. }
  assert (H00 : fle (Fin 0) (Fin 0) = true) by reflexivity.
  destruct (on2 a) eqn:E2.
  - rewrite (Hsub a E2). specialize (Hnn (Hsub a E2)).
    rewrite (Hnan _ Hnn). split.
    + apply naonegativo_fadd; assumption.
    + apply fle_fadd_monotono; try assumption.
      destruct (naonegativo_casos _ Hnn) as [-> | (q & -> & Hq)];
        [reflexivity | apply fle_Fin; lra].
  - rewrite (Hnan _ H00). split.
    + apply naonegativo_fadd; assumption.
    + destruct (on1 a).
      * specialize (Hnn eq_refl). rewrite (Hnan _ Hnn).
        apply fle_fadd_monotono; assumption.
      * rewrite (Hnan _ H00). apply fle_fadd_monotono; assumption.
Qed.

Lemma ligado_monotono (thr1 thr2 : num) (a : AmostraPasso) :
  fle thr1 thr2 = true -> ligado thr2 a = true -> ligado thr1 a = true.
Proof.
  unfold ligado, fgt. generalize (potencia a). intros p.
  destruct thr1 as [|b1|q1], thr2 as [|b2|q2], p as [|b|q]; simpl;
    try discriminate;
    repeat match goal with x : bool |- _ => destruct x end;
    simpl; try congruence.
  intros H1 H2. apply Qle_bool_iff in H1.
  destruct (q2 ?= q)%Q eqn:C; try discriminate.
  apply Qlt_alt in C.
  change (flt (Fin q1) (Fin q) = true). apply flt_Fin. lra.
Qed.

Lemma candidato_positivo (c : Q) : c ∈ candidatos -> (0 < c)%Q.
Proof.
  unfold candidatos. intros Hc.
  repeat (apply elem_of_cons in Hc; destruct Hc as [-> | Hc]; [reflexivity|]).
  inversion Hc.
Qed.

Lemma passos_positivos (df : list Amostra) :
  Forall (fun a => exists s, step_h a = Fin s /\ (0 < s)%Q)
         (carregar_amostras_chiller df).
Proof.
  destruct (passo_candidato (List.map dt df)) as (c & Hc & Hp).
  apply candidato_positivo in Hc.
  unfold carregar_amostras_chiller. rewrite Hp.
  apply Forall_forall. intros a Ha. apply list_elem_of_In, in_map_iff in Ha.
  destruct Ha as (x & <- & _). exists (c / 60)%Q. split; [reflexivity|].
  apply Qlt_shift_div_l; lra.
Qed.

Lemma energia_naonegativa (thr : num) (a : AmostraPasso) (s : Q) :
  fle (Fin 0) thr = true -> step_h a = Fin s -> (0 < s)%Q ->
  ligado thr a = true ->
  fle (Fin 0) (fmul (potencia a) (step_h a)) = true.
Proof.
  intros Hthr Hs Hpos. unfold ligado, fgt. rewrite Hs.
  generalize (potencia a). intros p.
  assert (Hz : Qzero s = false) by (apply Qzero_false; lra).
  assert (Hn : Qneg s = false) by (apply Qneg_false; lra).
  destruct thr as [|b|q], p as [|b'|p]; simpl in *; try discriminate;
    repeat match goal with x : bool |- _ => destruct x end;
    simpl in *; try discriminate.
  - rewrite Hz, Hn. reflexivity.
  - apply Qle_bool_iff in Hthr.
    destruct (q ?= p)%Q eqn:C; try discriminate. apply Qlt_alt in C.
    intros _. apply Qle_bool_iff. apply Qmult_le_0_compat; lra.
Qed.

End FactosLimiar.

(** X12.  On the samples of [carregar_amostras_chiller], raising the
    threshold never raises the hours of a month, which are never negative;
    and when the lower threshold is not negative the same holds of the
    consumption: it is never negative and never grows with the threshold. *)
Theorem limiar_maior_nunca_aumenta
    (df : list Tratamento.Amostra) (thr1 thr2 : num) (k : Z * string) :
  fle thr1 thr2 = true ->
  let parsed := Tratamento.carregar_amostras_chiller df in
  let f1 := Tratamento.mensal_de thr1 parsed k in
  let f2 := Tratamento.mensal_de thr2 parsed k in
  (fle (Fin 0) (Tratamento.Horas_Trabalhadas f2) = true /\
   fle (Tratamento.Horas_Trabalhadas f2) (Tratamento.Horas_Trabalhadas f1)
   = true) /\
  (fle (Fin 0) thr1 = true ->
   fle (Fin 0) (Tratamento.Consumo_KWh f2) = true /\
   fle (Tratamento.Consumo_KWh f2) (Tratamento.Consumo_KWh f1) = true).
Proof.
  intros Hthr parsed f1 f2.
  pose proof (grupo_Forall _ k _ (passos_positivos df)) as Hs.
  fold parsed in Hs. rewrite Forall_forall in Hs.
  split.
  - apply (somas_mascaradas (Tratamento.ligado thr1) (Tratamento.ligado thr2)
             Tratamento.step_h).
    + intros a. apply ligado_monotono. exact Hthr.
    + intros a Ha _. destruct (Hs a Ha) as (s & -> & Hpos).
      apply Qle_bool_iff. lra.
  - intros H0.
    apply (somas_mascaradas (Tratamento.ligado thr1) (Tratamento.ligado thr2)
             (fun a => fmul (Tratamento.potencia a) (Tratamento.step_h a))).
    + intros a. apply ligado_monotono. exact Hthr.
    + intros a Ha Hon. destruct (Hs a Ha) as (s & Hstep & Hpos).
      apply (energia_naonegativa thr1 a s); assumption.
Qed.

Lemma limiar_maior_nunca_aumenta_witness :
  let t0 := Calendario.carimbo 2024 1 15 10 0 0 in
  let a1 := {| Tratamento.dt := Some t0; Tratamento.Pot_Elet_KW := Fin 10;
               Tratamento.Pot_Frig_KW := NaN; Tratamento.COP := NaN |} in
  let a2 := {| Tratamento.dt := Some (t0 + 5 * 60 * 1000000000);
               Tratamento.Pot_Elet_KW := Fin 20;
               Tratamento.Pot_Frig_KW := NaN; Tratamento.COP := NaN |} in
  let parsed := Tratamento.carregar_amostras_chiller [a1; a2] in
  let f1 := Tratamento.mensal_de (Fin 0) parsed (2024, "Janeiro"%string) in
  let f2 := Tratamento.mensal_de (Fin 15) parsed (2024, "Janeiro"%string) in
  (fle (Fin 0) (Tratamento.Horas_Trabalhadas f2) = true /\
   fle (Tratamento.Horas_Trabalhadas f2) (Tratamento.Horas_Trabalhadas f1)
   = true) /\
  (fle (Fin 0) (Fin 0) = true ->
   fle (Fin 0) (Tratamento.Consumo_KWh f2) = true /\
   fle (Tratamento.Consumo_KWh f2) (Tratamento.Consumo_KWh f1) = true).
Proof.
  intros t0 a1 a2.
  apply (limiar_maior_nunca_aumenta [a1; a2] (Fin 0) (Fin 15)
           (2024, "Janeiro"%string)).
  reflexivity.
Defined.

(** ** The corrected historical mean *)

Section FactosMediaCorrigida.

Import Estimativas Utils.

Lemma produtos_Fin (f g : Linha -> Q) (cel peso : Linha -> num) (l : list Linha) :
  Forall (fun r => cel r = Fin (f r) /\ peso r = Fin (g r)) l ->
  fsum (List.map (fun '(x, p) => fmul x p)
                 (combine (List.map cel l) (List.map peso l)))
  = Fin (Qsum (List.map (fun r => f r * g r)%Q l)) /\
  fsum (List.map peso l) = Fin (Qsum (List.map g l)).
Proof.
  unfold fsum, Qsum.
  induction 1 as [|r l [Hc Hp] _ [IH1 IH2]]; [split; reflexivity|].
  cbn [List.map combine fold_right]. rewrite IH1, IH2, Hc, Hp.
  split; reflexivity.
Qed.

Lemma media_ponderada_cotas (f g : Linha -> Q) (lo hi : option Q) (l : list Linha) :
  Forall (fun r => (1 <= g r)%Q /\
                   match lo with Some a => (a <= f r)%Q | None => True end /\
                   match hi with Some b => (f r <= b)%Q | None => True end) l ->
  let S := Qsum (List.map (fun r => f r * g r)%Q l) in
  let W := Qsum (List.map g l) in
  (inject_Z (Z.of_nat (length l)) <= W)%Q /\
  match lo with Some a => (a * W <= S)%Q | None => True end /\
  match hi with Some b => (S <= b * W)%Q | None => True end.
Proof.
  cbv zeta. unfold Qsum.
  induction 1 as [|r l (Hg & Hlo & Hhi) _ (IHn & IHlo & IHhi)].
  - simpl. split; [apply Qle_refl|].
    split; [destruct lo | destruct hi]; try exact I; lra.
  - cbn [List.map fold_right length].
    rewrite Nat2Z.inj_succ. unfold Z.succ. rewrite inject_Z_plus.
    split; [change (inject_Z 1) with 1%Q; lra|].
    split.
    + destruct lo as [a|]; [|exact I].
      assert (Hm : (a * g r <= f r * g r)%Q)
        by (apply Qmult_le_compat_r; lra).
      rewrite Qmult_plus_distr_r. lra.
    + destruct hi as [b|]; [|exact I].
      assert (Hm : (f r * g r <= b * g r)%Q)
        by (apply Qmult_le_compat_r; lra).
      rewrite Qmult_plus_distr_r. lra.
Qed.

End FactosMediaCorrigida.

(** X13.  When no cell of the month is infinite, a result of
    [media_historica_corrigida] is a number that itself passes the IQR
    fence used to select the rows: recency weighting never moves the mean
    outside the interval [Q1 - 1.5 IQR, Q3 + 1.5 IQR]. *)
Theorem media_corrigida_dentro_da_cerca
    (df : Estimativas.Tabela) (coluna mes : string) (ano_atual : Z) (m : num) :
  Forall (fun r => is_inf (Estimativas.celula r coluna) = false)
         (Estimativas.do_mes_antes df mes ano_atual) ->
  Estimativas.media_historica_corrigida df coluna mes ano_atual = Some m ->
  exists q,
    m = Fin q /\
    Estimativas.dentro
      (Estimativas.cerca
         (List.map (fun r => Estimativas.celula r coluna)
                   (Estimativas.do_mes_antes df mes ano_atual)))
      m = true.
Proof.
  intros Hinf Hm. unfold Estimativas.media_historica_corrigida in Hm.
  cbv zeta in Hm.
  set (df_mes := Estimativas.do_mes_antes df mes ano_atual) in *.
  destruct (Estimativas.vazio df_mes || negb (Utils.isin coluna _));
    [discriminate|].
  set (c := Estimativas.cerca _) in *.
  set (filt := List.filter _ df_mes) in *.
  destruct (Estimativas.vazio filt) eqn:Ev; [discriminate|].
  injection Hm as <-.
  set (f := fun r : Estimativas.Linha =>
              match Estimativas.celula r coluna with Fin x => x | _ => 0%Q end).
  set (g := fun r : Estimativas.Linha =>
              inject_Z (Z.max 1 (Estimativas.Ano r - Estimativas.menor_ano filt + 1))).
  assert (Hk : Forall (fun r =>
                         Estimativas.celula r coluna = Fin (f r) /\
                         fle c.1 (Fin (f r)) = true /\
                         fle (Fin (f r)) c.2 = true) filt).
  { apply Forall_forall. intros r Hr. subst filt.
    apply list_elem_of_In, filter_In in Hr. destruct Hr as [Hr Hd].
    rewrite Forall_forall in Hinf. apply list_elem_of_In in Hr.
    specialize (Hinf r Hr). subst f. cbv beta.
    unfold Estimativas.dentro, fge in Hd. apply andb_true_iff in Hd.
    destruct (Estimativas.celula r coluna) as [|b|x]; try discriminate.
    - destruct Hd as [Hd _]. destruct c.1; discriminate.
    - tauto. }
  destruct c as [c1 c2]. cbn [fst snd] in Hk.
  set (lo := match c1 with Fin a => Some a | _ => None end).
  set (hi := match c2 with Fin b => Some b | _ => None end).
  assert (Hb : Forall (fun r =>
                         (1 <= g r)%Q /\
                         match lo with Some a => (a <= f r)%Q | None => True end /\
                         match hi with Some b => (f r <= b)%Q | None => True end)
                      filt).
  { eapply Forall_impl; [exact Hk|]. intros r (_ & H1 & H2). cbv beta.
    split.
    { subst g. cbv beta. change 1%Q with (inject_Z 1).
      rewrite <- Zle_Qle. lia. }
    split.
    - subst lo. destruct c1; try exact I. apply Qle_bool_iff. exact H1.
    - subst hi. destruct c2; try exact I. apply Qle_bool_iff. exact H2. }
  destruct (media_ponderada_cotas f g lo hi filt Hb) as (Hn & Hlo & Hhi).
  destruct (produtos_Fin f g (fun r => Estimativas.celula r coluna)
              (fun r => of_Z (Z.max 1 (Estimativas.Ano r
                                       - Estimativas.menor_ano filt + 1)))
              filt) as [HS HW].
  { eapply Forall_impl; [exact Hk|]. intros r (Hc & _). split; [exact Hc|].
    reflexivity. }
  unfold Estimativas.media_ponderada, Estimativas.np_average. cbv zeta.
  rewrite HS, HW.
  set (S := Qsum (List.map (fun r => (f r * g r)%Q) filt)) in *.
  set (W := Qsum (List.map g filt)) in *.
  assert (Hpos : (0 < W)%Q).
  { destruct filt as [|r0 rest]; [discriminate|].
    cbn [length] in Hn. rewrite Nat2Z.inj_succ in Hn. unfold Z.succ in Hn.
    rewrite inject_Z_plus in Hn.
    assert (H0 : (0 <= inject_Z (Z.of_nat (length rest)))%Q)
      by (change 0%Q with (inject_Z 0); rewrite <- Zle_Qle; lia).
    change (inject_Z 1) with 1%Q in Hn. lra. }
  cbn [fdiv]. rewrite (Qzero_false W) by lra.
  exists (S / W)%Q. split; [reflexivity|].
  unfold Estimativas.dentro, fge. cbn [fst snd].
  apply andb_true_iff.
  destruct filt as [|r0 rest]; [discriminate|].
  apply Forall_cons in Hk. destruct Hk as [(_ & H1 & H2) _].
  split.
  - destruct c1 as [|b|a]; try discriminate.
    + destruct b; [reflexivity | discriminate].
    + apply Qle_bool_iff. subst lo. cbv beta iota in Hlo.
      apply Qle_shift_div_l; [exact Hpos | exact Hlo].
  - destruct c2 as [|b|a]; try discriminate.
    + destruct b; [discriminate | reflexivity].
    + apply Qle_bool_iff. subst hi. cbv beta iota in Hhi.
      apply Qle_shift_div_r; [exact Hpos | exact Hhi].
Qed.

(** X13, witness: the May temperatures 10, 11, 12, 13 of 2018 to 2021, the
    value 1000 of 2022 and an empty cell of 2016.  The fence is [8, 16]; the
    four values kept have the weights 1, 2, 3, 4 and the weighted mean 12
    (the plain mean is 11.5), which lies within the fence. *)
Lemma media_corrigida_dentro_da_cerca_witness :
  let df :=
    tabela_hist [ linha_hist 2018 "Maio" 10; linha_hist 2019 "Maio" 11;
                  linha_hist 2022 "Maio" 1000; linha_hist_vazia 2016 "Maio";
                  linha_hist 2020 "Maio" 12; linha_hist 2021 "Maio" 13;
                  linha_hist 2017 "Junho" 5 ] in
  let serie :=
    List.map (fun r => Estimativas.celula r "Temp. Média (ºC)"%string)
             (Estimativas.do_mes_antes df "Maio"%string 2023) in
  Estimativas.media_historica_corrigida df "Temp. Média (ºC)"%string
                                        "Maio"%string 2023
  = Some (Fin (120 # 10)) /\
  num_eq (Estimativas.cerca serie).1 (Fin 8) /\
  num_eq (Estimativas.cerca serie).2 (Fin 16) /\
  exists q,
    Fin (120 # 10) = Fin q /\
    Estimativas.dentro (Estimativas.cerca serie) (Fin (120 # 10)) = true.
Proof.
  intros df serie.
  split; [vm_compute; reflexivity|].
  split; [vm_compute; reflexivity|].
  split; [vm_compute; reflexivity|].
  apply (media_corrigida_dentro_da_cerca
           df "Temp. Média (ºC)"%string "Maio"%string 2023 (Fin (120 # 10))).
  - repeat (constructor; [reflexivity|]). constructor.
  - vm_compute. reflexivity.
Defined.

(** ** Gaps in the series *)

Section FactosLacuna.

Import Tratamento.

Lemma diff_minutos_snoc (l : list (option Z)) (u x : option Z) :
  last l = Some u ->
  diff_minutos (l ++ [x]) = diff_minutos l ++ [delta_minutos u x].
Proof.
  induction l as [|a l IH]; [discriminate|].
  destruct l as [|b l].
  - simpl. intros [= ->]. reflexivity.
  - intros Hl. change (last (a :: b :: l)) with (last (b :: l)) in Hl.
    change ((a :: b :: l) ++ [x]) with (a :: (b :: l) ++ [x]).
    change ((b :: l) ++ [x]) with (b :: l ++ [x]) at 1.
    change (diff_minutos (a :: b :: l ++ [x]))
      with (delta_minutos a b :: diff_minutos (b :: l ++ [x])).
    change (b :: l ++ [x]) with ((b :: l) ++ [x]).
    rewrite (IH Hl). reflexivity.
Qed.

Lemma delta_fora_da_janela (u x : option Z) :
  match u, x with
  | Some a, Some b => b <= a \/ a + 3600000000000 < b
  | _, _ => True
  end ->
  fgt (delta_minutos u x) (Fin 0) && fle (delta_minutos u x) (Fin 60) = false.
Proof.
  destruct u as [a|], x as [b|]; try reflexivity.
  rewrite delta_minutos_Fin. intros [Hle | Hgt].
  - apply andb_false_iff. left. unfold fgt.
    destruct (flt (Fin 0) (Fin (inject_Z (b - a) / inject_Z 1000000000 / 60)))
      eqn:E; [|reflexivity].
    apply flt_Fin in E. exfalso. revert E.
    unfold Qlt, Qdiv, Qmult, Qinv, inject_Z. simpl. lia.
  - apply andb_false_iff. right.
    destruct (fle (Fin (inject_Z (b - a) / inject_Z 1000000000 / 60)) (Fin 60))
      eqn:E; [|reflexivity].
    simpl in E. apply Qle_bool_iff in E. exfalso. revert E.
    unfold Qle, Qdiv, Qmult, Qinv, inject_Z. simpl. lia.
Qed.

End FactosLacuna.

(** X14.  Appending to a series a timestamp that is missing, that does not
    come after the last one, or that comes more than 60 minutes after it,
    leaves the result of [estimar_intervalo_de_amostragem_minutos] as it
    was: such a delta is not among the deltas the median is taken of. *)
Theorem lacuna_nao_altera_o_passo (l : list (option Z)) (u x : option Z) :
  last l = Some u ->
  match u, x with
  | Some a, Some b => b <= a \/ a + 3600000000000 < b
  | _, _ => True
  end ->
  Tratamento.estimar_intervalo_de_amostragem_minutos (l ++ [x])
  = Tratamento.estimar_intervalo_de_amostragem_minutos l.
Proof.
  intros Hl Hx.
  unfold Tratamento.estimar_intervalo_de_amostragem_minutos,
    Tratamento.deltas_validos.
  rewrite (diff_minutos_snoc l u x Hl), List.filter_app.
  cbn [List.filter]. rewrite (delta_fora_da_janela u x Hx).
  rewrite app_nil_r. reflexivity.
Qed.

Lemma lacuna_nao_altera_o_passo_witness :
  Tratamento.estimar_intervalo_de_amostragem_minutos
    ([Some 0; Some 300000000000] ++ [Some 7500000000000])
  = Tratamento.estimar_intervalo_de_amostragem_minutos
      [Some 0; Some 300000000000].
Proof.
  apply (lacuna_nao_altera_o_passo
           [Some 0; Some 300000000000] (Some 300000000000)
           (Some 7500000000000)).
  - reflexivity.
  - right. lia.
Defined.

(** ** From the estimates to the ledger *)

Section FactosCiclo.

Import Utils Estimativas Validacao Atualizar.
Context `{Biblioteca}.

Lemma meses_normalizados :
  Forall (fun m => normalizar_mes m = m) MESES_ORDEM.
Proof. repeat constructor. Qed.

Lemma meses_NoDup : NoDup MESES_ORDEM.
Proof. apply (bool_decide_unpack (NoDup MESES_ORDEM)). vm_compute. exact I. Qed.

Lemma enumerar_snd (i : Z) (l : list string) :
  List.map snd (enumerar i l) = l.
Proof.
  revert i. induction l as [|x l IH]; intros i; simpl; [reflexivity|].
  rewrite IH. reflexivity.
Qed.

Lemma enumerar_antes (mes : Z) (l : list string) :
  forall i,
    (length (List.filter (fun p : Z * string => (p.1 <? mes)%Z) (enumerar i l))
     <= Z.to_nat (mes - i))%nat.
Proof.
  induction l as [|x l IH]; intros i; simpl; [lia|].
  specialize (IH (i + 1)%Z).
  destruct (i <? mes)%Z eqn:E; simpl.
  - apply Z.ltb_lt in E. lia.
  - lia.
Qed.

Lemma linha_ano_vigente_chave hoje vies df idx mes_nome :
  let r := linha_ano_vigente hoje vies df idx mes_nome in
  e_Ano r = ano hoje /\ e_Mes r = mes_nome /\
  (e_Tipo r = "Real"%string <-> (idx <? mes hoje)%Z = true).
Proof.
  unfold linha_ano_vigente.
  destruct (idx <? mes hoje)%Z; [|destruct (idx =? mes hoje)%Z];
    repeat match goal with
           | |- context [let '(_, _) := calcular_diferenca ?a ?b in _] =>
               destruct (calcular_diferenca a b)
           end;
    cbn [e_Ano e_Mes e_Tipo];
    (refine (conj eq_refl (conj eq_refl (conj _ _)));
     intros Hx; first [reflexivity | discriminate Hx]).
Qed.

Lemma linha_ano_seguinte_chave hoje vies df mes_nome :
  let r := linha_ano_seguinte hoje vies df mes_nome in
  e_Ano r = (ano hoje + 1)%Z /\ e_Mes r = mes_nome /\
  e_Tipo r = "Projetado"%string.
Proof.
  unfold linha_ano_seguinte.
  repeat match goal with
         | |- context [let '(_, _) := calcular_diferenca ?a ?b in _] =>
             destruct (calcular_diferenca a b)
         end.
  cbn [e_Ano e_Mes e_Tipo]. repeat split; reflexivity.
Qed.

(** The rows of the consolidated estimates: where each comes from. *)
Lemma gerar_estimativas_elem hoje precisao df e :
  e ∈ gerar_estimativas hoje precisao df ->
  (exists idx m,
     (idx, m) ∈ enumerar 1 MESES_ORDEM /\
     e = arredondar_linha
           (linha_ano_vigente hoje (carregar_vies_historico precisao) df idx m))
  \/
  (exists m,
     m ∈ MESES_ORDEM /\
     e = arredondar_linha
           (linha_ano_seguinte hoje (carregar_vies_historico precisao) df m)).
Proof.
  unfold gerar_estimativas, estimar_consumo_ano_vigente,
    estimar_consumo_ano_seguinte. cbv zeta.
  intros He. apply list_elem_of_In, in_map_iff in He.
  destruct He as (e0 & <- & He). apply in_app_or in He.
  destruct He as [He | He]; apply in_map_iff in He.
  - destruct He as ([idx m] & <- & Hin). left. exists idx, m.
    split; [apply list_elem_of_In; exact Hin | reflexivity].
  - destruct He as (m & <- & Hin). right. exists m.
    split; [apply list_elem_of_In; exact Hin | reflexivity].
Qed.

Lemma gerar_estimativas_chaves hoje precisao df :
  List.map (fun e => (e_Ano e, e_Mes e)) (gerar_estimativas hoje precisao df)
  = List.map (fun m => (ano hoje, m)) MESES_ORDEM
    ++ List.map (fun m => ((ano hoje + 1)%Z, m)) MESES_ORDEM.
Proof.
  unfold gerar_estimativas, estimar_consumo_ano_vigente,
    estimar_consumo_ano_seguinte. cbv zeta.
  rewrite List.map_map, List.map_app, !List.map_map. f_equal.
  - rewrite <- (enumerar_snd 1 MESES_ORDEM) at 2. rewrite List.map_map.
    apply List.map_ext. intros [idx m].
    destruct (linha_ano_vigente_chave
                hoje (carregar_vies_historico precisao) df idx m)
      as (Ha & Hm & _).
    cbn [arredondar_linha e_Ano e_Mes snd]. rewrite Ha, Hm. reflexivity.
  - apply List.map_ext. intros m.
    destruct (linha_ano_seguinte_chave
                hoje (carregar_vies_historico precisao) df m)
      as (Ha & Hm & _).
    cbn [arredondar_linha e_Ano e_Mes]. rewrite Ha, Hm. reflexivity.
Qed.

Lemma gerar_estimativas_NoDup hoje precisao df :
  NoDup (List.map (fun e => (e_Ano e, e_Mes e))
                  (gerar_estimativas hoje precisao df)).
Proof.
  rewrite gerar_estimativas_chaves. apply NoDup_app. split; [|split].
  - apply NoDup_fmap_2; [|apply meses_NoDup]. intros a b [= ->]. reflexivity.
  - intros k Hk Hk'.
    apply list_elem_of_In, in_map_iff in Hk. destruct Hk as (m & <- & _).
    apply list_elem_of_In, in_map_iff in Hk'. destruct Hk' as (m' & Hk' & _).
    inversion Hk'. lia.
  - apply NoDup_fmap_2; [|apply meses_NoDup]. intros a b [= ->]. reflexivity.
Qed.

Lemma filter_chave_unica {A K} (key : A -> K) (k : K) (f : A -> bool)
    (l : list A) :
  NoDup (List.map key l) ->
  (forall x, x ∈ l -> f x = true -> key x = k) ->
  (length (List.filter f l) <= 1)%nat.
Proof.
  induction l as [|a l IH]; simpl; [lia|].
  intros Hnd Hk. apply NoDup_cons in Hnd. destruct Hnd as [Ha Hnd].
  assert (IH' : (length (List.filter f l) <= 1)%nat).
  { apply IH; [exact Hnd|]. intros x Hx. apply Hk. right. exact Hx. }
  destruct (f a) eqn:Ea; [|exact IH'].
  destruct (List.filter f l) as [|b rest] eqn:Ef; [simpl; lia|].
  exfalso. apply Ha.
  assert (Hb : In b (List.filter f l)) by (rewrite Ef; left; reflexivity).
  apply filter_In in Hb. destruct Hb as [Hb Hfb].
  apply list_elem_of_In in Hb.
  rewrite (Hk a (list_elem_of_here a l) Ea).
  rewrite <- (Hk b (list_elem_of_further _ _ _ Hb) Hfb).
  apply list_elem_of_In, in_map, list_elem_of_In. exact Hb.
Qed.

Lemma NoDup_map_filter {A K} (key : A -> K) (f : A -> bool) (l : list A) :
  NoDup (List.map key l) -> NoDup (List.map key (List.filter f l)).
Proof.
  induction l as [|a l IH]; simpl; [auto|].
  intros Hnd. apply NoDup_cons in Hnd. destruct Hnd as [Ha Hnd].
  destruct (f a); [|apply IH; exact Hnd].
  simpl. apply NoDup_cons. split; [|apply IH; exact Hnd].
  intros Hin. apply Ha.
  apply list_elem_of_In, in_map_iff in Hin. destruct Hin as (x & Hx & Hin).
  apply filter_In in Hin. destruct Hin as [Hin _].
  apply list_elem_of_In, in_map_iff. exists x. auto.
Qed.

(** An inner join of two frames with unique keys has unique keys. *)
Lemma merge_inner_NoDup (R : list LinhaReal) (S : list LinhaEstimada) :
  NoDup (List.map (fun a => (r_Ano a, r_Mes a)) R) ->
  NoDup (List.map (fun b => (s_Ano b, s_Mes b)) S) ->
  NoDup (List.map (fun ab : LinhaReal * LinhaEstimada =>
                     (r_Ano ab.1, r_Mes ab.1))
                  (merge_inner R S)).
Proof.
  intros HR HS. unfold merge_inner.
  induction R as [|a R IH]; simpl; [constructor|].
  apply NoDup_cons in HR. destruct HR as [Ha HR].
  rewrite List.map_app. apply NoDup_app. split; [|split].
  - rewrite List.map_map. cbn [fst].
    set (sel := List.filter _ S).
    assert (Hlen : (length sel <= 1)%nat).
    { subst sel.
      apply (filter_chave_unica (fun b => (s_Ano b, s_Mes b))
               (r_Ano a, r_Mes a)); [exact HS|].
      intros b _ Hb. apply andb_true_iff in Hb. destruct Hb as [Hy Hm].
      apply Z.eqb_eq in Hy. apply String.eqb_eq in Hm. congruence. }
    destruct sel as [|b [|b' rest]]; simpl in *;
      [constructor | repeat constructor; inversion 1 | lia].
  - intros k Hk Hk'. apply Ha.
    apply list_elem_of_In, in_map_iff in Hk.
    destruct Hk as (ab & <- & Hab). apply in_map_iff in Hab.
    destruct Hab as (b & <- & _). cbn [fst].
    apply list_elem_of_In, in_map_iff in Hk'.
    destruct Hk' as ([a' b'] & Hk' & Hin). cbn [fst] in Hk'.
    apply in_flat_map in Hin. destruct Hin as (a'' & Ha'' & Hin).
    apply in_map_iff in Hin. destruct Hin as (b'' & [= <- <-] & _).
    apply list_elem_of_In, in_map_iff. exists a''. auto.
  - apply IH. exact HR.
Qed.

(** Where a row of the ledger comes from. *)
Lemma historico_de_precisao_elem hoje precisao df p :
  p ∈ historico_de_precisao hoje precisao df ->
  exists r e,
    r ∈ linhas df /\ e ∈ gerar_estimativas hoje precisao df /\
    Ano r = e_Ano e /\ normalizar_mes (Mes r) = normalizar_mes (e_Mes e) /\
    p = linha_comparada
          (com_mes_normalizado_r (linha_real r),
           com_mes_normalizado_s (linha_estimada e)).
Proof.
  unfold historico_de_precisao, comparar_tabelas. cbv zeta.
  rewrite merge_sort_Permutation. intros Hp.
  apply list_elem_of_In, in_map_iff in Hp. destruct Hp as ([a b] & <- & Hab).
  apply list_elem_of_In, merge_inner_elem in Hab.
  destruct Hab as (Ha & Hb & Hy & Hm).
  apply list_elem_of_In, in_map_iff in Ha. destruct Ha as (a0 & <- & Ha).
  apply in_map_iff in Ha. destruct Ha as (r & <- & Hr).
  apply list_elem_of_In, in_map_iff in Hb. destruct Hb as (b0 & <- & Hb).
  apply in_map_iff in Hb. destruct Hb as (e & <- & He).
  exists r, e. rewrite !list_elem_of_In. auto.
Qed.

Lemma historico_de_precisao_NoDup hoje precisao df :
  NoDup (List.map (fun r => (Ano r, normalizar_mes (Mes r))) (linhas df)) ->
  NoDup (List.map (fun p => (p_Ano p, p_Mes p))
                  (historico_de_precisao hoje precisao df)).
Proof.
  intros Hdf. unfold historico_de_precisao, comparar_tabelas.
  cbv zeta. rewrite merge_sort_Permutation, List.map_map.
  erewrite List.map_ext; [apply merge_inner_NoDup|].
  - rewrite !List.map_map. exact Hdf.
  - rewrite !List.map_map.
    erewrite List.map_ext_in; [apply (gerar_estimativas_NoDup hoje precisao df)|].
    intros e He. cbn [com_mes_normalizado_s linha_estimada s_Ano s_Mes].
    f_equal.
    assert (Hm : e_Mes e ∈ MESES_ORDEM).
    { pose proof (gerar_estimativas_chaves hoje precisao df) as Hk.
      assert (Hin : In (e_Ano e, e_Mes e)
                       (List.map (fun e => (e_Ano e, e_Mes e))
                                 (gerar_estimativas hoje precisao df)))
        by exact (in_map (fun e => (e_Ano e, e_Mes e)) _ e He).
      rewrite Hk in Hin. apply in_app_or in Hin.
      destruct Hin as [Hin | Hin]; apply in_map_iff in Hin;
        destruct Hin as (m & [= _ <-] & Hin); apply list_elem_of_In; exact Hin. }
    pose proof meses_normalizados as Hn. rewrite Forall_forall in Hn.
    apply Hn. exact Hm.
  - intros [a b]. reflexivity.
Qed.

End FactosCiclo.

Section FactosLinhasReais.

Import Utils Estimativas Validacao Atualizar.
Context `{Biblioteca}.

(** A [Real] row of the ledger comes from a month of the current year that
    is before the current month. *)
Lemma linha_real_origem hoje precisao df p :
  p ∈ historico_de_precisao hoje precisao df ->
  p_Tipo p = "Real"%string ->
  exists r idx m,
    r ∈ linhas df /\ (idx, m) ∈ enumerar 1 MESES_ORDEM /\
    (idx <? mes hoje)%Z = true /\
    Ano r = ano hoje /\ normalizar_mes (Mes r) = m /\
    p = linha_comparada
          (com_mes_normalizado_r (linha_real r),
           com_mes_normalizado_s
             (linha_estimada
                (arredondar_linha
                   (linha_ano_vigente hoje (carregar_vies_historico precisao)
                                      df idx m)))).
Proof.
  intros Hp Ht.
  destruct (historico_de_precisao_elem hoje precisao df p Hp)
    as (r & e & Hr & He & Hy & Hm & ->).
  cbn [linha_comparada p_Tipo com_mes_normalizado_s linha_estimada s_Tipo] in Ht.
  destruct (gerar_estimativas_elem hoje precisao df e He)
    as [(idx & m & Hin & ->) | (m & _ & ->)].
  - destruct (linha_ano_vigente_chave
                hoje (carregar_vies_historico precisao) df idx m)
      as (Ha & Hn & Hreal).
    cbn [arredondar_linha e_Tipo e_Ano e_Mes] in Ht, Hy, Hm.
    rewrite Ha in Hy. rewrite Hn in Hm.
    assert (Hc : normalizar_mes m = m).
    { pose proof meses_normalizados as Hf. rewrite Forall_forall in Hf.
      apply Hf. rewrite <- (enumerar_snd 1 MESES_ORDEM).
      apply list_elem_of_In, in_map_iff. exists (idx, m).
      split; [reflexivity | apply list_elem_of_In; exact Hin]. }
    rewrite Hc in Hm.
    exists r, idx, m. repeat split; try assumption.
    apply Hreal. exact Ht.
  - destruct (linha_ano_seguinte_chave
                hoje (carregar_vies_historico precisao) df m)
      as (_ & _ & Hproj).
    cbn [arredondar_linha e_Tipo] in Ht. rewrite Hproj in Ht. discriminate.
Qed.

Lemma linha_real_chave hoje precisao df p :
  p ∈ historico_de_precisao hoje precisao df ->
  p_Tipo p = "Real"%string ->
  p_Ano p = ano hoje /\
  p_Mes p ∈ List.map snd
              (List.filter (fun q : Z * string => (q.1 <? mes hoje)%Z)
                           (enumerar 1 MESES_ORDEM)).
Proof.
  intros Hp Ht.
  destruct (linha_real_origem hoje precisao df p Hp Ht)
    as (r & idx & m & Hr & Hin & Hlt & Hy & Hm & ->).
  cbn [linha_comparada p_Ano p_Mes com_mes_normalizado_r linha_real
       r_Ano r_Mes].
  split; [exact Hy|]. rewrite Hm.
  apply list_elem_of_In, in_map_iff. exists (idx, m). split; [reflexivity|].
  apply filter_In. split; [apply list_elem_of_In; exact Hin | exact Hlt].
Qed.

End FactosLinhasReais.

(** X15.  The ledger written by [gerar_estimativas();
    atualizar_historico_acuracia()] from a history table with one row per
    (year, month): its [Real] rows all belong to the current year, at most
    one per month.  Therefore [carregar_vies_historico] on that ledger never
    yields a per-month bias (a month would need three [Real] rows): the
    bias applied to any month is the global one, and a global bias exists
    only from July on, when six earlier months of the year can be [Real]. *)
Theorem vies_mensal_nunca_disponivel
    `{Biblioteca}
    (hoje : Estimativas.Data) (precisao : option (list LinhaPrecisao))
    (df : Estimativas.Tabela) :
  NoDup (List.map (fun r => (Estimativas.Ano r,
                             Validacao.normalizar_mes (Estimativas.Mes r)))
                  (Estimativas.linhas df)) ->
  let ledger := Atualizar.historico_de_precisao hoje precisao df in
  let vies := Estimativas.carregar_vies_historico (Some ledger) in
  Forall (fun p => p_Tipo p = "Real"%string -> p_Ano p = Estimativas.ano hoje)
         ledger /\
  vies.2 = ∅ /\
  (forall mes_nome, Estimativas.vies_ajuste vies mes_nome = vies.1) /\
  (vies.1 <> None -> 7 <= Estimativas.mes hoje).
Proof.
  intros Hdf ledger vies.
  set (reais := List.filter (fun r => String.eqb (p_Tipo r) "Real") ledger).
  assert (Hreal : forall p, p ∈ reais ->
                    p_Ano p = Estimativas.ano hoje /\
                    p_Mes p ∈ List.map snd
                      (List.filter
                         (fun q : Z * string => (q.1 <? Estimativas.mes hoje)%Z)
                         (Estimativas.enumerar 1 Utils.MESES_ORDEM))).
  { intros p Hp. subst reais. apply list_elem_of_In, filter_In in Hp.
    destruct Hp as [Hp Ht]. apply String.eqb_eq in Ht.
    apply list_elem_of_In in Hp.
    apply (linha_real_chave hoje precisao df p Hp Ht). }
  assert (Hnd : NoDup (List.map (fun p => (p_Ano p, p_Mes p)) reais)).
  { subst reais. apply NoDup_map_filter.
    apply historico_de_precisao_NoDup. exact Hdf. }
  assert (Hv2 : vies.2 = ∅).
  { subst vies. unfold Estimativas.carregar_vies_historico. fold reais.
    destruct (6 <=? length reais)%nat; [|reflexivity]. cbn [snd].
    apply map_eq. intros mes_nome.
    rewrite vies_por_mes_lookup, lookup_empty. cbv zeta.
    assert (Hlen : (length (List.filter
                              (fun r => String.eqb (p_Mes r) mes_nome) reais)
                    <= 1)%nat).
    { apply (filter_chave_unica (fun p => (p_Ano p, p_Mes p))
               (Estimativas.ano hoje, mes_nome)); [exact Hnd|].
      intros p Hp Hm. apply String.eqb_eq in Hm.
      destruct (Hreal p Hp) as [Hy _]. congruence. }
    destruct (3 <=? _)%nat eqn:E; [|reflexivity].
    apply Nat.leb_le in E. lia. }
  split; [|split; [exact Hv2|split]].
  - apply Forall_forall. intros p Hp Ht.
    apply (linha_real_chave hoje precisao df p Hp Ht).
  - intros mes_nome. unfold Estimativas.vies_ajuste.
    rewrite Hv2, lookup_empty. reflexivity.
  - subst vies. unfold Estimativas.carregar_vies_historico. fold reais.
    destruct (6 <=? length reais)%nat eqn:E6;
      [|intros Hn; exfalso; apply Hn; reflexivity].
    intros _. apply Nat.leb_le in E6.
    set (antes := List.map snd
                    (List.filter
                       (fun q : Z * string => (q.1 <? Estimativas.mes hoje)%Z)
                       (Estimativas.enumerar 1 Utils.MESES_ORDEM))) in *.
    assert (Hm : NoDup (List.map p_Mes reais)).
    { apply (NoDup_fmap_1 (fun m => (Estimativas.ano hoje, m))).
      change (NoDup (List.map (fun m => (Estimativas.ano hoje, m))
                              (List.map p_Mes reais))).
      rewrite List.map_map.
      erewrite List.map_ext_in; [exact Hnd|].
      intros p Hp. apply list_elem_of_In in Hp.
      destruct (Hreal p Hp) as [-> _]. reflexivity. }
    assert (Hsub : List.map p_Mes reais ⊆+ antes).
    { apply NoDup_submseteq; [exact Hm|]. intros m Hin.
      apply list_elem_of_In, in_map_iff in Hin.
      destruct Hin as (p & <- & Hp). apply list_elem_of_In in Hp.
      apply (Hreal p Hp). }
    apply submseteq_length in Hsub.
    rewrite List.length_map in Hsub. subst antes.
    rewrite List.length_map in Hsub.
    pose proof (enumerar_antes (Estimativas.mes hoje) Utils.MESES_ORDEM 1).
    lia.
Qed.

Lemma vies_mensal_nunca_disponivel_witness :
  let df := tabela_hist [linha_hist 2024 "Janeiro" 100;
                         linha_hist 2024 "Fevereiro" 120] in
  let hoje := {| Estimativas.ano := 2024; Estimativas.mes := 3;
                 Estimativas.dia := 10 |} in
  let ledger :=
    Atualizar.historico_de_precisao (H := Referencia.pandas) hoje None df in
  let vies := Estimativas.carregar_vies_historico (Some ledger) in
  Forall (fun p => p_Tipo p = "Real"%string -> p_Ano p = Estimativas.ano hoje)
         ledger /\
  vies.2 = ∅ /\
  (forall mes_nome, Estimativas.vies_ajuste vies mes_nome = vies.1) /\
  (vies.1 <> None -> 7 <= Estimativas.mes hoje).
Proof.
  intros df hoje.
  apply (vies_mensal_nunca_disponivel (H := Referencia.pandas) hoje None df).
  apply (bool_decide_unpack _). vm_compute. exact I.
Defined.

Section FactosArredondamento.

Lemma round_half_even_perto (x : Q) :
  (Qabs (inject_Z (round_half_even x) - x) <= 1 # 2)%Q.
Proof.
  unfold round_half_even.
  pose proof (Qfloor_le x) as Hlo. pose proof (Qlt_floor x) as Hhi.
  rewrite inject_Z_plus in Hhi. change (inject_Z 1) with 1%Q in Hhi.
  set (f := Qfloor x) in *. clearbody f.
  apply Qabs_Qle_condition.
  destruct (x - inject_Z f ?= 1 # 2)%Q eqn:C.
  - apply Qeq_alt in C.
    destruct (Z.even f);
      [|rewrite inject_Z_plus; change (inject_Z 1) with 1%Q]; split; lra.
  - apply Qlt_alt in C. split; lra.
  - apply Qgt_alt in C. rewrite inject_Z_plus.
    change (inject_Z 1) with 1%Q. split; lra.
Qed.

Lemma Qround2_perto (c : Q) : (Qabs (Qround2 c - c) <= 1 # 200)%Q.
Proof.
  unfold Qround2, Qround_casas. rewrite Qred_correct.
  change (inject_Z (10 ^ Z.of_nat 2)) with 100%Q.
  pose proof (round_half_even_perto (c * 100)) as Hr.
  apply Qabs_Qle_condition in Hr. apply Qabs_Qle_condition.
  set (z := inject_Z (round_half_even (c * 100))) in *. clearbody z.
  assert (E : (z / 100 - c == (z - c * 100) / 100)%Q) by field.
  rewrite E. destruct Hr as [H1 H2]. split.
  - apply Qle_shift_div_l; lra.
  - apply Qle_shift_div_r; lra.
Qed.

(** The percentage error of the rounded value against the value. *)
Lemma erro_pct_do_arredondado (c : Q) :
  ~ (c == 0)%Q ->
  exists e,
    Validacao.erro_pct (round2 (Fin c)) (Fin c) = Fin e /\
    (Qabs e * Qabs c <= 1 # 2)%Q.
Proof.
  intros Hc. unfold Validacao.erro_pct. cbn [round2 replace_zero_nan].
  rewrite (Qzero_false c Hc). cbn [fsub fopp fadd fdiv].
  rewrite (Qzero_false c Hc). cbn [fmul].
  eexists. split; [reflexivity|].
  rewrite <- Qabs_Qmult.
  assert (E : ((Qround2 c + - c) / c * 100 * c == (Qround2 c - c) * 100)%Q)
    by (field; exact Hc).
  rewrite E. rewrite Qabs_Qmult.
  pose proof (Qround2_perto c) as Hp.
  change (Qabs 100) with 100%Q.
  pose proof (Qabs_nonneg (Qround2 c - c)) as Hn.
  set (d := Qabs (Qround2 c - c)) in *. clearbody d. lra.
Qed.

End FactosArredondamento.

Section FactosErroReal.

Import Utils Estimativas Validacao Atualizar.
Context `{Biblioteca}.

Lemma isin_elem (m : string) (l : list string) : isin m l = true -> m ∈ l.
Proof.
  unfold isin. destruct (posicao m l) as [i|] eqn:E; [|discriminate].
  intros _. apply posicao_lookup in E.
  apply list_elem_of_lookup. eauto.
Qed.

(** With one row per (year, month), the rows of a key are that row. *)
Lemma linha_unica (df : Tabela) (r : Linha) :
  NoDup (List.map (fun r => (Ano r, Mes r)) (linhas df)) ->
  r ∈ linhas df ->
  List.filter (fun x => (Ano x =? Ano r)%Z && String.eqb (Mes x) (Mes r))
              (linhas df)
  = [r].
Proof.
  intros Hnd Hr.
  set (f := fun x => (Ano x =? Ano r)%Z && String.eqb (Mes x) (Mes r)).
  assert (Hlen : (length (List.filter f (linhas df)) <= 1)%nat).
  { apply (filter_chave_unica (fun r => (Ano r, Mes r)) (Ano r, Mes r));
      [exact Hnd|].
    intros x _ Hx. subst f. cbv beta in Hx. apply andb_true_iff in Hx.
    destruct Hx as [Hy Hm]. apply Z.eqb_eq in Hy. apply String.eqb_eq in Hm.
    congruence. }
  assert (Hin : In r (List.filter f (linhas df))).
  { apply filter_In. split; [apply list_elem_of_In; exact Hr|].
    subst f. cbv beta. rewrite Z.eqb_refl, String.eqb_refl. reflexivity. }
  destruct (List.filter f (linhas df)) as [|x [|y rest]];
    simpl in *; [tauto | | lia].
  destruct Hin as [-> | []]. reflexivity.
Qed.

(** A month before the current one whose row is in the table: the estimate
    copies the recorded values. *)
Lemma linha_ano_vigente_real hoje vies df idx (r : Linha) :
  (idx <? mes hoje)%Z = true ->
  List.filter (fun x => (Ano x =? ano hoje)%Z && String.eqb (Mes x) (Mes r))
              (linhas df) = [r] ->
  let e := linha_ano_vigente hoje vies df idx (Mes r) in
  (notnull (celula r "Consumo (KWh)") = true ->
   Consumo_Esperado e = Some (celula r "Consumo (KWh)")) /\
  Horas_Estimadas e = Some (celula r "Horas Trabalhadas (h)") /\
  Temp_Estimada e = Some (celula r "Temp. Média (ºC)").
Proof.
  intros Hlt Hf. unfold linha_ano_vigente. rewrite Hlt, Hf.
  cbn [primeira].
  repeat match goal with
         | |- context [let '(_, _) := calcular_diferenca ?a ?b in _] =>
             destruct (calcular_diferenca a b)
         end.
  cbn [Consumo_Esperado Horas_Estimadas Temp_Estimada].
  split; [|split; reflexivity].
  intros Hn. rewrite Hn. reflexivity.
Qed.

End FactosErroReal.

(** X16.  On a history table with canonical month names and one row per
    (year, month), every [Real] row of the ledger written by
    [gerar_estimativas(); atualizar_historico_acuracia()] compares a
    recorded value with its own rounding to two decimals: the estimated
    hours and temperature are the recorded ones rounded, and so is the
    estimated consumption when the recorded consumption is not empty.  The
    consumption error of such a row is then the rounding residual, at most
    [0.5 / |c|] percent for a recorded consumption [c] other than 0. *)
Theorem erro_das_linhas_reais_e_de_arredondamento
    `{Biblioteca}
    (hoje : Estimativas.Data) (precisao : option (list LinhaPrecisao))
    (df : Estimativas.Tabela) :
  Forall (fun r => Utils.isin (Estimativas.Mes r) Utils.MESES_ORDEM = true)
         (Estimativas.linhas df) ->
  NoDup (List.map (fun r => (Estimativas.Ano r, Estimativas.Mes r))
                  (Estimativas.linhas df)) ->
  Forall
    (fun p =>
       p_Tipo p = "Real"%string ->
       Horas_Estimadas_p p = round2 (Horas_Reais p) /\
       Temp_Estimada_p p = round2 (Temp_Real p) /\
       (notnull (Consumo_Real p) = true ->
        Consumo_Estimado p = round2 (Consumo_Real p) /\
        Erro_Consumo p
        = Validacao.erro_pct (round2 (Consumo_Real p)) (Consumo_Real p) /\
        forall c,
          Consumo_Real p = Fin c -> ~ (c == 0)%Q ->
          exists e, Erro_Consumo p = Fin e /\ (Qabs e * Qabs c <= 1 # 2)%Q))
    (Atualizar.historico_de_precisao hoje precisao df).
Proof.
  intros Hcan Hnd. apply Forall_forall. intros p Hp Ht.
  destruct (linha_real_origem hoje precisao df p Hp Ht)
    as (r & idx & m & Hr & Hin & Hlt & Hy & Hm & ->).
  assert (Hc : Validacao.normalizar_mes (Estimativas.Mes r) = Estimativas.Mes r).
  { pose proof meses_normalizados as Hf. rewrite Forall_forall in Hf.
    apply Hf. apply isin_elem. rewrite Forall_forall in Hcan.
    apply Hcan. exact Hr. }
  rewrite Hc in Hm. subst m.
  pose proof (linha_unica df r Hnd Hr) as Hu. rewrite Hy in Hu.
  destruct (linha_ano_vigente_real
              hoje (Estimativas.carregar_vies_historico precisao) df idx r
              Hlt Hu) as (Hcons & Hhoras & Htemp).
  cbn [Validacao.linha_comparada Horas_Estimadas_p Horas_Reais Temp_Estimada_p
       Temp_Real Consumo_Real Consumo_Estimado Erro_Consumo
       Validacao.com_mes_normalizado_r Validacao.com_mes_normalizado_s
       Atualizar.linha_real Atualizar.linha_estimada
       Validacao.Consumo_KWh Validacao.Horas_Trabalhadas Validacao.Temp_Media
       Validacao.Consumo_Esperado_KWh Validacao.Horas_Estimadas_h
       Validacao.Temp_Estimada_C
       Estimativas.arredondar_linha Estimativas.Consumo_Esperado
       Estimativas.Horas_Estimadas Estimativas.Temp_Estimada].
  rewrite Hhoras, Htemp.
  split; [reflexivity|]. split; [reflexivity|].
  intros Hn. rewrite (Hcons Hn). cbn [Estimativas.arredondar option_map default].
  split; [reflexivity|]. split; [reflexivity|].
  intros c Hcel Hc0. rewrite Hcel. apply erro_pct_do_arredondado. exact Hc0.
Qed.

Lemma erro_das_linhas_reais_e_de_arredondamento_witness :
  let df := tabela_hist [linha_hist 2024 "Janeiro" 100;
                         linha_hist 2024 "Fevereiro" 120] in
  let hoje := {| Estimativas.ano := 2024; Estimativas.mes := 3;
                 Estimativas.dia := 10 |} in
  Forall
    (fun p =>
       p_Tipo p = "Real"%string ->
       Horas_Estimadas_p p = round2 (Horas_Reais p) /\
       Temp_Estimada_p p = round2 (Temp_Real p) /\
       (notnull (Consumo_Real p) = true ->
        Consumo_Estimado p = round2 (Consumo_Real p) /\
        Erro_Consumo p
        = Validacao.erro_pct (round2 (Consumo_Real p)) (Consumo_Real p) /\
        forall c,
          Consumo_Real p = Fin c -> ~ (c == 0)%Q ->
          exists e, Erro_Consumo p = Fin e /\ (Qabs e * Qabs c <= 1 # 2)%Q))
    (Atualizar.historico_de_precisao (H := Referencia.pandas) hoje None df).
Proof.
  intros df hoje.
  apply (erro_das_linhas_reais_e_de_arredondamento
           (H := Referencia.pandas) hoje None df).
  - repeat constructor.
  - apply (bool_decide_unpack _). vm_compute. exact I.
Defined.

(** ** The lower end of the monthly band *)

Section FactosMinimo.

Import Estimativas Utils.
Context `{Biblioteca}.

Lemma round_half_even_naoneg (x : Q) : (0 <= x)%Q -> 0 <= round_half_even x.
Proof.
  intros Hx. unfold round_half_even.
  assert (Hf : 0 <= Qfloor x).
  { change 0 with (Qfloor 0). apply Qfloor_resp_le. exact Hx. }
  destruct (x - inject_Z (Qfloor x) ?= 1 # 2)%Q;
    [destruct (Z.even (Qfloor x))| |]; lia.
Qed.

Lemma Qround2_naoneg (x : Q) : (0 <= x)%Q -> (0 <= Qround2 x)%Q.
Proof.
  intros Hx. unfold Qround2, Qround_casas. rewrite Qred_correct.
  change (inject_Z (10 ^ Z.of_nat 2)) with 100%Q.
  assert (Hz : (0 <= inject_Z (round_half_even (x * 100)))%Q).
  { change 0%Q with (inject_Z 0). rewrite <- Zle_Qle.
    apply round_half_even_naoneg. lra. }
  apply Qle_shift_div_l; lra.
Qed.

Lemma max0_naonegativo (x : num) :
  notnull (max0 x) = true /\ fle (Fin 0) (max0 x) = true /\
  (x = NaN -> max0 x = Fin 0).
Proof.
  unfold max0, fgt. destruct x as [|b|q]; simpl.
  - repeat split; reflexivity.
  - destruct b; simpl; repeat split; try reflexivity; discriminate.
  - destruct (0 ?= q)%Q eqn:C; simpl; repeat split; try reflexivity;
      try discriminate.
    apply Qlt_alt in C. apply Qle_bool_iff. lra.
Qed.

Lemma arredondar_naonegativo (v : num) :
  notnull v = true -> fle (Fin 0) v = true ->
  exists a, arredondar_ou_nulo v = Some a /\ fle (Fin 0) a = true.
Proof.
  intros Hn Hv. unfold arredondar_ou_nulo. rewrite Hn.
  exists (round2 v). split; [reflexivity|].
  destruct v as [|b|q]; simpl in *; try discriminate; [exact Hv|].
  apply Qle_bool_iff in Hv. apply Qle_bool_iff. apply Qround2_naoneg. exact Hv.
Qed.

End FactosMinimo.

(** X17.  The lower end of the band of [estimar_consumo_mensal] is never
    negative and, once the band is computed (the columns are there and the
    month has history), never empty: when the expected value is empty the
    result is not the null band but [min = 0] with [esperado] and [max]
    empty, because [max(0, nan)] is 0. *)
Theorem minimo_da_faixa_nunca_negativo
    `{Biblioteca}
    (df : Estimativas.Tabela) (mes : string) (ano : option Z)
    (consumo_parcial : option num) (dias_medidos dias_do_mes : option Z) :
  let f :=
    Estimativas.estimar_consumo_mensal df mes ano consumo_parcial
      dias_medidos dias_do_mes in
  (f = Estimativas.faixa_nula \/
   exists a, Estimativas.min f = Some a /\ fle (Fin 0) a = true) /\
  (Estimativas.esperado f = None ->
   f = Estimativas.faixa_nula \/
   (Estimativas.min f = Some (Fin 0) /\ Estimativas.max f = None)).
Proof.
  cbv zeta. unfold Estimativas.estimar_consumo_mensal.
  destruct (negb (forallb _ _)); [split; [left; reflexivity | intros _; left; reflexivity]|].
  destruct (Estimativas.vazio _); [split; [left; reflexivity | intros _; left; reflexivity]|].
  cbv zeta.
  set (std := Estimativas.desvio_padrao _).
  set (e := match consumo_parcial with Some _ => _ | None => _ end).
  clearbody std e. cbn [Estimativas.min Estimativas.esperado Estimativas.max].
  destruct (max0_naonegativo (fsub e std)) as (Hn & Hv & Hnan).
  split.
  - right. apply arredondar_naonegativo; assumption.
  - intros He. right. unfold Estimativas.arredondar_ou_nulo in He.
    destruct e as [|b|q]; try discriminate.
    change (fsub NaN std) with NaN in *. rewrite (Hnan eq_refl).
    split; reflexivity.
Qed.


(** ** Month labels in the validation *)

Section FactosRotulo.

Import Texto Validacao Utils.

Lemma todos_rev_app P s acc :
  todos P s -> todos P acc -> todos P (rev_app s acc).
Proof.
  revert acc. induction s as [|c s IH]; intros acc; simpl; [auto|].
  intros [Hc Hs] Hacc. apply IH; [exact Hs|]. simpl. auto.
Qed.

Lemma todos_lstrip P s : todos P s -> todos P (lstrip s).
Proof.
  induction s as [|c s IH]; simpl; [auto|].
  intros [Hc Hs]. destruct (is_space c); [auto | simpl; auto].
Qed.

Lemma todos_strip P s : todos P s -> todos P (strip s).
Proof.
  intros Hs. unfold strip, rev.
  apply todos_rev_app; [|exact I]. apply todos_lstrip.
  apply todos_rev_app; [|exact I]. apply todos_lstrip. exact Hs.
Qed.

Lemma minuscula_lower_ascii c : minuscula (lower_ascii c).
Proof.
  unfold minuscula, lower_ascii.
  destruct ((65 <=? nat_of_ascii c) && (nat_of_ascii c <=? 90))%nat eqn:E;
    [|exact E].
  apply andb_true_iff in E. destruct E as [E1 E2].
  apply Nat.leb_le in E1. apply Nat.leb_le in E2.
  rewrite nat_ascii_embedding by lia.
  apply andb_false_iff. right. apply Nat.leb_gt. lia.
Qed.

Lemma lower_dois c d s :
  lower (String c (String d s))
  = if Ascii.eqb c "195" && maiuscula_latin1 d
    then String c (String (ascii_of_nat (nat_of_ascii d + 32)) (lower s))
    else String (lower_ascii c) (lower (String d s)).
Proof. reflexivity. Qed.

Lemma todos_lower_dois s :
  todos minuscula (lower s) /\
  forall c, todos minuscula (lower (String c s)).
Proof.
  induction s as [|d s [IH1 IH2]].
  - split; [exact I|]. intros c. split; [apply minuscula_lower_ascii | exact I].
  - split; [apply IH2|]. intros c. rewrite lower_dois.
    destruct (Ascii.eqb c "195" && maiuscula_latin1 d) eqn:E.
    + apply andb_true_iff in E. destruct E as [Ec Ed].
      apply Ascii.eqb_eq in Ec. subst c.
      unfold maiuscula_latin1 in Ed. cbv zeta in Ed.
      apply andb_true_iff in Ed. destruct Ed as [Ed _].
      apply andb_true_iff in Ed. destruct Ed as [E1 E2].
      apply Nat.leb_le in E1. apply Nat.leb_le in E2.
      split; [reflexivity|]. split; [|exact IH1].
      unfold minuscula. rewrite nat_ascii_embedding by lia.
      apply andb_false_iff. right. apply Nat.leb_gt. lia.
    + split; [apply minuscula_lower_ascii | apply IH2].
Qed.

Lemma todos_lower s : todos minuscula (lower s).
Proof. apply todos_lower_dois. Qed.

End FactosRotulo.

(** X18.  [atualizar_historico_acuracia] normalises the month labels with
    [capitalize()] before [strip()].  A label that starts with a space is
    therefore never turned into a name of [MESES_ORDEM], whatever follows
    the space (its first letter is lowered, not capitalised), so its row can
    never be joined with an estimate; a label in lower case or followed by a
    space is repaired, and a canonical name is left as it is. *)
Theorem rotulo_com_espaco_inicial_nao_casa (s : string) :
  Utils.isin (Validacao.normalizar_mes (String " " s)) Utils.MESES_ORDEM
  = false /\
  Forall (fun m =>
            Validacao.normalizar_mes m = m /\
            Validacao.normalizar_mes (Texto.lower m ++ " ") = m)
         Utils.MESES_ORDEM.
Proof.
  split.
  - destruct (Utils.isin _ _) eqn:E; [|reflexivity]. exfalso.
    apply isin_elem in E.
    assert (Hm : todos minuscula (Validacao.normalizar_mes (String " " s))).
    { unfold Validacao.normalizar_mes. apply todos_strip.
      destruct s as [|d s].
      - split; [reflexivity | exact I].
      - change (Validacao.capitalize (String " " (String d s)))
          with (String " " (Texto.lower (String d s))).
        split; [reflexivity | apply todos_lower]. }
    set (r := Validacao.normalizar_mes (String " " s)) in *. clearbody r.
    unfold Utils.MESES_ORDEM in E.
    repeat (apply elem_of_cons in E; destruct E as [-> | E];
            [destruct Hm as [Hm _]; vm_compute in Hm; discriminate|]).
    inversion E.
  - repeat constructor.
Qed.

(** ** Which months reach the ledger *)

Section FactosAlcance.

Import Utils Estimativas Validacao Atualizar.
Context `{Biblioteca}.

Lemma precisao_le_total : Total precisao_le.
Proof. intros a b. apply ano_mes_le_total. Qed.

Lemma precisao_le_trans : Transitive precisao_le.
Proof. intros a b c. apply ano_mes_le_trans. Qed.

Lemma gerar_estimativas_linha hoje precisao df e :
  e ∈ gerar_estimativas hoje precisao df ->
  e_Mes e ∈ MESES_ORDEM /\
  (e_Ano e = ano hoje \/
   (e_Ano e = (ano hoje + 1)%Z /\ e_Tipo e = "Projetado"%string)).
Proof.
  intros He.
  destruct (gerar_estimativas_elem hoje precisao df e He)
    as [(idx & m & Hin & ->) | (m & Hin & ->)].
  - destruct (linha_ano_vigente_chave
                hoje (carregar_vies_historico precisao) df idx m)
      as (Ha & Hm & _).
    cbn [arredondar_linha e_Ano e_Mes e_Tipo]. rewrite Ha, Hm.
    split; [|left; reflexivity].
    rewrite <- (enumerar_snd 1 MESES_ORDEM).
    apply list_elem_of_In, in_map_iff. exists (idx, m).
    split; [reflexivity | apply list_elem_of_In; exact Hin].
  - destruct (linha_ano_seguinte_chave
                hoje (carregar_vies_historico precisao) df m)
      as (Ha & Hm & Ht).
    cbn [arredondar_linha e_Ano e_Mes e_Tipo]. rewrite Ha, Hm, Ht.
    split; [exact Hin | right; split; reflexivity].
Qed.

End FactosAlcance.

(** X19.  The ledger written by [gerar_estimativas();
    atualizar_historico_acuracia()] holds rows of the current year and of
    the following year only, the latter all [Projetado], each under a month
    name of [MESES_ORDEM]: the months of earlier years of the history table
    never enter the accuracy ledger.  Its rows are in (year, calendar month)
    order. *)
Theorem historico_de_precisao_so_do_ano_vigente
    `{Biblioteca}
    (hoje : Estimativas.Data) (precisao : option (list LinhaPrecisao))
    (df : Estimativas.Tabela) :
  let ledger := Atualizar.historico_de_precisao hoje precisao df in
  Forall (fun p =>
            p_Mes p ∈ Utils.MESES_ORDEM /\
            (p_Ano p = Estimativas.ano hoje \/
             (p_Ano p = Estimativas.ano hoje + 1 /\
              p_Tipo p = "Projetado"%string)))
         ledger /\
  StronglySorted Validacao.precisao_le ledger.
Proof.
  intros ledger. split.
  - apply Forall_forall. intros p Hp.
    destruct (historico_de_precisao_elem hoje precisao df p Hp)
      as (r & e & Hr & He & Hy & Hm & ->).
    destruct (gerar_estimativas_linha hoje precisao df e He) as (Hmes & Hano).
    assert (Hc : Validacao.normalizar_mes (Estimativas.e_Mes e)
                 = Estimativas.e_Mes e).
    { pose proof meses_normalizados as Hf. rewrite Forall_forall in Hf.
      apply Hf. exact Hmes. }
    cbn [Validacao.linha_comparada p_Ano p_Mes p_Tipo
         Validacao.com_mes_normalizado_r Validacao.com_mes_normalizado_s
         Atualizar.linha_real Atualizar.linha_estimada
         Validacao.r_Ano Validacao.r_Mes Validacao.s_Tipo].
    rewrite Hm, Hc, Hy. split; [exact Hmes | exact Hano].
  - subst ledger.
    unfold Atualizar.historico_de_precisao,
      Validacao.comparar_tabelas. cbv zeta.
    pose proof precisao_le_total. pose proof precisao_le_trans.
    apply StronglySorted_merge_sort; apply _.
Qed.

(** ** The history table *)

Section FactosHistoricoTabela.

Import Utils Historico.

Lemma chave_le_total : Total chave_le.
Proof. intros a b. apply ano_mes_le_total. Qed.

Lemma chave_le_trans : Transitive chave_le.
Proof. intros a b c. apply ano_mes_le_trans. Qed.

Lemma linha_le_total : Total linha_le.
Proof. intros a b. apply ano_mes_le_total. Qed.

Lemma linha_le_trans : Transitive linha_le.
Proof. intros a b c. apply ano_mes_le_trans. Qed.

Lemma drop_duplicates_go_spec (l vistos : list (Z * string)) :
  NoDup (drop_duplicates_go vistos l) /\
  forall k, k ∈ drop_duplicates_go vistos l <-> k ∈ l /\ k ∉ vistos.
Proof.
  revert vistos. induction l as [|x l IH]; intros vistos; simpl.
  - split; [constructor|]. intros k. split; [inversion 1 | intros [Hk _]; inversion Hk].
  - destruct (bool_decide (x ∈ vistos)) eqn:E.
    + apply bool_decide_eq_true in E. destruct (IH vistos) as [Hn Hk].
      split; [exact Hn|]. intros k. rewrite Hk, elem_of_cons. split.
      * intros [H1 H2]. auto.
      * intros [[-> | H1] H2]; [contradiction | auto].
    + apply bool_decide_eq_false in E. destruct (IH (x :: vistos)) as [Hn Hk].
      split.
      * apply NoDup_cons. split; [|exact Hn].
        rewrite Hk. intros [_ Hx]. apply Hx. left.
      * intros k. rewrite !elem_of_cons, Hk, not_elem_of_cons.
        split.
        -- intros [-> | (H1 & H2 & H3)]; auto.
        -- intros [[-> | H1] H2]; [auto|].
           destruct (decide (k = x)) as [-> | Hne]; auto.
Qed.

Lemma merge_left_chaves {B}
    (casa : Estimativas.Linha -> B -> bool)
    (por : B -> Estimativas.Linha -> Estimativas.Linha)
    (direita : list B) (df : list Estimativas.Linha) :
  (forall b r, Estimativas.Ano (por b r) = Estimativas.Ano r /\
               Estimativas.Mes (por b r) = Estimativas.Mes r) ->
  (forall r, (length (List.filter (casa r) direita) <= 1)%nat) ->
  List.map (fun r => (Estimativas.Ano r, Estimativas.Mes r))
           (merge_left casa por direita df)
  = List.map (fun r => (Estimativas.Ano r, Estimativas.Mes r)) df.
Proof.
  intros Hpor Hum. unfold merge_left.
  induction df as [|r df IH]; [reflexivity|].
  cbn [flat_map]. rewrite List.map_app, IH. specialize (Hum r).
  destruct (List.filter (casa r) direita) as [|b [|b' rest]];
    cbn [List.map app length] in *; [reflexivity | | lia].
  destruct (Hpor b r) as [-> ->]. reflexivity.
Qed.

Lemma map_com_coluna_chaves (f : Estimativas.Linha -> num) (nome : string)
    (df : list Estimativas.Linha) :
  List.map (fun r => (Estimativas.Ano r, Estimativas.Mes r))
           (List.map (fun r => com_coluna nome (f r) r) df)
  = List.map (fun r => (Estimativas.Ano r, Estimativas.Mes r)) df.
Proof. rewrite List.map_map. reflexivity. Qed.

Lemma casa_chave_unica {B} (key : B -> Z * string) (direita : list B)
    (r : Estimativas.Linha) :
  NoDup (List.map key direita) ->
  (length (List.filter
             (fun b => mesma_chave (key b).1 (key b).2 r) direita) <= 1)%nat.
Proof.
  intros Hn.
  apply (filter_chave_unica key (Estimativas.Ano r, Estimativas.Mes r));
    [exact Hn|].
  intros b _ Hb. unfold mesma_chave in Hb. apply andb_true_iff in Hb.
  destruct Hb as [Hy Hm]. apply Z.eqb_eq in Hy. apply String.eqb_eq in Hm.
  destruct (key b) as [y m]. simpl in *. congruence.
Qed.

Lemma casa_ano_unico {B} (key : B -> option Z) (direita : list B)
    (r : Estimativas.Linha) :
  NoDup (List.map key direita) ->
  (length (List.filter (fun b => mesmo_ano (key b) r) direita) <= 1)%nat.
Proof.
  intros Hn.
  apply (filter_chave_unica key (Some (Estimativas.Ano r))); [exact Hn|].
  intros b _ Hb. unfold mesmo_ano in Hb. apply bool_decide_eq_true in Hb.
  exact Hb.
Qed.

End FactosHistoricoTabela.

(** X20.  The table written by [construir_tabela_historico_de_chiller]:
    nothing is written when INMET and the chiller give no month at all;
    otherwise, the frames having one row per (year, month) and the price and
    CO2 tables one row per year, the table has exactly one row for each
    (year, month) that appears in the INMET temperatures or in the chiller
    frames under a month name of [MESES_ORDEM], and these rows are in
    (year, calendar month) order. *)
Theorem tabela_historica_uma_linha_por_mes
    `{Biblioteca}
    (mensais_temp : list Historico.TempMensal)
    (monthly : list Tratamento.Mensal)
    (pot_media cop_medio : list Historico.MediaMensal)
    (kwh_tab : option (list Tratamento.LinhaKwh))
    (fator : option (list Historico.FatorAno)) :
  NoDup (List.map (fun t => (Historico.t_Ano t, Historico.t_Mes t))
                  mensais_temp) ->
  NoDup (List.map (fun f => (Tratamento.Ano f, Tratamento.Mes f)) monthly) ->
  NoDup (List.map (fun g => (Historico.m_Ano g, Historico.m_Mes g)) pot_media) ->
  NoDup (List.map (fun g => (Historico.m_Ano g, Historico.m_Mes g)) cop_medio) ->
  match kwh_tab with
  | Some tab => NoDup (List.map Tratamento.k_Ano tab)
  | None => True
  end ->
  match fator with
  | Some tab => NoDup (List.map Historico.f_Ano tab)
  | None => True
  end ->
  let partes_keys :=
    List.map (fun t => (Historico.t_Ano t, Historico.t_Mes t)) mensais_temp
    ++ List.map (fun f => (Tratamento.Ano f, Tratamento.Mes f)) monthly
    ++ List.map (fun g => (Historico.m_Ano g, Historico.m_Mes g)) pot_media
    ++ List.map (fun g => (Historico.m_Ano g, Historico.m_Mes g)) cop_medio in
  match Historico.construir_tabela_historico_de_chiller
          mensais_temp monthly pot_media cop_medio kwh_tab fator with
  | None => partes_keys = []
  | Some tab =>
      let chaves :=
        List.map (fun r => (Estimativas.Ano r, Estimativas.Mes r))
                 (Estimativas.linhas tab) in
      NoDup chaves /\
      (forall k, k ∈ chaves <->
                 Utils.isin k.2 Utils.MESES_ORDEM = true /\ k ∈ partes_keys) /\
      StronglySorted Historico.linha_le (Estimativas.linhas tab)
  end.
Proof.
  intros Ht Hm Hp Hc Hk Hf partes_keys.
  unfold Historico.construir_tabela_historico_de_chiller. fold partes_keys.
  cbv zeta. destruct partes_keys as [|k0 rest] eqn:Ep; [reflexivity|].
  rewrite <- Ep. clear Ep k0 rest.
  set (keys := merge_sort Historico.chave_le
                 (List.filter (fun k => Utils.isin k.2 Utils.MESES_ORDEM)
                              (Historico.drop_duplicates partes_keys))).
  set (df0 := List.map Historico.linha_de_chave keys).
  set (df1 := Historico.merge_left _ _ monthly df0).
  set (df2 := Historico.merge_left _ _ pot_media df1).
  set (df3 := Historico.merge_left _ _ cop_medio df2).
  set (df4 := match kwh_tab with Some _ => _ | None => df3 end).
  set (df5 := match fator with Some _ => _ | None => df4 end).
  set (df6 := match mensais_temp with [] => df5 | _ => _ end).
  cbn [Estimativas.linhas].
  set (chave := fun r : Estimativas.Linha =>
                  (Estimativas.Ano r, Estimativas.Mes r)).
  assert (H0 : List.map chave df0 = keys).
  { subst df0. rewrite List.map_map. rewrite <- (List.map_id keys) at 2.
    apply List.map_ext. intros [y m]. reflexivity. }
  assert (H1 : List.map chave df1 = keys).
  { rewrite <- H0. subst df1. apply merge_left_chaves.
    - intros b r. split; reflexivity.
    - intros r.
      apply (casa_chave_unica
               (fun f => (Tratamento.Ano f, Tratamento.Mes f)) monthly r Hm). }
  assert (H2 : List.map chave df2 = keys).
  { rewrite <- H1. subst df2. apply merge_left_chaves.
    - intros b r. split; reflexivity.
    - intros r.
      apply (casa_chave_unica
               (fun g => (Historico.m_Ano g, Historico.m_Mes g)) pot_media r Hp). }
  assert (H3 : List.map chave df3 = keys).
  { rewrite <- H2. subst df3. apply merge_left_chaves.
    - intros b r. split; reflexivity.
    - intros r.
      apply (casa_chave_unica
               (fun g => (Historico.m_Ano g, Historico.m_Mes g)) cop_medio r Hc). }
  assert (H4 : List.map chave df4 = keys).
  { rewrite <- H3. subst df4. destruct kwh_tab as [tab|]; [|reflexivity].
    subst chave. rewrite map_com_coluna_chaves. apply merge_left_chaves.
    - intros b r. split; reflexivity.
    - intros r. apply (casa_ano_unico Tratamento.k_Ano tab r Hk). }
  assert (H5 : List.map chave df5 = keys).
  { rewrite <- H4. subst df5. destruct fator as [tab|]; [|reflexivity].
    subst chave. rewrite map_com_coluna_chaves. apply merge_left_chaves.
    - intros b r. split; reflexivity.
    - intros r. apply (casa_ano_unico Historico.f_Ano tab r Hf). }
  assert (H6 : List.map chave df6 = keys).
  { rewrite <- H5. subst df6. destruct mensais_temp as [|t0 ts] eqn:Et;
      [reflexivity|]. rewrite <- Et in *. apply merge_left_chaves.
    - intros b r. split; reflexivity.
    - intros r.
      apply (casa_chave_unica
               (fun t => (Historico.t_Ano t, Historico.t_Mes t))
               mensais_temp r Ht). }
  assert (Hperm : List.map chave (merge_sort Historico.linha_le df6) ≡ₚ keys).
  { rewrite <- H6. apply Permutation_map. apply merge_sort_Permutation. }
  destruct (drop_duplicates_go_spec partes_keys []) as [Hnd Hel].
  fold (Historico.drop_duplicates partes_keys) in Hnd, Hel.
  assert (Hkeys : keys ≡ₚ List.filter
                            (fun k => Utils.isin k.2 Utils.MESES_ORDEM)
                            (Historico.drop_duplicates partes_keys))
    by apply merge_sort_Permutation.
  split; [|split].
  - rewrite Hperm, Hkeys.
    rewrite <- (List.map_id (List.filter _ _)).
    apply NoDup_map_filter. rewrite List.map_id. exact Hnd.
  - intros k. rewrite Hperm, Hkeys.
    rewrite list_elem_of_In, filter_In, <- list_elem_of_In, Hel.
    split.
    + intros [[Hin _] Hi]. auto.
    + intros [Hi Hin]. split; [split; [exact Hin | inversion 1] | exact Hi].
  - pose proof linha_le_total. pose proof linha_le_trans.
    apply StronglySorted_merge_sort; apply _.
Qed.

Lemma tabela_historica_uma_linha_por_mes_witness :
  let mensais_temp :=
    [ {| Historico.t_Ano := 2024; Historico.t_Mes := "Janeiro";
         Historico.t_Temp := Fin 25 |};
      {| Historico.t_Ano := 2024; Historico.t_Mes := "Fevereiro";
         Historico.t_Temp := Fin 24 |} ] in
  let monthly :=
    [ {| Tratamento.Ano := 2024; Tratamento.Mes := "Janeiro";
         Tratamento.Consumo_KWh := Fin 100;
         Tratamento.Horas_Trabalhadas := Fin 10 |} ] in
  let pot_media :=
    [ {| Historico.m_Ano := 2024; Historico.m_Mes := "Janeiro";
         Historico.m_valor := Fin 10 |} ] in
  let kwh_tab :=
    Some [ {| Tratamento.k_Ano := Some 2024;
              Tratamento.k_Valor := Some (Tratamento.Texto "0,5") |} ] in
  let partes_keys :=
    List.map (fun t => (Historico.t_Ano t, Historico.t_Mes t)) mensais_temp
    ++ List.map (fun f => (Tratamento.Ano f, Tratamento.Mes f)) monthly
    ++ List.map (fun g => (Historico.m_Ano g, Historico.m_Mes g)) pot_media
    ++ List.map (fun g => (Historico.m_Ano g, Historico.m_Mes g)) [] in
  match Historico.construir_tabela_historico_de_chiller
          (H := Referencia.pandas)
          mensais_temp monthly pot_media [] kwh_tab None with
  | None => partes_keys = []
  | Some tab =>
      let chaves :=
        List.map (fun r => (Estimativas.Ano r, Estimativas.Mes r))
                 (Estimativas.linhas tab) in
      NoDup chaves /\
      (forall k, k ∈ chaves <->
                 Utils.isin k.2 Utils.MESES_ORDEM = true /\ k ∈ partes_keys) /\
      StronglySorted Historico.linha_le (Estimativas.linhas tab)
  end.
Proof.
  intros mensais_temp monthly pot_media kwh_tab.
  apply (tabela_historica_uma_linha_por_mes
           (H := Referencia.pandas)
           mensais_temp monthly pot_media [] kwh_tab None).
  - apply (bool_decide_unpack _). vm_compute. exact I.
  - apply (bool_decide_unpack _). vm_compute. exact I.
  - apply (bool_decide_unpack _). vm_compute. exact I.
  - constructor.
  - apply (bool_decide_unpack _). vm_compute. exact I.
  - exact I.
Defined.

(** ** Monthly temperature *)

Section FactosArredondamentoMonotono.

Lemma round_half_even_entre (x : Q) :
  Qfloor x <= round_half_even x <= Qfloor x + 1.
Proof.
  unfold round_half_even.
  destruct (x - inject_Z (Qfloor x) ?= 1 # 2)%Q;
    [destruct (Z.even (Qfloor x))| |]; lia.
Qed.

Lemma round_half_even_monotono (x y : Q) :
  (x <= y)%Q -> round_half_even x <= round_half_even y.
Proof.
  intros Hxy.
  pose proof (Qfloor_resp_le x y Hxy) as Hf.
  destruct (Z.eq_dec (Qfloor x) (Qfloor y)) as [E | Hne].
  - unfold round_half_even. rewrite <- E.
    set (f := Qfloor x) in *.
    destruct (x - inject_Z f ?= 1 # 2)%Q eqn:Cx;
      destruct (y - inject_Z f ?= 1 # 2)%Q eqn:Cy;
      repeat match goal with
             | C : (_ ?= _)%Q = Eq |- _ => apply Qeq_alt in C
             | C : (_ ?= _)%Q = Lt |- _ => apply Qlt_alt in C
             | C : (_ ?= _)%Q = Gt |- _ => apply Qgt_alt in C
             end;
      try (destruct (Z.even f)); first [lia | exfalso; lra].
  - pose proof (round_half_even_entre x). pose proof (round_half_even_entre y).
    lia.
Qed.

Lemma Qround2_monotono (x y : Q) : (x <= y)%Q -> (Qround2 x <= Qround2 y)%Q.
Proof.
  intros Hxy. unfold Qround2, Qround_casas. rewrite !Qred_correct.
  change (inject_Z (10 ^ Z.of_nat 2)) with 100%Q.
  assert (Hz : (inject_Z (round_half_even (x * 100))
                <= inject_Z (round_half_even (y * 100)))%Q).
  { rewrite <- Zle_Qle. apply round_half_even_monotono. lra. }
  unfold Qdiv. apply Qmult_le_compat_r; [exact Hz|].
  unfold Qle. simpl. lia.
Qed.

Lemma Qsum_cotas (lo hi : Q) (qs : list Q) :
  Forall (fun x => (lo <= x <= hi)%Q) qs ->
  (inject_Z (Z.of_nat (length qs)) * lo <= Qsum qs
   <= inject_Z (Z.of_nat (length qs)) * hi)%Q.
Proof.
  unfold Qsum. induction 1 as [|x l Hx _ IH].
  - cbn [length fold_right]. change (inject_Z (Z.of_nat 0)) with 0%Q.
    split; lra.
  - cbn [length fold_right]. rewrite Nat2Z.inj_succ. unfold Z.succ.
    rewrite inject_Z_plus. change (inject_Z 1) with 1%Q.
    rewrite !Qmult_plus_distr_l. lra.
Qed.

(** The mean of numbers between two bounds is between them. *)
Lemma media_cotas (lo hi : Q) (l : list num) :
  l <> [] ->
  Forall (fun v => exists x, v = Fin x /\ (lo <= x <= hi)%Q) l ->
  exists m, media l = Fin m /\ (lo <= m <= hi)%Q.
Proof.
  intros Hne Hl.
  assert (Hqs : exists qs, l = List.map Fin qs /\
                           Forall (fun x => (lo <= x <= hi)%Q) qs).
  { clear Hne. induction Hl as [|v l (x & -> & Hx) _ (qs & -> & Hqs)].
    - exists []. split; [reflexivity | constructor].
    - exists (x :: qs). split; [reflexivity | constructor; assumption]. }
  destruct Hqs as (qs & -> & Hqs).
  rewrite media_Fin.
  destruct qs as [|q qs]; [exfalso; apply Hne; reflexivity|].
  eexists. split; [reflexivity|].
  pose proof (Qsum_cotas lo hi (q :: qs) Hqs) as [H1 H2].
  unfold Qmedia.
  set (n := inject_Z (Z.of_nat (length (q :: qs)))) in *.
  assert (Hn : (0 < n)%Q).
  { subst n. change 0%Q with (inject_Z 0). rewrite <- Zlt_Qlt.
    cbn [length]. lia. }
  split.
  - apply Qle_shift_div_l; [exact Hn | lra].
  - apply Qle_shift_div_r; [exact Hn | lra].
Qed.

End FactosArredondamentoMonotono.

Section FactosInmet.

Import Utils Historico.
Context `{Biblioteca}.

Lemma chave_do_dia_canonica (d : Z) (k : Z * string) :
  chave_do_dia d = Some k -> isin k.2 MESES_ORDEM = true.
Proof.
  unfold chave_do_dia.
  destruct (Tratamento.MES_NUM_PARA_PT !! _) as [m|] eqn:E; [|discriminate].
  intros [= <-]. simpl.
  apply (nome_do_mes_canonico (Calendario.mes_de (d * Calendario.ns_por_dia))).
  exact E.
Qed.

Lemma temperatura_mensal_elem din t :
  t ∈ calcular_temperatura_media_mensal_inmet din ->
  exists k,
    k ∈ omap (fun p : Z * num => chave_do_dia p.1) (diarios (omap leitura din)) /\
    t = {| t_Ano := k.1; t_Mes := k.2;
           t_Temp :=
             round2
               (media
                  (List.map snd
                     (List.filter
                        (fun p : Z * num =>
                           bool_decide (chave_do_dia p.1 = Some k))
                        (diarios (omap leitura din))))) |}.
Proof.
  unfold calcular_temperatura_media_mensal_inmet. cbv zeta.
  intros Ht. apply list_elem_of_In, in_map_iff in Ht.
  destruct Ht as (k & <- & Hk). exists k. split; [|reflexivity].
  apply list_elem_of_In in Hk. rewrite merge_sort_Permutation in Hk.
  rewrite elem_of_remove_dups in Hk. exact Hk.
Qed.

End FactosInmet.

(** X21.  The frame of [calcular_temperatura_media_mensal_inmet] has one
    row per (year, month) - no pair occurs twice - and every month name in
    it is one of [MESES_ORDEM]. *)
Theorem temperatura_mensal_uma_linha_por_mes
    `{Biblioteca} (din : list (option string * option string)) :
  let out := Historico.calcular_temperatura_media_mensal_inmet din in
  NoDup (List.map (fun t => (Historico.t_Ano t, Historico.t_Mes t)) out) /\
  Forall (fun t => Utils.isin (Historico.t_Mes t) Utils.MESES_ORDEM = true) out.
Proof.
  intros out. split.
  - subst out. unfold Historico.calcular_temperatura_media_mensal_inmet.
    cbv zeta. rewrite List.map_map. cbn [Historico.t_Ano Historico.t_Mes].
    erewrite List.map_ext; [rewrite List.map_id|intros [y m]; reflexivity].
    rewrite merge_sort_Permutation. apply NoDup_remove_dups.
  - apply Forall_forall. intros t Ht.
    destruct (temperatura_mensal_elem din t Ht) as (k & Hk & ->).
    apply list_elem_of_omap in Hk. destruct Hk as (p & _ & Hp).
    cbn [Historico.t_Mes]. apply (chave_do_dia_canonica p.1 k Hp).
Qed.

(** X22.  When every reading of the file that has a date and a temperature
    lies between [lo] and [hi], every monthly value of
    [calcular_temperatura_media_mensal_inmet] is a number between [lo] and
    [hi] rounded to two decimals: the mean of the daily means never leaves
    the range of the readings. *)
Theorem temperatura_mensal_entre_as_leituras
    `{Biblioteca} (din : list (option string * option string)) (lo hi : Q) :
  Forall (fun p : Z * num => exists x, p.2 = Fin x /\ (lo <= x <= hi)%Q)
         (omap Historico.leitura din) ->
  Forall (fun t =>
            exists v, Historico.t_Temp t = Fin v /\
                      (Qround2 lo <= v <= Qround2 hi)%Q)
         (Historico.calcular_temperatura_media_mensal_inmet din).
Proof.
  intros Hl. set (df := omap Historico.leitura din) in *.
  assert (Hd : Forall (fun p : Z * num =>
                         exists x, p.2 = Fin x /\ (lo <= x <= hi)%Q)
                      (Historico.diarios df)).
  { unfold Historico.diarios. apply Forall_forall. intros p Hp.
    apply list_elem_of_In, in_map_iff in Hp. destruct Hp as (d & <- & Hd).
    cbn [snd]. apply list_elem_of_In in Hd.
    rewrite merge_sort_Permutation in Hd. rewrite elem_of_remove_dups in Hd.
    apply list_elem_of_In, in_map_iff in Hd. destruct Hd as (p & <- & Hp).
    apply media_cotas.
    - intros E. apply (in_map snd) in Hp as Hp'.
      assert (Hin : In p (List.filter (fun q : Z * num => (q.1 =? p.1)%Z) df)).
      { apply filter_In. split; [exact Hp | apply Z.eqb_refl]. }
      apply (in_map snd) in Hin. rewrite E in Hin. exact Hin.
    - apply Forall_forall. intros v Hv.
      apply list_elem_of_In, in_map_iff in Hv. destruct Hv as (q & <- & Hq).
      apply filter_In in Hq. destruct Hq as [Hq _].
      rewrite Forall_forall in Hl. apply Hl. apply list_elem_of_In. exact Hq. }
  apply Forall_forall. intros t Ht.
  destruct (temperatura_mensal_elem din t Ht) as (k & Hk & ->).
  fold df in Hk |- *. cbn [Historico.t_Temp].
  apply list_elem_of_omap in Hk. destruct Hk as (p & Hp & Hpk).
  destruct (media_cotas lo hi
              (List.map snd
                 (List.filter
                    (fun p : Z * num =>
                       bool_decide (Historico.chave_do_dia p.1 = Some k))
                    (Historico.diarios df)))) as (m & Hm & Hb).
  - intros E.
    assert (Hin : In p (List.filter
                          (fun p : Z * num =>
                             bool_decide (Historico.chave_do_dia p.1 = Some k))
                          (Historico.diarios df))).
    { apply filter_In. split; [apply list_elem_of_In; exact Hp|].
      apply bool_decide_eq_true. exact Hpk. }
    apply (in_map snd) in Hin. rewrite E in Hin. exact Hin.
  - apply Forall_forall. intros v Hv.
    apply list_elem_of_In, in_map_iff in Hv. destruct Hv as (q & <- & Hq).
    apply filter_In in Hq. destruct Hq as [Hq _].
    rewrite Forall_forall in Hd. apply Hd. apply list_elem_of_In. exact Hq.
  - rewrite Hm. cbn [round2]. eexists. split; [reflexivity|].
    destruct Hb as [H1 H2]. split; apply Qround2_monotono; assumption.
Qed.

Lemma temperatura_mensal_entre_as_leituras_witness :
  let din :=
    [ (Some "01/01/2024 10:00", Some "20,5");
      (Some "01/01/2024 11:00", Some "22");
      (Some "02/01/2024 10:00", Some "25");
      (Some "sem data", Some "90");
      (Some "03/01/2024 10:00", None) ]%string in
  Forall (fun t =>
            exists v, Historico.t_Temp t = Fin v /\
                      (Qround2 20 <= v <= Qround2 25)%Q)
         (Historico.calcular_temperatura_media_mensal_inmet
            (H := Referencia.pandas) din).
Proof.
  intros din.
  apply (temperatura_mensal_entre_as_leituras (H := Referencia.pandas) din 20 25).
  set (l := omap (Historico.leitura (H := Referencia.pandas)) din).
  vm_compute in l. subst l.
  repeat (constructor;
          [eexists; split; [reflexivity | split; unfold Qle; simpl; lia]|]).
  constructor.
Defined.

(** ** Range and direction of the bias *)

Section FactosViesCotas.

Import Utils Estimativas.

Lemma media_dos_erros_cotas (lo hi : Q) (l : list LinhaPrecisao) :
  l <> [] ->
  Forall (fun r => exists x, Erro_Consumo r = Fin x /\ (lo <= x <= hi)%Q) l ->
  exists b, media (List.map Erro_Consumo l) = Fin b /\ (lo <= b <= hi)%Q.
Proof.
  intros Hne Hl. apply media_cotas.
  - destruct l; [congruence | discriminate].
  - apply Forall_forall. intros v Hv.
    apply list_elem_of_In, in_map_iff in Hv. destruct Hv as (r & <- & Hr).
    rewrite Forall_forall in Hl. apply Hl. apply list_elem_of_In. exact Hr.
Qed.

End FactosViesCotas.

(** X23.  When the consumption error of every [Real] row of the ledger is a
    number between [lo] and [hi], every bias that
    [carregar_vies_historico] yields, the global one and each per-month
    one, and hence the bias applied to any month, is a number between [lo]
    and [hi]. *)
Theorem vies_entre_os_erros
    (df : list LinhaPrecisao) (lo hi : Q) (mes_nome : string) (v : num) :
  Forall (fun r =>
            p_Tipo r = "Real"%string ->
            exists x, Erro_Consumo r = Fin x /\ (lo <= x <= hi)%Q) df ->
  Estimativas.vies_ajuste (Estimativas.carregar_vies_historico (Some df))
                          mes_nome = Some v ->
  exists b, v = Fin b /\ (lo <= b <= hi)%Q.
Proof.
  intros Hdf Hv. unfold Estimativas.carregar_vies_historico in Hv.
  set (df_hist := List.filter (fun r => String.eqb (p_Tipo r) "Real") df) in *.
  assert (Hh : Forall (fun r => exists x, Erro_Consumo r = Fin x /\
                                          (lo <= x <= hi)%Q) df_hist).
  { apply Forall_forall. intros r Hr. subst df_hist.
    apply list_elem_of_In, filter_In in Hr. destruct Hr as [Hr Ht].
    apply String.eqb_eq in Ht. rewrite Forall_forall in Hdf.
    apply Hdf; [apply list_elem_of_In; exact Hr | exact Ht]. }
  destruct (6 <=? length df_hist)%nat eqn:E6.
  - unfold Estimativas.vies_ajuste in Hv. cbn [fst snd] in Hv.
    rewrite vies_por_mes_lookup in Hv. cbv zeta in Hv.
    set (df_mes := List.filter (fun r => String.eqb (p_Mes r) mes_nome) df_hist)
      in *.
    destruct (3 <=? length df_mes)%nat eqn:E3.
    + injection Hv as <-. apply media_dos_erros_cotas.
      * apply Nat.leb_le in E3. destruct df_mes; [simpl in E3; lia | discriminate].
      * apply Forall_forall. intros r Hr. subst df_mes.
        apply list_elem_of_In, filter_In in Hr. destruct Hr as [Hr _].
        rewrite Forall_forall in Hh. apply Hh. apply list_elem_of_In. exact Hr.
    + injection Hv as <-. apply media_dos_erros_cotas; [|exact Hh].
      apply Nat.leb_le in E6. destruct df_hist; [simpl in E6; lia | discriminate].
  - unfold Estimativas.vies_ajuste in Hv. cbn [fst snd] in Hv.
    rewrite lookup_empty in Hv. discriminate.
Qed.

Lemma vies_entre_os_erros_witness :
  exists b, Fin (18 # 6) = Fin b /\ (2 <= b <= 4)%Q.
Proof.
  apply (vies_entre_os_erros
           [ linha_precisao 2024 "Janeiro" "Real" (Fin 2);
             linha_precisao 2024 "Fevereiro" "Real" (Fin 4);
             linha_precisao 2024 "Março" "Real" (Fin 2);
             linha_precisao 2024 "Abril" "Real" (Fin 4);
             linha_precisao 2024 "Maio" "Real" (Fin 2);
             linha_precisao 2024 "Junho" "Real" (Fin 4);
             linha_precisao 2024 "Julho" "Projetado" (Fin 50) ]
           2 4 "Agosto"%string (Fin (18 # 6))).
  - repeat (constructor;
            [intros Ht;
             first [discriminate Ht
                   |eexists; split; [reflexivity | split; unfold Qle; simpl; lia]]
            |]).
    constructor.
  - vm_compute. reflexivity.
Defined.

Section FactosDirecao.

Import Utils Estimativas.
Context `{Biblioteca}.

Lemma round_half_even_inteiro (z : Z) : round_half_even (inject_Z z) = z.
Proof.
  unfold round_half_even. rewrite Qfloor_Z.
  assert (C : (inject_Z z - inject_Z z ?= 1 # 2)%Q = Lt).
  { apply (proj1 (Qlt_alt _ _)). lra. }
  rewrite C. reflexivity.
Qed.

Lemma Qround2_idempotente (x : Q) : Qround2 (Qround2 x) = Qround2 x.
Proof.
  unfold Qround2 at 2. unfold Qround_casas.
  set (z := round_half_even (x * inject_Z (10 ^ Z.of_nat 2))).
  rewrite (Qround2_comp (Qred (inject_Z z / inject_Z (10 ^ Z.of_nat 2)))
                        (inject_Z z / inject_Z (10 ^ Z.of_nat 2)))
    by apply Qred_correct.
  unfold Qround2, Qround_casas.
  rewrite (round_half_even_comp
             (inject_Z z / inject_Z (10 ^ Z.of_nat 2)
              * inject_Z (10 ^ Z.of_nat 2))
             (inject_Z z)).
  - rewrite round_half_even_inteiro. reflexivity.
  - change (inject_Z (10 ^ Z.of_nat 2)) with 100%Q. field.
Qed.

(** The corrected value moves in the direction of the sign of the bias. *)
Lemma aplicar_vies_direcao (b x : Q) :
  (0 <= Qround2 x)%Q ->
  exists c,
    aplicar_vies (Some (Fin b)) (Some (Fin (Qround2 x))) = Some (Fin c) /\
    ((0 <= b)%Q -> (Qround2 x <= c)%Q) /\
    ((b <= 0)%Q -> (c <= Qround2 x)%Q).
Proof.
  intros He. unfold aplicar_vies. cbn [fdiv].
  rewrite (Qzero_false 100) by (unfold Qeq; simpl; lia).
  cbn [fadd fmul round2]. eexists. split; [reflexivity|].
  set (e := Qround2 x) in *.
  assert (Hid : Qround2 e = e) by apply Qround2_idempotente.
  split; intros Hb.
  - apply Qle_trans with (Qround2 e); [rewrite Hid; apply Qle_refl|].
    apply Qround2_monotono.
    assert (Hp : (0 <= e * (b / 100))%Q).
    { apply Qmult_le_0_compat; [exact He|]. apply Qle_shift_div_l; lra. }
    rewrite Qmult_plus_distr_r. lra.
  - apply Qle_trans with (Qround2 e); [|rewrite Hid; apply Qle_refl].
    apply Qround2_monotono.
    assert (Hp : (0 <= e * (- b / 100))%Q).
    { apply Qmult_le_0_compat; [exact He|]. apply Qle_shift_div_l; lra. }
    assert (E : (e * (1 + b / 100) == e - e * (- b / 100))%Q) by field.
    apply Qle_trans with (e - e * (- b / 100))%Q; [|lra].
    rewrite E. apply Qle_refl.
Qed.

Lemma esperado_e_arredondado df m a parcial dm dd e :
  esperado (estimar_consumo_mensal df m a parcial dm dd) = Some (Fin e) ->
  exists x, e = Qround2 x.
Proof.
  unfold estimar_consumo_mensal.
  destruct (negb (forallb _ _)); [discriminate|].
  destruct (vazio _); [discriminate|].
  cbv zeta. cbn [esperado]. unfold arredondar_ou_nulo.
  match goal with |- context [notnull ?v] => destruct v as [|s|x] end;
    cbn [notnull is_nan negb round2]; try discriminate.
  intros [= <-]. eauto.
Qed.

End FactosDirecao.

(** X24.  Sign of the bias and direction of the correction.  The
    consumption error of the ledger is positive exactly when the estimate
    is above a positive recorded value.  In the table of the following
    year, a row with a bias [b] and an expected consumption [e >= 0] has a
    corrected consumption [c >= e] when [b >= 0] and [c <= e] when
    [b <= 0]: a positive bias, that is estimates that ran above the
    recorded values, raises the projection further instead of lowering
    it. *)
Theorem correcao_segue_o_sinal_do_vies
    `{Biblioteca}
    (hoje : Estimativas.Data) (precisao : option (list LinhaPrecisao))
    (df : Estimativas.Tabela) :
  (forall est real : Q,
     (0 < real)%Q ->
     exists x,
       Validacao.erro_pct (Fin est) (Fin real) = Fin x /\
       ((0 < x)%Q <-> (real < est)%Q)) /\
  Forall
    (fun r =>
       forall b e,
         Estimativas.vies_ajuste (Estimativas.carregar_vies_historico precisao)
                                 (Estimativas.e_Mes r) = Some (Fin b) ->
         Estimativas.Consumo_Esperado r = Some (Fin e) ->
         (0 <= e)%Q ->
         exists c,
           Estimativas.Consumo_Corrigido r = Some (Fin c) /\
           ((0 <= b)%Q -> (e <= c)%Q) /\
           ((b <= 0)%Q -> (c <= e)%Q))
    (Estimativas.estimar_consumo_ano_seguinte hoje precisao df).
Proof.
  split.
  - intros est real Hr. unfold Validacao.erro_pct. cbn [replace_zero_nan].
    rewrite (Qzero_false real) by lra. cbn [fsub fopp fadd fdiv].
    rewrite (Qzero_false real) by lra. cbn [fmul].
    eexists. split; [reflexivity|].
    assert (E : ((est + - real) / real * 100 == (est - real) * (100 / real))%Q)
      by (field; lra).
    rewrite E.
    assert (Hk : (0 < 100 / real)%Q) by (apply Qlt_shift_div_l; lra).
    set (k := (100 / real)%Q) in *. clearbody k. split.
    + intros Hx.
      destruct (Qlt_le_dec real est) as [L|L]; [exact L|]. exfalso.
      assert (Hn : (0 <= (real - est) * k)%Q)
        by (apply Qmult_le_0_compat; lra).
      assert (E2 : ((est - real) * k == - ((real - est) * k))%Q) by ring.
      rewrite E2 in Hx. lra.
    + intros L. apply Qmult_lt_0_compat; lra.
  - unfold Estimativas.estimar_consumo_ano_seguinte.
    apply Forall_forall. intros r Hr.
    apply list_elem_of_In, in_map_iff in Hr. destruct Hr as (m & <- & _).
    destruct (linha_ano_seguinte_corrigido
                hoje (Estimativas.carregar_vies_historico precisao) df m)
      as (Hm & _ & Hc).
    intros b e Hb He He0. rewrite Hc, Hm in *. rewrite Hb, He.
    assert (Hx : exists x, e = Qround2 x).
    { unfold Estimativas.linha_ano_seguinte in He.
      repeat match goal with
             | He : context [let '(_, _) := Estimativas.calcular_diferenca ?a ?b in _] |- _ =>
                 destruct (Estimativas.calcular_diferenca a b)
             end.
      cbn [Estimativas.Consumo_Esperado] in He.
      apply esperado_e_arredondado in He. exact He. }
    destruct Hx as (x & ->). apply aplicar_vies_direcao. exact He0.
Qed.

(** ** The current month without a consumption *)

Section FactosMesCorrente.

Import Utils Calendario Estimativas.
Context `{Biblioteca}.

Lemma dias_no_mes_verdadeiro (y m : Z) :
  verdadeiro (Some (dias_no_mes y m)) = true.
Proof.
  unfold verdadeiro, dias_no_mes.
  destruct (m =? 2)%Z; [destruct (bissexto y); reflexivity|].
  destruct ((m =? 4) || (m =? 6) || (m =? 9) || (m =? 11))%Z; reflexivity.
Qed.

(** The band computed from a partial consumption that is empty. *)
Lemma faixa_de_parcial_vazio df m a (d dm : Z) :
  d <> 0 -> verdadeiro (Some dm) = true ->
  let f := estimar_consumo_mensal df m a (Some NaN) (Some d) (Some dm) in
  esperado f = None /\ max f = None /\
  (min f = None \/ min f = Some (Fin 0)).
Proof.
  intros Hd Hdm. cbv zeta. unfold estimar_consumo_mensal.
  destruct (negb (forallb _ _)); [cbn; auto|].
  destruct (vazio _); [cbn; auto|].
  cbv zeta. rewrite Hdm.
  assert (Hv : verdadeiro (Some d) = true).
  { unfold verdadeiro. apply negb_true_iff. apply Z.eqb_neq. exact Hd. }
  rewrite Hv. cbn [andb fdiv fmul fsub fadd fopp esperado max min].
  repeat split; try reflexivity. right. reflexivity.
Qed.

End FactosMesCorrente.

(** X25.  In the table of the current year, when the history table has a
    row for the current month whose consumption is empty (a month known
    from the temperature only), the row of the current month has no
    expected, corrected or maximum consumption, and a minimum that is 0 or
    empty: the empty partial value is projected as it is, and the history
    of the month is not used in its place. *)
Theorem mes_corrente_sem_consumo_fica_vazio
    `{Biblioteca}
    (hoje : Estimativas.Data) (vies : option num * gmap string num)
    (df : Estimativas.Tabela) (mes_nome : string)
    (r : Estimativas.Linha) (resto : list Estimativas.Linha) :
  Estimativas.dia hoje <> 0 ->
  List.filter
    (fun x => (Estimativas.Ano x =? Estimativas.ano hoje)%Z
              && String.eqb (Estimativas.Mes x) mes_nome)
    (Estimativas.linhas df) = r :: resto ->
  Estimativas.celula r "Consumo (KWh)" = NaN ->
  let e :=
    Estimativas.linha_ano_vigente hoje vies df (Estimativas.mes hoje) mes_nome in
  Estimativas.e_Tipo e = "Corrigido"%string /\
  Estimativas.Consumo_Esperado e = None /\
  Estimativas.Consumo_Corrigido e = None /\
  Estimativas.Consumo_Max e = None /\
  (Estimativas.Consumo_Min e = None \/
   Estimativas.Consumo_Min e = Some (Fin 0)).
Proof.
  intros Hd Hf Hnan. cbv zeta. unfold Estimativas.linha_ano_vigente.
  rewrite Z.ltb_irrefl, Z.eqb_refl, Hf. cbn [Estimativas.primeira].
  rewrite Hnan.
  destruct (faixa_de_parcial_vazio df mes_nome (Some (Estimativas.ano hoje))
              (Estimativas.dia hoje)
              (Calendario.dias_no_mes (Estimativas.ano hoje)
                                      (Estimativas.mes hoje))
              Hd (dias_no_mes_verdadeiro _ _)) as (He & Hmax & Hmin).
  repeat match goal with
         | |- context [let '(_, _) := Estimativas.calcular_diferenca ?a ?b in _] =>
             destruct (Estimativas.calcular_diferenca a b)
         end.
  cbn [Estimativas.e_Tipo Estimativas.Consumo_Esperado
       Estimativas.Consumo_Corrigido Estimativas.Consumo_Max
       Estimativas.Consumo_Min].
  change ("Corrigido" =? "Projetado")%string with false. cbv iota.
  rewrite He, Hmax. repeat split; try reflexivity. exact Hmin.
Qed.

Lemma mes_corrente_sem_consumo_fica_vazio_witness :
  let hoje := {| Estimativas.ano := 2024; Estimativas.mes := 5;
                 Estimativas.dia := 10 |} in
  let df := tabela_hist [linha_hist 2022 "Maio" 100;
                         linha_hist 2023 "Maio" 120;
                         linha_hist_vazia 2024 "Maio"] in
  let e :=
    Estimativas.linha_ano_vigente (H := Referencia.pandas) hoje (None, ∅) df
      (Estimativas.mes hoje) "Maio" in
  Estimativas.e_Tipo e = "Corrigido"%string /\
  Estimativas.Consumo_Esperado e = None /\
  Estimativas.Consumo_Corrigido e = None /\
  Estimativas.Consumo_Max e = None /\
  (Estimativas.Consumo_Min e = None \/
   Estimativas.Consumo_Min e = Some (Fin 0)).
Proof.
  intros hoje df.
  apply (mes_corrente_sem_consumo_fica_vazio (H := Referencia.pandas)
           hoje (None, ∅) df "Maio" (linha_hist_vazia 2024 "Maio") []).
  - discriminate.
  - reflexivity.
  - reflexivity.
Defined.
